(** * ortho_clinical_ui: session state machine and clinician review workflow

    A shallow embedding of the FastAPI back end:
      - [api/models/session.py], [api/models/review.py]  (data model, request validation)
      - [storage/sessions.py]                            (in-memory store)
      - [intelligence/adapter.py]                        (adapter over the external engine)
      - [api/routes/session.py], [chat.py], [review.py]  (request handlers)

    Python objects are mutable and shared: [SessionStorage._sessions] maps a
    session id to a *reference* to a [Session] object, and the handlers mutate
    the object they obtained from [storage.get] in place.  The embedding keeps
    an explicit object heap so that this aliasing is visible: a field write is
    a heap write, and it is observed through the store whether or not
    [storage.update] is reached.

    Conventions.
      - [str] is modelled by [string]; the character functions ([strip],
        [upper], [isalpha]) are given on the ASCII range, which is the range
        ICD-10 codes live in.
      - [int] is [Z]; [datetime] is a clock reading in [Z] handed to the
        handler that calls [datetime.utcnow()].
      - [uuid.uuid4()] is an input of [create_session].
      - a raised exception is a value of [exn]; a handler is a function from
        the world to a result-or-exception together with the world reached. *)

From Stdlib Require Import ZArith Ascii String Lia.
From stdpp Require Import gmap strings list fin_maps pretty.

Local Open Scope string_scope.
Local Open Scope Z_scope.

(** ** Python built-ins used by the code *)

(** Truthiness of an [Optional[str]]: [None] and [""] are falsy. *)
Definition truthy (o : option string) : bool :=
  match o with
  | None => false
  | Some EmptyString => false
  | Some (String _ _) => true
  end.

(** [len(s)] as a Python [int]. *)
Definition len (s : string) : Z := Z.of_nat (String.length s).

(** [c.isspace()] on ASCII: TAB, LF, VT, FF, CR, FS, GS, RS, US and SPACE. *)
Definition isspace (c : ascii) : bool :=
  let n := nat_of_ascii c in
  ((9 <=? n)%nat && (n <=? 13)%nat) || ((28 <=? n)%nat && (n <=? 32)%nat).

(** [c.isalpha()] on ASCII. *)
Definition isalpha (c : ascii) : bool :=
  let n := nat_of_ascii c in
  ((65 <=? n)%nat && (n <=? 90)%nat) || ((97 <=? n)%nat && (n <=? 122)%nat).

Definition upper_char (c : ascii) : ascii :=
  let n := nat_of_ascii c in
  if ((97 <=? n)%nat && (n <=? 122)%nat)%bool then ascii_of_nat (n - 32) else c.

(** [s.upper()] *)
Fixpoint upper (s : string) : string :=
  match s with
  | EmptyString => EmptyString
  | String c r => String (upper_char c) (upper r)
  end.

(** [s.lstrip()] *)
Fixpoint lstrip (s : string) : string :=
  match s with
  | EmptyString => EmptyString
  | String c r => if isspace c then lstrip r else s
  end.

(** [s.rstrip()] *)
Fixpoint rstrip (s : string) : string :=
  match s with
  | EmptyString => EmptyString
  | String c r =>
      match rstrip r with
      | EmptyString => if isspace c then EmptyString else String c EmptyString
      | r' => String c r'
      end
  end.

(** [s.strip()] *)
Definition strip (s : string) : string := rstrip (lstrip s).

(** ** Exceptions *)

(** The exceptions that occur in the code.  [RequestValidationError] is what
    FastAPI raises (HTTP 422) when pydantic reports a [ValidationError] for a
    request body; it carries the (field, error type) pairs.  [EngineError]
    stands for any other exception coming out of the external engine;
    [ValidationError] is pydantic's own, raised when a model is constructed
    inside a handler from a value of the wrong type. *)
Inductive exn :=
| HTTPException (status_code : Z) (detail : string)
| RequestValidationError (errors : list (string * string))
| ValidationError (errors : list (string * string))
| ValueError (msg : string)
| KeyError (msg : string)
| IndexError (msg : string)
| EngineError (msg : string).

(** The error taxonomy of the API, as the handlers raise it. *)
Definition NotFound : exn := HTTPException 404 "Session not found".
Definition is_ValidationError (e : exn) : bool :=
  match e with RequestValidationError _ => true | _ => false end.

(** ** api/models/session.py *)

Inductive SessionStatus := IN_PROGRESS | PENDING_REVIEW | REVIEWED.

Definition value (s : SessionStatus) : string :=
  match s with
  | IN_PROGRESS => "in_progress"
  | PENDING_REVIEW => "pending_review"
  | REVIEWED => "reviewed"
  end.

#[global] Instance SessionStatus_eq_dec : EqDecision SessionStatus.
Proof. solve_decision. Defined.

(** [Literal["accepted", "rejected_replaced"]] *)
Inductive Decision := accepted | rejected_replaced.

Module PatientResponse.
Record t := mk {
  question_id : string;
  question_text : string;
  answer : string;
  timestamp : Z }.
End PatientResponse.

Module Question.
Record t := mk {
  question_id : string;
  text : string;
  question_type : string;
  options : option (list string) }.
End Question.

Module Session.
Record t := mk {
  session_id : string;
  status : SessionStatus;
  created_at : Z;
  chief_complaint : option string;
  patient_responses : list PatientResponse.t;
  suggested_icd10 : option string;
  suggested_condition_name : option string;
  reviewed_at : option Z;
  clinician_id : option string;
  decision : option Decision;
  final_icd10 : option string;
  clinician_notes : option string;
  current_question_id : option string;
  questions_asked : Z }.

(** Attribute assignments [session.f = v]. *)
Definition set_status v s :=
  mk (session_id s) v (created_at s) (chief_complaint s) (patient_responses s)
     (suggested_icd10 s) (suggested_condition_name s) (reviewed_at s) (clinician_id s)
     (decision s) (final_icd10 s) (clinician_notes s) (current_question_id s)
     (questions_asked s).
Definition set_patient_responses v s :=
  mk (session_id s) (status s) (created_at s) (chief_complaint s) v
     (suggested_icd10 s) (suggested_condition_name s) (reviewed_at s) (clinician_id s)
     (decision s) (final_icd10 s) (clinician_notes s) (current_question_id s)
     (questions_asked s).
Definition set_suggested_icd10 v s :=
  mk (session_id s) (status s) (created_at s) (chief_complaint s) (patient_responses s)
     v (suggested_condition_name s) (reviewed_at s) (clinician_id s)
     (decision s) (final_icd10 s) (clinician_notes s) (current_question_id s)
     (questions_asked s).
Definition set_suggested_condition_name v s :=
  mk (session_id s) (status s) (created_at s) (chief_complaint s) (patient_responses s)
     (suggested_icd10 s) v (reviewed_at s) (clinician_id s)
     (decision s) (final_icd10 s) (clinician_notes s) (current_question_id s)
     (questions_asked s).
Definition set_reviewed_at v s :=
  mk (session_id s) (status s) (created_at s) (chief_complaint s) (patient_responses s)
     (suggested_icd10 s) (suggested_condition_name s) v (clinician_id s)
     (decision s) (final_icd10 s) (clinician_notes s) (current_question_id s)
     (questions_asked s).
Definition set_clinician_id v s :=
  mk (session_id s) (status s) (created_at s) (chief_complaint s) (patient_responses s)
     (suggested_icd10 s) (suggested_condition_name s) (reviewed_at s) v
     (decision s) (final_icd10 s) (clinician_notes s) (current_question_id s)
     (questions_asked s).
Definition set_decision v s :=
  mk (session_id s) (status s) (created_at s) (chief_complaint s) (patient_responses s)
     (suggested_icd10 s) (suggested_condition_name s) (reviewed_at s) (clinician_id s)
     v (final_icd10 s) (clinician_notes s) (current_question_id s)
     (questions_asked s).
Definition set_final_icd10 v s :=
  mk (session_id s) (status s) (created_at s) (chief_complaint s) (patient_responses s)
     (suggested_icd10 s) (suggested_condition_name s) (reviewed_at s) (clinician_id s)
     (decision s) v (clinician_notes s) (current_question_id s)
     (questions_asked s).
Definition set_clinician_notes v s :=
  mk (session_id s) (status s) (created_at s) (chief_complaint s) (patient_responses s)
     (suggested_icd10 s) (suggested_condition_name s) (reviewed_at s) (clinician_id s)
     (decision s) (final_icd10 s) v (current_question_id s)
     (questions_asked s).
Definition set_current_question_id v s :=
  mk (session_id s) (status s) (created_at s) (chief_complaint s) (patient_responses s)
     (suggested_icd10 s) (suggested_condition_name s) (reviewed_at s) (clinician_id s)
     (decision s) (final_icd10 s) (clinician_notes s) v
     (questions_asked s).
Definition set_questions_asked v s :=
  mk (session_id s) (status s) (created_at s) (chief_complaint s) (patient_responses s)
     (suggested_icd10 s) (suggested_condition_name s) (reviewed_at s) (clinician_id s)
     (decision s) (final_icd10 s) (clinician_notes s) (current_question_id s)
     v.

(** [Session(session_id=..., status=..., created_at=..., chief_complaint=...)]
    with every other field at its declared default. *)
Definition new (sid : string) (st : SessionStatus) (now : Z) (cc : string) : t :=
  mk sid st now (Some cc) [] None None None None None None None None 0.
End Session.

(** ** api/models/review.py *)

Module AcceptDecision.
(** The fields of the model (also the shape of the JSON body). *)
Record t := mk { clinician_id : string; notes : string }.

(** Model construction from a request body:
    [clinician_id: str = Field(..., min_length=1)],
    [notes: str = Field(..., min_length=10)].
    pydantic checks every field and reports all failures together. *)
Definition validate (raw : t) : exn + t :=
  let e1 := if len (clinician_id raw) <? 1
            then [("clinician_id", "string_too_short")] else [] in
  let e2 := if len (notes raw) <? 10
            then [("notes", "string_too_short")] else [] in
  match (e1 ++ e2)%list with
  | [] => inr raw
  | errs => inl (RequestValidationError errs)
  end.
End AcceptDecision.

Module RejectReplaceDecision.
Record t := mk { clinician_id : string; replacement_icd10 : string; reason : string }.

(** [validate_icd10_format]: the [field_validator] of [replacement_icd10]. *)
Definition validate_icd10_format (v : string) : exn + string :=
  let v := upper (strip v) in
  match v with
  | EmptyString => inl (IndexError "string index out of range")
  | String c _ =>
      if negb (isalpha c)
      then inl (ValueError "ICD-10 code must start with a letter")
      else inr v
  end.

(** Model construction from a request body.  Fields are validated in
    declaration order.  For [replacement_icd10] the [min_length=3]
    constraint is checked on the raw string first, and the field validator
    runs only when it passed.  A [ValueError] from the validator is
    collected as a validation error of the field; any other exception is not
    caught by pydantic and leaves the construction at once. *)
Definition validate (raw : t) : exn + t :=
  let e1 := if len (clinician_id raw) <? 1
            then [("clinician_id", "string_too_short")] else [] in
  let e3 := if len (reason raw) <? 20
            then [("reason", "string_too_short")] else [] in
  if len (replacement_icd10 raw) <? 3 then
    inl (RequestValidationError (e1 ++ [("replacement_icd10", "string_too_short")] ++ e3)%list)
  else
    match validate_icd10_format (replacement_icd10 raw) with
    | inr v =>
        match (e1 ++ e3)%list with
        | [] => inr (mk (clinician_id raw) v (reason raw))
        | errs => inl (RequestValidationError errs)
        end
    | inl (ValueError _) =>
        inl (RequestValidationError (e1 ++ [("replacement_icd10", "value_error")] ++ e3)%list)
    | inl e => inl e
    end.
End RejectReplaceDecision.

(** ** Response models of the routes *)

Module CreateSessionRequest.
Record t := mk { chief_complaint : string }.

(** Model construction from a request body: the only field is declared
    [chief_complaint: str], with no [Field] constraint and no validator, so
    every string is accepted as it is. *)
Definition validate (raw : t) : exn + t := inr raw.
End CreateSessionRequest.

Module CreateSessionResponse.
Record t := mk { session_id : string; status : string; created_at : Z }.
End CreateSessionResponse.

(** "Session details (patient-safe)" *)
Module SessionResponse.
Record t := mk {
  session_id : string;
  status : string;
  created_at : Z;
  questions_asked : Z }.
End SessionResponse.

Module StartChatResponse.
Record t := mk { session_id : string; question : option Question.t; message : string }.
End StartChatResponse.

Module AnswerRequest.
Record t := mk { answer : string }.
End AnswerRequest.

Module AnswerResponse.
Record t := mk {
  session_id : string;
  question : option Question.t;
  complete : bool;
  message : string }.
End AnswerResponse.

Module ReviewResult.
Record t := mk {
  session_id : string;
  decision : string;
  final_icd10 : string;
  reviewed_by : string;
  reviewed_at : Z }.
End ReviewResult.

(** ** config.py *)

Module Settings.
Record t := mk {
  api_host : string;
  api_port : Z;
  demo_clinician_id : string;
  engine_version : string }.
Definition default : t := mk "0.0.0.0" 8000 "demo_clinician" "1.0.0".
End Settings.

(** ** The external engine (package [ortho_intelligence])

    The package is not part of the repository; the adapter only relies on the
    interface below.  A [ClinicalSession] is a mutable object: every method
    returns its result (or the exception it raised) together with the state
    the object is left in. *)

Module Engine.
Record Question := mkQuestion {
  question_id : string;
  text : string;
  question_type : string;
  options : option (list string) }.
Record Condition := mkCondition { name : string; icd10_codes : list string }.
Record Result := mkResult { differential : list Condition; audit_hash : string }.

Record Class := mkClass {
  ClinicalSession : Type;
  (** [ClinicalSession(session_id=..., engine_version=...)] *)
  init : string -> string -> exn + ClinicalSession;
  (** [session.start_assessment(chief_complaint)] *)
  start_assessment : ClinicalSession -> string -> (exn + option Question) * ClinicalSession;
  (** [session.answer_question(question_id, answer)] *)
  answer_question :
    ClinicalSession -> string -> string -> (exn + option Question) * ClinicalSession;
  (** [session.evaluate()] *)
  evaluate : ClinicalSession -> (exn + Result) * ClinicalSession }.
End Engine.

(** ** intelligence/adapter.py: result types *)

Module QuestionResult.
Record t := mk {
  question_id : string;
  text : string;
  question_type : string;
  options : option (list string) }.

(** [QuestionResult(question_id=q.question_id, ...,
      options=list(q.options) if q.options else None)] *)
Definition of_engine (q : Engine.Question) : t :=
  mk (Engine.question_id q) (Engine.text q) (Engine.question_type q)
     (match Engine.options q with
      | Some (o :: os) => Some (o :: os)
      | _ => None
      end).

(** [Question(question_id=r.question_id, text=r.text, ...)] in the routes. *)
Definition to_Question (r : t) : Question.t :=
  Question.mk (question_id r) (text r) (question_type r) (options r).
End QuestionResult.

Module EvaluationResult.
Record t := mk { suggested_icd10 : string; condition_name : string; audit_hash : string }.
End EvaluationResult.

(** ** What a running process is configured with

    The engine class that [from ortho_intelligence import ClinicalSession]
    provides, whether that import succeeded ([INTELLIGENCE_AVAILABLE]), and
    the settings read by [get_settings()]. *)
Record Deployment := mkDeployment {
  engine : Engine.Class;
  INTELLIGENCE_AVAILABLE : bool;
  settings : Settings.t }.

Section Backend.

Variable D : Deployment.
Local Abbreviation E := (engine D).

(** ** The state of the process

    [heap] holds the [Session] objects; a reference is an index into it.
    [storage_sessions] is [SessionStorage._sessions], from session id to
    reference.  [adapter_sessions] is [IntelligenceAdapter._sessions]; each
    [ClinicalSession] object is bound to one key when it is created and
    never shared, so the map holds its state directly. *)
Record World := mkWorld {
  heap : list Session.t;
  storage_sessions : gmap string nat;
  adapter_sessions : gmap string (Engine.ClinicalSession E) }.

Definition initial_world : World := mkWorld [] ∅ ∅.

(** The session object a session id denotes, if any. *)
Definition session_of (w : World) (sid : string) : option Session.t :=
  match storage_sessions w !! sid with
  | Some l => heap w !! l
  | None => None
  end.

(** ** Handlers: state and exceptions *)

Definition M (A : Type) : Type := World -> (exn + A) * World.

Definition ret {A} (a : A) : M A := fun w => (inr a, w).
Definition raise {A} (e : exn) : M A := fun w => (inl e, w).
Definition bind {A B} (m : M A) (k : A -> M B) : M B :=
  fun w => match m w with
           | (inr a, w') => k a w'
           | (inl e, w') => (inl e, w')
           end.
(** [try: m  except ...: h e]; the state reached when the exception was
    raised is kept. *)
Definition try_except {A} (m : M A) (h : exn -> M A) : M A :=
  fun w => match m w with
           | (inr a, w') => (inr a, w')
           | (inl e, w') => h e w'
           end.

Notation "'let*' x ':=' m 'in' k" := (bind m (fun x => k))
  (at level 10, x name, m at level 100, k at level 200).
Notation "m ';;' k" := (bind m (fun _ => k))
  (at level 100, k at level 200, right associativity).

(** Object construction, attribute read and attribute write. *)
Definition alloc (s : Session.t) : M nat :=
  fun w => (inr (length (heap w)),
            mkWorld (heap w ++ [s]) (storage_sessions w) (adapter_sessions w)).

(** A reference held by a handler always comes from the store, so the
    [None] case is never taken in a run; [KeyError] there only makes the
    function total. *)
Definition load (l : nat) : M Session.t :=
  fun w => match heap w !! l with
           | Some s => (inr s, w)
           | None => (inl (KeyError "dangling reference"), w)
           end.

Definition assign (l : nat) (f : Session.t -> Session.t) : M unit :=
  fun w => (inr tt, mkWorld (alter f l (heap w)) (storage_sessions w) (adapter_sessions w)).

(** ** storage/sessions.py *)

(** [SessionStorage.create] *)
Definition storage_create (l : nat) : M unit :=
  let* s := load l in
  fun w => (inr tt, mkWorld (heap w) (<[Session.session_id s := l]> (storage_sessions w))
                            (adapter_sessions w)).

(** [SessionStorage.get] *)
Definition storage_get (sid : string) : M (option nat) :=
  fun w => (inr (storage_sessions w !! sid), w).

(** [SessionStorage.update] *)
Definition storage_update (l : nat) : M unit :=
  let* s := load l in
  fun w =>
    match storage_sessions w !! Session.session_id s with
    | None => (inl (KeyError ("Session " ++ Session.session_id s ++ " not found")), w)
    | Some _ =>
        (inr tt, mkWorld (heap w) (<[Session.session_id s := l]> (storage_sessions w))
                         (adapter_sessions w))
    end.

(** ** intelligence/adapter.py *)

Definition set_adapter_session (sid : string) (c : Engine.ClinicalSession E) : M unit :=
  fun w => (inr tt, mkWorld (heap w) (storage_sessions w) (<[sid := c]> (adapter_sessions w))).

Definition adapter_get (sid : string) : M (option (Engine.ClinicalSession E)) :=
  fun w => (inr (adapter_sessions w !! sid), w).

(** A method call on the [ClinicalSession] object stored under [sid]. *)
Definition call {A} (sid : string) (c : Engine.ClinicalSession E)
    (method : Engine.ClinicalSession E -> (exn + A) * Engine.ClinicalSession E) : M A :=
  fun w => let '(r, c') := method c in
           (r, mkWorld (heap w) (storage_sessions w) (<[sid := c']> (adapter_sessions w))).

Definition _mock_start_session (session_id chief_complaint : string) : QuestionResult.t :=
  QuestionResult.mk "q1_location" "Where is your pain located?" "categorical"
    (Some ["Knee"; "Hip"; "Shoulder"; "Ankle"; "Other"]).

Definition _mock_answer_question (session_id question_id answer : string)
    : option QuestionResult.t :=
  if String.eqb question_id "q1_location" then
    Some (QuestionResult.mk "q2_duration" "How long have you had this pain?" "categorical"
            (Some ["Less than 1 week"; "1-4 weeks"; "1-3 months"; "More than 3 months"]))
  else if String.eqb question_id "q2_duration" then
    Some (QuestionResult.mk "q3_stairs" "Does the pain worsen when climbing stairs?"
            "boolean" (Some ["Yes"; "No"]))
  else if String.eqb question_id "q3_stairs" then
    Some (QuestionResult.mk "q4_swelling" "Have you noticed any swelling?" "categorical"
            (Some ["None"; "Occasional"; "Frequent"; "Constant"]))
  else if String.eqb question_id "q4_swelling" then
    Some (QuestionResult.mk "q5_stiffness" "How long does morning stiffness last?"
            "categorical"
            (Some ["Less than 30 minutes"; "30-60 minutes"; "More than 60 minutes"]))
  else None.

Definition _mock_evaluate (session_id : string) : EvaluationResult.t :=
  EvaluationResult.mk "M17.11" "Primary osteoarthritis, right knee" "mock-audit-hash-12345".

(** [IntelligenceAdapter.start_session] *)
Definition start_session (session_id chief_complaint : string)
    : M (option QuestionResult.t) :=
  if negb (INTELLIGENCE_AVAILABLE D) then
    ret (Some (_mock_start_session session_id chief_complaint))
  else
    match Engine.init E session_id (Settings.engine_version (settings D)) with
    | inl e => raise e
    | inr session =>
        set_adapter_session session_id session ;;
        let* question :=
          call session_id session (fun c => Engine.start_assessment E c chief_complaint) in
        match question with
        | None => ret None
        | Some q => ret (Some (QuestionResult.of_engine q))
        end
    end.

(** [IntelligenceAdapter.answer_question] *)
Definition answer_question (session_id question_id answer : string)
    : M (option QuestionResult.t) :=
  if negb (INTELLIGENCE_AVAILABLE D) then
    ret (_mock_answer_question session_id question_id answer)
  else
    let* session := adapter_get session_id in
    match session with
    | None => raise (ValueError ("Session " ++ session_id ++ " not found"))
    | Some session =>
        let* next_question :=
          call session_id session
               (fun c => Engine.answer_question E c question_id answer) in
        match next_question with
        | None => ret None
        | Some q => ret (Some (QuestionResult.of_engine q))
        end
    end.

(** The choice of the suggestion in [IntelligenceAdapter.evaluate]: the top
    condition of the differential and its first code. *)
Definition top_suggestion (result : Engine.Result) : string * string :=
  match Engine.differential result with
  | top_condition :: _ =>
      (match Engine.icd10_codes top_condition with
       | code :: _ => code
       | [] => "Z03.89"
       end,
       Engine.name top_condition)
  | [] => ("Z03.89", "Undetermined")
  end.

(** [IntelligenceAdapter.evaluate] *)
Definition evaluate (session_id : string) : M EvaluationResult.t :=
  if negb (INTELLIGENCE_AVAILABLE D) then
    ret (_mock_evaluate session_id)
  else
    let* session := adapter_get session_id in
    match session with
    | None => raise (ValueError ("Session " ++ session_id ++ " not found"))
    | Some session =>
        let* result := call session_id session (Engine.evaluate E) in
        let '(icd10, condition_name) := top_suggestion result in
        ret (EvaluationResult.mk icd10 condition_name (Engine.audit_hash result))
    end.

(** [IntelligenceAdapter.cleanup_session] *)
Definition cleanup_session (session_id : string) : M unit :=
  fun w => (inr tt, mkWorld (heap w) (storage_sessions w)
                            (delete session_id (adapter_sessions w))).

(** ** api/routes/session.py *)

(** [create_session]; [uuid] is the value of [str(uuid.uuid4())] and [now]
    the value of [datetime.utcnow()]. *)
Definition create_session (uuid : string) (now : Z) (request : CreateSessionRequest.t)
    : M CreateSessionResponse.t :=
  let* session :=
    alloc (Session.new uuid IN_PROGRESS now (CreateSessionRequest.chief_complaint request)) in
  storage_create session ;;
  let* s := load session in
  ret (CreateSessionResponse.mk (Session.session_id s) (value (Session.status s))
         (Session.created_at s)).

(** [get_session] (patient-safe version) *)
Definition get_session (session_id : string) : M SessionResponse.t :=
  let* session := storage_get session_id in
  match session with
  | None => raise NotFound
  | Some session =>
      let* s := load session in
      ret (SessionResponse.mk (Session.session_id s) (value (Session.status s))
             (Session.created_at s) (Session.questions_asked s))
  end.

(** ** api/routes/chat.py *)

Definition not_in_progress (st : SessionStatus) : exn :=
  HTTPException 400 ("Session is not in progress (status: " ++ value st ++ ")").

Definition complete_message : string :=
  "Assessment complete. A clinician will review your responses.".

(** [start_chat] *)
Definition start_chat (session_id : string) : M StartChatResponse.t :=
  let* session := storage_get session_id in
  match session with
  | None => raise NotFound
  | Some session =>
      let* s := load session in
      if negb (bool_decide (Session.status s = IN_PROGRESS)) then
        raise (not_in_progress (Session.status s))
      else if negb (truthy (Session.chief_complaint s)) then
        raise (HTTPException 400 "Chief complaint not set")
      else
        let* question_result :=
          start_session session_id (default "" (Session.chief_complaint s)) in
        match question_result with
        | None =>
            ret (StartChatResponse.mk session_id None complete_message)
        | Some question_result =>
            assign session
              (Session.set_current_question_id
                 (Some (QuestionResult.question_id question_result))) ;;
            storage_update session ;;
            ret (StartChatResponse.mk session_id
                   (Some (QuestionResult.to_Question question_result))
                   "Please answer the following question.")
        end
  end.

(** [get_next_question] *)
Definition get_next_question (session_id : string) : M AnswerResponse.t :=
  let* session := storage_get session_id in
  match session with
  | None => raise NotFound
  | Some session =>
      let* s := load session in
      match Session.status s with
      | PENDING_REVIEW => ret (AnswerResponse.mk session_id None true complete_message)
      | REVIEWED =>
          ret (AnswerResponse.mk session_id None true
                 "This session has been reviewed by a clinician.")
      | IN_PROGRESS =>
          ret (AnswerResponse.mk session_id None false
                 "Please use /start to begin the assessment.")
      end
  end.

Definition thank_you : string :=
  "Thank you. Your responses will be reviewed by a licensed clinician.".

(** [submit_answer]; [now] is the value of [datetime.utcnow()]. *)
Definition submit_answer (session_id : string) (now : Z) (request : AnswerRequest.t)
    : M AnswerResponse.t :=
  let* session := storage_get session_id in
  match session with
  | None => raise NotFound
  | Some session =>
      let* s := load session in
      if negb (bool_decide (Session.status s = IN_PROGRESS)) then
        raise (not_in_progress (Session.status s))
      else if negb (truthy (Session.current_question_id s)) then
        raise (HTTPException 400 "No active question. Please use /start to begin.")
      else
        let current_question_id := default "" (Session.current_question_id s) in
        let current_question_text := "Question " ++ pretty (Session.questions_asked s + 1) in
        (* Record the response *)
        let response :=
          PatientResponse.mk current_question_id current_question_text
            (AnswerRequest.answer request) now in
        assign session
          (fun s => Session.set_patient_responses
                      (Session.patient_responses s ++ [response])%list s) ;;
        assign session
          (fun s => Session.set_questions_asked (Session.questions_asked s + 1) s) ;;
        (* Get next question *)
        let* next_question :=
          try_except
            (answer_question session_id current_question_id (AnswerRequest.answer request))
            (fun e => match e with
                      | ValueError msg => raise (HTTPException 400 msg)
                      | _ => raise e
                      end) in
        match next_question with
        | None =>
            (* Assessment complete - evaluate and mark for review *)
            let* result := evaluate session_id in
            assign session
              (Session.set_suggested_icd10 (Some (EvaluationResult.suggested_icd10 result))) ;;
            assign session
              (Session.set_suggested_condition_name
                 (Some (EvaluationResult.condition_name result))) ;;
            assign session (Session.set_status PENDING_REVIEW) ;;
            assign session (Session.set_current_question_id None) ;;
            storage_update session ;;
            cleanup_session session_id ;;
            ret (AnswerResponse.mk session_id None true thank_you)
        | Some next_question =>
            assign session
              (Session.set_current_question_id
                 (Some (QuestionResult.question_id next_question))) ;;
            storage_update session ;;
            ret (AnswerResponse.mk session_id
                   (Some (QuestionResult.to_Question next_question)) false
                   "Please answer the following question.")
        end
  end.

(** [complete_assessment] *)
Definition complete_assessment (session_id : string) : M AnswerResponse.t :=
  let* session := storage_get session_id in
  match session with
  | None => raise NotFound
  | Some session =>
      let* s := load session in
      if negb (bool_decide (Session.status s = IN_PROGRESS)) then
        raise (not_in_progress (Session.status s))
      else
        (* Evaluate with current answers *)
        try_except
          (let* result := evaluate session_id in
           assign session
             (Session.set_suggested_icd10 (Some (EvaluationResult.suggested_icd10 result))) ;;
           assign session
             (Session.set_suggested_condition_name
                (Some (EvaluationResult.condition_name result))))
          (fun _ =>
             (* If evaluation fails, use default *)
             assign session (Session.set_suggested_icd10 (Some "Z03.89")) ;;
             assign session
               (Session.set_suggested_condition_name
                  (Some "Observation for suspected condition"))) ;;
        assign session (Session.set_status PENDING_REVIEW) ;;
        assign session (Session.set_current_question_id None) ;;
        storage_update session ;;
        cleanup_session session_id ;;
        ret (AnswerResponse.mk session_id None true thank_you)
  end.

(** ** api/routes/review.py *)

Definition not_pending_review (st : SessionStatus) : exn :=
  HTTPException 400 ("Session is not pending review (status: " ++ value st ++ ")").

Definition no_suggestion : exn :=
  HTTPException 400 "No suggested ICD-10 code available".

(** [ReviewResult(session_id=..., decision=..., final_icd10=session.final_icd10,
      reviewed_by=..., reviewed_at=session.reviewed_at)]: both [final_icd10]
    and [reviewed_at] are required, non-optional fields of the model. *)
Definition make_ReviewResult (session_id decision : string) (session : nat)
    (reviewed_by : string) : M ReviewResult.t :=
  let* s := load session in
  match Session.final_icd10 s, Session.reviewed_at s with
  | Some final, Some at_ => ret (ReviewResult.mk session_id decision final reviewed_by at_)
  | None, _ => raise (ValidationError [("final_icd10", "string_type")])
  | _, None => raise (ValidationError [("reviewed_at", "datetime_type")])
  end.

(** [accept_diagnosis]; [decision] is the validated body and [now] the
    value of [datetime.utcnow()]. *)
Definition accept_diagnosis (session_id : string) (now : Z) (decision : AcceptDecision.t)
    : M ReviewResult.t :=
  let* session := storage_get session_id in
  match session with
  | None => raise NotFound
  | Some session =>
      let* s := load session in
      if negb (bool_decide (Session.status s = PENDING_REVIEW)) then
        raise (not_pending_review (Session.status s))
      else if negb (truthy (Session.suggested_icd10 s)) then
        raise no_suggestion
      else
        (* Apply decision *)
        assign session (Session.set_status REVIEWED) ;;
        assign session (Session.set_reviewed_at (Some now)) ;;
        assign session
          (Session.set_clinician_id (Some (AcceptDecision.clinician_id decision))) ;;
        assign session (Session.set_decision (Some accepted)) ;;
        assign session (fun s => Session.set_final_icd10 (Session.suggested_icd10 s) s) ;;
        assign session
          (Session.set_clinician_notes (Some (AcceptDecision.notes decision))) ;;
        storage_update session ;;
        make_ReviewResult session_id "accepted" session
          (AcceptDecision.clinician_id decision)
  end.

(** [reject_and_replace] *)
Definition reject_and_replace (session_id : string) (now : Z)
    (decision : RejectReplaceDecision.t) : M ReviewResult.t :=
  let* session := storage_get session_id in
  match session with
  | None => raise NotFound
  | Some session =>
      let* s := load session in
      if negb (bool_decide (Session.status s = PENDING_REVIEW)) then
        raise (not_pending_review (Session.status s))
      else
        (* Apply decision *)
        assign session (Session.set_status REVIEWED) ;;
        assign session (Session.set_reviewed_at (Some now)) ;;
        assign session
          (Session.set_clinician_id (Some (RejectReplaceDecision.clinician_id decision))) ;;
        assign session (Session.set_decision (Some rejected_replaced)) ;;
        assign session
          (Session.set_final_icd10
             (Some (RejectReplaceDecision.replacement_icd10 decision))) ;;
        assign session
          (Session.set_clinician_notes (Some (RejectReplaceDecision.reason decision))) ;;
        storage_update session ;;
        make_ReviewResult session_id "rejected_replaced" session
          (RejectReplaceDecision.clinician_id decision)
  end.

(** ** The endpoints with a request body, as FastAPI serves them

    A parameter such as [decision: AcceptDecision] of a route makes FastAPI
    build the model from the request body before the handler is entered;
    when that fails, the handler does not run. *)
Definition CreateSession (uuid : string) (now : Z) (body : CreateSessionRequest.t)
    : M CreateSessionResponse.t :=
  match CreateSessionRequest.validate body with
  | inl e => raise e
  | inr request => create_session uuid now request
  end.

Definition AcceptSuggestion (session_id : string) (now : Z) (body : AcceptDecision.t)
    : M ReviewResult.t :=
  match AcceptDecision.validate body with
  | inl e => raise e
  | inr decision => accept_diagnosis session_id now decision
  end.

Definition RejectAndReplace (session_id : string) (now : Z)
    (body : RejectReplaceDecision.t) : M ReviewResult.t :=
  match RejectReplaceDecision.validate body with
  | inl e => raise e
  | inr decision => reject_and_replace session_id now decision
  end.

(** ** Runs of the API

    The requests that the patient chat and the review of one session are
    made of.  The routes left out ([GET /v1/review/{session_id}], the pending
    queue, the counts, [/health], [/]) build their response from the store
    and write nothing. *)

Inductive Request :=
| POST_sessions (uuid : string) (now : Z) (body : CreateSessionRequest.t)
| GET_sessions (session_id : string)
| POST_chat_start (session_id : string)
| GET_chat_next (session_id : string)
| POST_chat_answer (session_id : string) (now : Z) (body : AnswerRequest.t)
| POST_chat_complete (session_id : string)
| POST_review_accept (session_id : string) (now : Z) (body : AcceptDecision.t)
| POST_review_reject (session_id : string) (now : Z) (body : RejectReplaceDecision.t).

(** The state the process is in after serving a request. *)
Definition serve (r : Request) (w : World) : World :=
  match r with
  | POST_sessions uuid now body => snd (CreateSession uuid now body w)
  | GET_sessions sid => snd (get_session sid w)
  | POST_chat_start sid => snd (start_chat sid w)
  | GET_chat_next sid => snd (get_next_question sid w)
  | POST_chat_answer sid now body => snd (submit_answer sid now body w)
  | POST_chat_complete sid => snd (complete_assessment sid w)
  | POST_review_accept sid now body => snd (AcceptSuggestion sid now body w)
  | POST_review_reject sid now body => snd (RejectAndReplace sid now body w)
  end.

(** [uuid4] hands out identifiers that are not in use. *)
Definition fresh_uuid (w : World) (r : Request) : Prop :=
  match r with
  | POST_sessions uuid _ _ => storage_sessions w !! uuid = None
  | _ => True
  end.

Inductive reachable : World -> Prop :=
| reachable_init : reachable initial_world
| reachable_serve w r : reachable w -> fresh_uuid w r -> reachable (serve r w).

(** ** The session state machine the handlers implement

    The in-place updates the handlers make to one [Session] object, as
    functions on the object. *)

(** [patient_responses.append(r); questions_asked += 1] *)
Definition record_response (r : PatientResponse.t) (s : Session.t) : Session.t :=
  Session.set_questions_asked (Session.questions_asked s + 1)
    (Session.set_patient_responses (Session.patient_responses s ++ [r])%list s).

(** The record [submit_answer] appends for the session state [s]. *)
Definition response_for (s : Session.t) (now : Z) (request : AnswerRequest.t)
    : PatientResponse.t :=
  PatientResponse.mk (default "" (Session.current_question_id s))
    ("Question " ++ pretty (Session.questions_asked s + 1))
    (AnswerRequest.answer request) now.

(** The suggestion is stored and the session handed over for review. *)
Definition hand_over (icd10 condition_name : string) (s : Session.t) : Session.t :=
  Session.set_current_question_id None
    (Session.set_status PENDING_REVIEW
       (Session.set_suggested_condition_name (Some condition_name)
          (Session.set_suggested_icd10 (Some icd10) s))).

(** "Apply decision" in [accept_diagnosis]. *)
Definition apply_accept (now : Z) (d : AcceptDecision.t) (s : Session.t) : Session.t :=
  Session.set_clinician_notes (Some (AcceptDecision.notes d))
    (Session.set_final_icd10 (Session.suggested_icd10 s)
       (Session.set_decision (Some accepted)
          (Session.set_clinician_id (Some (AcceptDecision.clinician_id d))
             (Session.set_reviewed_at (Some now)
                (Session.set_status REVIEWED s))))).

(** "Apply decision" in [reject_and_replace]. *)
Definition apply_reject (now : Z) (d : RejectReplaceDecision.t) (s : Session.t)
    : Session.t :=
  Session.set_clinician_notes (Some (RejectReplaceDecision.reason d))
    (Session.set_final_icd10 (Some (RejectReplaceDecision.replacement_icd10 d))
       (Session.set_decision (Some rejected_replaced)
          (Session.set_clinician_id (Some (RejectReplaceDecision.clinician_id d))
             (Session.set_reviewed_at (Some now)
                (Session.set_status REVIEWED s))))).

(** What one request can do to one session object. *)
Inductive session_step (s : Session.t) : Session.t -> Prop :=
| step_stay :
    session_step s s
| step_first_question q :
    Session.status s = IN_PROGRESS ->
    session_step s (Session.set_current_question_id (Some q) s)
| step_answer_only r :
    Session.status s = IN_PROGRESS ->
    session_step s (record_response r s)
| step_answer_next r q :
    Session.status s = IN_PROGRESS ->
    session_step s (Session.set_current_question_id (Some q) (record_response r s))
| step_answer_last r icd10 name :
    Session.status s = IN_PROGRESS ->
    session_step s (hand_over icd10 name (record_response r s))
| step_complete icd10 name :
    Session.status s = IN_PROGRESS ->
    session_step s (hand_over icd10 name s)
| step_accept now d :
    Session.status s = PENDING_REVIEW ->
    truthy (Session.suggested_icd10 s) = true ->
    session_step s (apply_accept now d s)
| step_reject now d :
    Session.status s = PENDING_REVIEW ->
    session_step s (apply_reject now d s).

(** Every id in the store refers to a live object, and that object carries
    the id it is stored under. *)
Definition wf (w : World) : Prop :=
  forall sid l, storage_sessions w !! sid = Some l ->
    exists s, heap w !! l = Some s /\ Session.session_id s = sid.

(** The world after the object at [l] was updated by [f] and the adapter's
    table became [ad]. *)
Definition updated (w : World) (l : nat) (f : Session.t -> Session.t)
    (ad : gmap string (Engine.ClinicalSession E)) : World :=
  mkWorld (alter f l (heap w)) (storage_sessions w) ad.

(** What a computation of the adapter returns and leaves in the adapter's
    table, started from the table [ad]. *)
Definition run_adapter {A} (m : M A) (ad : gmap string (Engine.ClinicalSession E))
    : (exn + A) * gmap string (Engine.ClinicalSession E) :=
  let '(r, w') := m (mkWorld [] ∅ ad) in (r, adapter_sessions w').

(** [w'] is [w] with at most one session object advanced by one step of the
    state machine, and the adapter's table changed. *)
Definition touches (w w' : World) : Prop :=
  w' = w \/
  exists sid l s f ad,
    storage_sessions w !! sid = Some l /\
    heap w !! l = Some s /\
    (forall x, Session.session_id (f x) = Session.session_id x) /\
    session_step s (f s) /\
    w' = updated w l f ad.

(** A computation that reads and writes nothing but the adapter's table. *)
Definition adapter_local {A} (m : M A) : Prop :=
  forall w l f ad,
    m (updated w l f ad) = (fst (run_adapter m ad), updated w l f (snd (run_adapter m ad))).

(** Runs: the requests served one after the other. *)
Inductive run (w : World) : World -> Prop :=
| run_refl : run w w
| run_serve w' r : run w w' -> fresh_uuid w' r -> run w (serve r w').

End Backend.

Arguments World D : clear implicits.
Arguments M D A : clear implicits.
Arguments mkWorld {D}.
Arguments heap {D}.
Arguments storage_sessions {D}.
Arguments adapter_sessions {D}.
Arguments initial_world {D}.
Arguments session_of {D}.
Arguments ret {D A}.
Arguments raise {D A}.
Arguments bind {D A B}.
Arguments try_except {D A}.
Arguments alloc {D}.
Arguments load {D}.
Arguments assign {D}.
Arguments storage_create {D}.
Arguments storage_get {D}.
Arguments storage_update {D}.
Arguments set_adapter_session {D}.
Arguments adapter_get {D}.
Arguments call {D A}.
Arguments start_session {D}.
Arguments answer_question {D}.
Arguments evaluate {D}.
Arguments cleanup_session {D}.
Arguments create_session {D}.
Arguments get_session {D}.
Arguments start_chat {D}.
Arguments get_next_question {D}.
Arguments submit_answer {D}.
Arguments complete_assessment {D}.
Arguments make_ReviewResult {D}.
Arguments accept_diagnosis {D}.
Arguments reject_and_replace {D}.
Arguments AcceptSuggestion {D}.
Arguments RejectAndReplace {D}.
Arguments serve {D}.
Arguments fresh_uuid {D}.
Arguments reachable {D}.
Arguments wf {D}.
Arguments updated {D}.
Arguments CreateSession {D}.
Arguments run_adapter {D A}.
Arguments touches {D}.
Arguments adapter_local {D A}.
Arguments run {D}.

(** ** The clinician-facing reads and the store's listings *)

(** "Session for clinician queue (includes suggested ICD-10)" *)
Module PendingSessionResponse.
Record t := mk {
  session_id : string;
  status : string;
  created_at : Z;
  chief_complaint : option string;
  questions_asked : Z;
  suggested_icd10 : option string;
  suggested_condition_name : option string }.
End PendingSessionResponse.

(** "Full session details for clinician review" *)
Module SessionDetailResponse.
Record t := mk {
  session_id : string;
  status : string;
  created_at : Z;
  chief_complaint : option string;
  patient_responses : list PatientResponse.t;
  questions_asked : Z;
  suggested_icd10 : option string;
  suggested_condition_name : option string;
  reviewed_at : option Z;
  clinician_id : option string;
  decision : option string;
  final_icd10 : option string;
  clinician_notes : option string }.
End SessionDetailResponse.

(** The string a [Literal["accepted", "rejected_replaced"]] is. *)
Definition decision_value (d : Decision) : string :=
  match d with
  | accepted => "accepted"
  | rejected_replaced => "rejected_replaced"
  end.

(** The objects of the heap [h], whose first index is [l], that the store
    [st] binds their own identifier to. *)
Fixpoint bound_from (st : gmap string nat) (l : nat) (h : list Session.t)
    : list Session.t :=
  match h with
  | [] => []
  | s :: h' =>
      if bool_decide (st !! Session.session_id s = Some l)
      then s :: bound_from st (S l) h'
      else bound_from st (S l) h'
  end.

(** A replacement code as [validate_icd10_format] returns it: it starts
    with a letter, and stripping and upper-casing leave it as it is. *)
Definition normalised_code (v : string) : Prop :=
  (exists c r, v = String c r /\ isalpha c = true) /\ upper v = v /\ strip v = v.

(** A string that is empty or starts with a character that is not blank. *)
Definition starts_clean (x : string) : Prop :=
  match x with EmptyString => True | String c _ => isspace c = false end.


(** clinician_review/app.py, the "Reject & Replace" form: the errors
    collected before [reject_and_replace] is called; the request is sent
    only when there is none. *)
Definition reject_form_errors (replacement_icd10 reason : string) : list string :=
  ((if String.eqb (strip replacement_icd10) "" then ["Replacement ICD-10 code is required."]
    else [])
   ++ (if len reason <? 20 then ["Reason must be at least 20 characters."] else []))%list.

(** patient_chat/app.py, the start form: [create_session] and [start_chat]
    are called only when [chief_complaint.strip()] is not empty. *)
Definition start_form_passes (chief_complaint : string) : bool :=
  negb (String.eqb (strip chief_complaint) "").

Section Reads.

Context {D : Deployment}.

Notation "'let*' x ':=' m 'in' k" := (bind m (fun x => k))
  (at level 10, x name, m at level 100, k at level 200).

(** [self._sessions.values()].  A dict lists its values in the order in
    which its keys were first inserted.  The store inserts a key when
    [create_session] has built the object for it, and [update] binds a key
    to the object it is already bound to; so, as long as [uuid4] does not
    repeat an identifier, the values are the objects of the heap that their
    identifier is bound to, in the order of their creation. *)
Definition storage_values (w : World D) : list Session.t :=
  bound_from (storage_sessions w) 0 (heap w).

(** [SessionStorage.list_pending] *)
Definition list_pending : M D (list Session.t) :=
  fun w => (inr (filter (fun s => Session.status s = PENDING_REVIEW) (storage_values w)), w).

(** [SessionStorage.list_all] *)
Definition list_all : M D (list Session.t) :=
  fun w => (inr (storage_values w), w).

(** [SessionStorage.count_by_status]: the dict is created with a zero for
    every member of [SessionStatus], so [counts[...] += 1] always finds its
    key. *)
Definition count_by_status : M D (gmap string Z) :=
  fun w =>
    let counts : gmap string Z :=
      list_to_map ((fun st => (value st, 0)) <$> [IN_PROGRESS; PENDING_REVIEW; REVIEWED]) in
    (inr (foldl (fun counts session =>
                   alter (fun n => n + 1) (value (Session.status session)) counts)
                counts (storage_values w)), w).

(** [get_pending_sessions] *)
Definition get_pending_sessions : M D (list PendingSessionResponse.t) :=
  let* pending := list_pending in
  ret ((fun s => PendingSessionResponse.mk (Session.session_id s) (value (Session.status s))
                   (Session.created_at s) (Session.chief_complaint s)
                   (Session.questions_asked s) (Session.suggested_icd10 s)
                   (Session.suggested_condition_name s)) <$> pending).

(** [get_session_counts] *)
Definition get_session_counts : M D (gmap string Z) := count_by_status.

(** [get_session_for_review] *)
Definition get_session_for_review (session_id : string) : M D SessionDetailResponse.t :=
  let* session := storage_get session_id in
  match session with
  | None => raise NotFound
  | Some session =>
      let* s := load session in
      ret (SessionDetailResponse.mk (Session.session_id s) (value (Session.status s))
             (Session.created_at s) (Session.chief_complaint s)
             (Session.patient_responses s) (Session.questions_asked s)
             (Session.suggested_icd10 s) (Session.suggested_condition_name s)
             (Session.reviewed_at s) (Session.clinician_id s)
             (decision_value <$> Session.decision s) (Session.final_icd10 s)
             (Session.clinician_notes s))
  end.

(** Whether the adapter holds an engine session for [sid]. *)
Definition present (ad : gmap string (Engine.ClinicalSession (engine D))) (sid : string)
    : bool :=
  bool_decide (is_Some (ad !! sid)).

(** What one request can do to one session object and to the engine session
    the adapter holds for it ([e] before, [e'] after), with the conditions
    under which the handlers do it. *)
Inductive session_trans : Session.t -> bool -> Session.t -> bool -> Prop :=
| trans_stay s e :
    session_trans s e s e
| trans_engine_started s e :
    INTELLIGENCE_AVAILABLE D = true ->
    Session.status s = IN_PROGRESS ->
    session_trans s e s true
| trans_first_question s e q :
    Session.status s = IN_PROGRESS ->
    truthy (Session.chief_complaint s) = true ->
    session_trans s e (Session.set_current_question_id (Some q) s)
      (if INTELLIGENCE_AVAILABLE D then true else e)
| trans_answer_only s e now request :
    Session.status s = IN_PROGRESS ->
    truthy (Session.current_question_id s) = true ->
    session_trans s e (record_response (response_for s now request) s) e
| trans_answer_next s e now request q :
    Session.status s = IN_PROGRESS ->
    truthy (Session.current_question_id s) = true ->
    (INTELLIGENCE_AVAILABLE D = true -> e = true) ->
    session_trans s e
      (Session.set_current_question_id (Some q)
         (record_response (response_for s now request) s)) e
| trans_answer_last s e now request icd10 name :
    Session.status s = IN_PROGRESS ->
    truthy (Session.current_question_id s) = true ->
    session_trans s e
      (hand_over icd10 name (record_response (response_for s now request) s)) false
| trans_complete s e icd10 name :
    Session.status s = IN_PROGRESS ->
    session_trans s e (hand_over icd10 name s) false
| trans_accept s e now d :
    Session.status s = PENDING_REVIEW ->
    truthy (Session.suggested_icd10 s) = true ->
    AcceptDecision.clinician_id d <> "" ->
    10 <= len (AcceptDecision.notes d) ->
    session_trans s e (apply_accept now d s) e
| trans_reject s e now d :
    Session.status s = PENDING_REVIEW ->
    RejectReplaceDecision.clinician_id d <> "" ->
    20 <= len (RejectReplaceDecision.reason d) ->
    normalised_code (RejectReplaceDecision.replacement_icd10 d) ->
    session_trans s e (apply_reject now d s) e.

(** [w'] is [w] after at most one session object, and the engine session
    of the same id, went through one transition. *)
Definition advances (w w' : World D) : Prop :=
  w' = w \/
  exists sid l s f ad,
    storage_sessions w !! sid = Some l /\
    heap w !! l = Some s /\
    (forall x, Session.session_id (f x) = Session.session_id x) /\
    session_trans s (present (adapter_sessions w) sid) (f s) (present ad sid) /\
    (forall sid', sid' <> sid -> ad !! sid' = adapter_sessions w !! sid') /\
    w' = updated w l f ad.

(** The position of a status in IN_PROGRESS, PENDING_REVIEW, REVIEWED. *)
Definition rank (st : SessionStatus) : nat :=
  match st with IN_PROGRESS => 0 | PENDING_REVIEW => 1 | REVIEWED => 2 end.

End Reads.

(** ** Deployments used in the examples *)

(** Without the engine package ([ImportError]): there is no
    [ClinicalSession] class and the adapter runs its mock flow. *)
Definition no_engine : Engine.Class :=
  Engine.mkClass Empty_set
    (fun _ _ => inl (EngineError "ortho_intelligence is not installed"))
    (fun c _ => match c with end)
    (fun c _ _ => match c with end)
    (fun c => match c with end).

Definition mock_deployment : Deployment := mkDeployment no_engine false Settings.default.

(** A stateless engine that always gives the same answers: [first] to
    [start_assessment], [next qid answer] to [answer_question] and [result]
    to [evaluate]. *)
Definition scripted_engine (first : exn + option Engine.Question)
    (next : string -> string -> exn + option Engine.Question)
    (result : exn + Engine.Result) : Engine.Class :=
  Engine.mkClass unit
    (fun _ _ => inr tt)
    (fun c _ => (first, c))
    (fun c qid answer => (next qid answer, c))
    (fun c => (result, c)).

Definition q_location : Engine.Question :=
  Engine.mkQuestion "q1_location" "Where is your pain located?" "categorical"
    (Some ["Knee"; "Hip"]).

(** An engine with one question that accepts only its listed options and
    then finds no candidate condition. *)
Definition strict_deployment : Deployment :=
  mkDeployment
    (scripted_engine (inr (Some q_location))
       (fun _ answer =>
          if bool_decide (answer ∈ ["Knee"; "Hip"]) then inr None
          else inl (ValueError "Invalid answer for categorical question"))
       (inr (Engine.mkResult [] "audit-0")))
    true Settings.default.

(** An engine that needs no question for the complaint and whose top
    condition carries an empty code. *)
Definition silent_deployment : Deployment :=
  mkDeployment
    (scripted_engine (inr None) (fun _ _ => inr None)
       (inr (Engine.mkResult [Engine.mkCondition "Unspecified joint pain" [""]] "audit-1")))
    true Settings.default.

(** An engine whose evaluation breaks down. *)
Definition failing_deployment : Deployment :=
  mkDeployment
    (scripted_engine (inr (Some q_location)) (fun _ _ => inr None)
       (inl (EngineError "evaluation failed")))
    true Settings.default.

(** ** Example runs *)

Definition knee_pain : CreateSessionRequest.t := CreateSessionRequest.mk "knee pain".

(** Served by the mock flow: created, started, the five mock questions
    answered, then the suggestion rejected and replaced. *)
Definition mock_created : World mock_deployment :=
  serve (POST_sessions "s1" 10 knee_pain) initial_world.

Definition mock_started : World mock_deployment :=
  serve (POST_chat_start "s1") mock_created.

Definition mock_pending : World mock_deployment :=
  serve (POST_chat_answer "s1" 15 (AnswerRequest.mk "Less than 30 minutes"))
    (serve (POST_chat_answer "s1" 14 (AnswerRequest.mk "Occasional"))
       (serve (POST_chat_answer "s1" 13 (AnswerRequest.mk "Yes"))
          (serve (POST_chat_answer "s1" 12 (AnswerRequest.mk "1-4 weeks"))
             (serve (POST_chat_answer "s1" 11 (AnswerRequest.mk "Knee")) mock_started)))).

Definition dr1_rejects : RejectReplaceDecision.t :=
  RejectReplaceDecision.mk "dr1" "m25.561" "Pain is patellofemoral, no arthritis.".

Definition mock_reviewed : World mock_deployment :=
  serve (POST_review_reject "s1" 20 dr1_rejects) mock_pending.

Definition s1_reviewed : Session.t :=
  Session.mk "s1" REVIEWED 10 (Some "knee pain")
    [PatientResponse.mk "q1_location" "Question 1" "Knee" 11;
     PatientResponse.mk "q2_duration" "Question 2" "1-4 weeks" 12;
     PatientResponse.mk "q3_stairs" "Question 3" "Yes" 13;
     PatientResponse.mk "q4_swelling" "Question 4" "Occasional" 14;
     PatientResponse.mk "q5_stiffness" "Question 5" "Less than 30 minutes" 15]
    (Some "M17.11") (Some "Primary osteoarthritis, right knee")
    (Some 20) (Some "dr1") (Some rejected_replaced) (Some "M25.561")
    (Some "Pain is patellofemoral, no arthritis.") None 5.

(** Served by the strict engine: created and started; then the one question
    answered with a listed option. *)
Definition strict_started : World strict_deployment :=
  serve (POST_chat_start "s1") (serve (POST_sessions "s1" 10 knee_pain) initial_world).

Definition strict_pending : World strict_deployment :=
  serve (POST_chat_answer "s1" 11 (AnswerRequest.mk "Knee")) strict_started.

(** Served by the silent engine: created; then started and completed by
    hand. *)
Definition silent_created : World silent_deployment :=
  serve (POST_sessions "s1" 10 knee_pain) initial_world.

Definition silent_pending : World silent_deployment :=
  serve (POST_chat_complete "s1") (serve (POST_chat_start "s1") silent_created).

(** Served by the failing engine: created and started. *)
Definition failing_started : World failing_deployment :=
  serve (POST_chat_start "s1") (serve (POST_sessions "s1" 10 knee_pain) initial_world).

(** The session of the mock run after [start_chat], and after the fifth
    answer. *)
Definition s1_started : Session.t :=
  Session.mk "s1" IN_PROGRESS 10 (Some "knee pain") [] None None None None None None None
    (Some "q1_location") 0.

Definition s1_pending : Session.t :=
  Session.mk "s1" PENDING_REVIEW 10 (Some "knee pain")
    [PatientResponse.mk "q1_location" "Question 1" "Knee" 11;
     PatientResponse.mk "q2_duration" "Question 2" "1-4 weeks" 12;
     PatientResponse.mk "q3_stairs" "Question 3" "Yes" 13;
     PatientResponse.mk "q4_swelling" "Question 4" "Occasional" 14;
     PatientResponse.mk "q5_stiffness" "Question 5" "Less than 30 minutes" 15]
    (Some "M17.11") (Some "Primary osteoarthritis, right knee")
    None None None None None None 5.

(** Three sessions served by the mock flow: s1 as above, s2 started and
    completed at once, s3 created only. *)
Definition mock_clinic : World mock_deployment :=
  serve (POST_sessions "s3" 40 (CreateSessionRequest.mk "shoulder pain"))
    (serve (POST_chat_complete "s2")
       (serve (POST_chat_start "s2")
          (serve (POST_sessions "s2" 30 (CreateSessionRequest.mk "hip pain")) mock_pending))).

Definition s1_entry : PendingSessionResponse.t :=
  PendingSessionResponse.mk "s1" "pending_review" 10 (Some "knee pain") 5
    (Some "M17.11") (Some "Primary osteoarthritis, right knee").

Definition s2_entry : PendingSessionResponse.t :=
  PendingSessionResponse.mk "s2" "pending_review" 30 (Some "hip pain") 0
    (Some "M17.11") (Some "Primary osteoarthritis, right knee").

(** Created by the strict engine's deployment, not started. *)
Definition strict_created : World strict_deployment :=
  serve (POST_sessions "s1" 10 knee_pain) initial_world.


(** * Properties *)

Section Properties.

Context {D : Deployment}.
Implicit Types (w : World D) (s : Session.t) (l : nat) (sid : string).
Implicit Types (ad : gmap string (Engine.ClinicalSession (engine D))).

(** ** Executing handlers

    While a handler works on the object at [l], every world it goes through
    has the form [updated w l f ad]. *)

Lemma bind_unfold {A B} (m : M D A) (k : A -> M D B) w :
  bind m k w = match m w with
               | (inr a, w') => k a w'
               | (inl e, w') => (inl e, w')
               end.
Proof. reflexivity. Qed.

Lemma try_except_unfold {A} (m : M D A) (h : exn -> M D A) w :
  try_except m h w = match m w with
                     | (inr a, w') => (inr a, w')
                     | (inl e, w') => h e w'
                     end.
Proof. reflexivity. Qed.

Lemma as_updated w l : w = updated w l (fun s => s) (adapter_sessions w).
Proof.
  destruct w as [h st ad]. unfold updated. cbn. f_equal.
  symmetry. apply list_alter_id. reflexivity.
Qed.

Lemma storage_get_updated w l f ad sid :
  storage_get sid (updated w l f ad) = (inr (storage_sessions w !! sid), updated w l f ad).
Proof. reflexivity. Qed.

Lemma load_updated w l f ad s :
  heap w !! l = Some s ->
  load l (updated w l f ad) = (inr (f s), updated w l f ad).
Proof.
  intros Hs. unfold load, updated. cbn. rewrite list_lookup_alter_eq, Hs. reflexivity.
Qed.

Lemma assign_updated w l f g ad :
  assign l g (updated w l f ad) = (inr tt, updated w l (fun s => g (f s)) ad).
Proof.
  unfold assign, updated. cbn. rewrite list_alter_alter_eq. reflexivity.
Qed.

Lemma storage_update_updated w l f ad s :
  heap w !! l = Some s ->
  storage_sessions w !! Session.session_id (f s) = Some l ->
  storage_update l (updated w l f ad) = (inr tt, updated w l f ad).
Proof.
  intros Hs Hl. unfold storage_update. rewrite bind_unfold, (load_updated _ _ _ _ _ Hs).
  cbn. rewrite Hl, insert_id by assumption. reflexivity.
Qed.

Lemma cleanup_session_updated w l f ad sid :
  cleanup_session sid (updated w l f ad) = (inr tt, updated w l f (delete sid ad)).
Proof. reflexivity. Qed.

(** The adapter reads and writes nothing but its own table. *)
Lemma start_session_local sid cc : adapter_local (D:=D) (start_session sid cc).
Proof.
  intros w l f ad. unfold run_adapter, start_session.
  destruct (INTELLIGENCE_AVAILABLE D); [|reflexivity]. cbn [negb].
  destruct (Engine.init _ _ _) as [e|c]; [reflexivity|].
  unfold bind, set_adapter_session, call, ret. cbn.
  destruct (Engine.start_assessment _ _ _) as [[e|[q|]] c']; reflexivity.
Qed.

Lemma answer_question_local sid qid answer : adapter_local (D:=D) (answer_question sid qid answer).
Proof.
  intros w l f ad. unfold run_adapter, answer_question.
  destruct (INTELLIGENCE_AVAILABLE D); [|reflexivity]. cbn [negb].
  unfold bind, adapter_get, call, ret, raise. cbn.
  destruct (ad !! sid) as [c|]; [|reflexivity].
  destruct (Engine.answer_question _ _ _ _) as [[e|[q|]] c']; reflexivity.
Qed.

Lemma evaluate_local sid : adapter_local (D:=D) (evaluate sid).
Proof.
  intros w l f ad. unfold run_adapter, evaluate.
  destruct (INTELLIGENCE_AVAILABLE D); [|reflexivity]. cbn [negb].
  unfold bind, adapter_get, call, ret, raise. cbn.
  destruct (ad !! sid) as [c|]; [|reflexivity].
  destruct (Engine.evaluate _ _) as [[e|res] c']; [reflexivity|].
  cbn. destruct (top_suggestion res). reflexivity.
Qed.

Ltac exec_step :=
  first
    [ rewrite bind_unfold
    | rewrite try_except_unfold
    | rewrite storage_get_updated
    | erewrite load_updated by eassumption
    | rewrite assign_updated
    | erewrite storage_update_updated by (try eassumption; cbn; congruence)
    | rewrite cleanup_session_updated
    | rewrite start_session_local
    | rewrite answer_question_local
    | rewrite evaluate_local
    | progress unfold ret, raise
    | progress cbn beta iota
    | progress cbn [fst snd
                    Session.session_id Session.status Session.created_at
                    Session.chief_complaint Session.patient_responses
                    Session.suggested_icd10 Session.suggested_condition_name
                    Session.reviewed_at Session.clinician_id Session.decision
                    Session.final_icd10 Session.clinician_notes
                    Session.current_question_id Session.questions_asked
                    Session.set_status Session.set_patient_responses
                    Session.set_suggested_icd10 Session.set_suggested_condition_name
                    Session.set_reviewed_at Session.set_clinician_id Session.set_decision
                    Session.set_final_icd10 Session.set_clinician_notes
                    Session.set_current_question_id Session.set_questions_asked] ].

Ltac exec := repeat exec_step.

(** ** Sessions seen through the store *)

Lemma session_of_Some w sid s :
  session_of w sid = Some s <->
  exists l, storage_sessions w !! sid = Some l /\ heap w !! l = Some s.
Proof.
  unfold session_of. destruct (storage_sessions w !! sid) as [l|]; split.
  - intros H. exists l. auto.
  - intros (l' & [= <-] & H). exact H.
  - discriminate.
  - intros (l' & [=] & _).
Qed.

Lemma wf_session_id w sid s :
  wf w -> session_of w sid = Some s -> Session.session_id s = sid.
Proof.
  intros Hwf (l & Hl & Hs)%session_of_Some.
  destruct (Hwf _ _ Hl) as (s' & Hs' & Hid). congruence.
Qed.

(** Updating the object of [sid] changes what [sid] denotes, whether or not
    the key is bound again afterwards. *)
Lemma session_of_updated_eq w l f ad sid s :
  storage_sessions w !! sid = Some l ->
  heap w !! l = Some s ->
  session_of (updated w l f ad) sid = Some (f s).
Proof.
  intros Hl Hs. unfold session_of, updated. cbn.
  rewrite Hl, list_lookup_alter_eq, Hs. reflexivity.
Qed.

Lemma session_of_updated_ne w l f ad sid s sid' :
  wf w ->
  storage_sessions w !! sid = Some l ->
  heap w !! l = Some s ->
  sid' <> sid ->
  session_of (updated w l f ad) sid' = session_of w sid'.
Proof.
  intros Hwf Hl Hs Hne. unfold session_of, updated. cbn.
  destruct (storage_sessions w !! sid') as [l'|] eqn:Hl'; [|reflexivity].
  apply list_lookup_alter_ne. intros <-.
  destruct (Hwf _ _ Hl) as (s1 & Hs1 & Hid1).
  destruct (Hwf _ _ Hl') as (s2 & Hs2 & Hid2). congruence.
Qed.

Lemma wf_updated w l f ad :
  wf w -> (forall s, Session.session_id (f s) = Session.session_id s) ->
  wf (updated w l f ad).
Proof.
  intros Hwf Hf sid l' Hl'. cbn in Hl'.
  destruct (Hwf _ _ Hl') as (s & Hs & Hid). unfold updated. cbn.
  destruct (decide (l = l')) as [->|Hne].
  - exists (f s). rewrite list_lookup_alter_eq, Hs. split; [reflexivity|].
    rewrite Hf. exact Hid.
  - exists s. rewrite list_lookup_alter_ne by assumption. auto.
Qed.

Lemma wf_initial : wf (@initial_world D).
Proof. intros sid l H. cbn in H. rewrite lookup_empty in H. discriminate. Qed.

(** ** What each handler does, in closed form *)

Lemma create_session_run w uuid now request :
  create_session uuid now request w =
    (inr (CreateSessionResponse.mk uuid "in_progress" now),
     mkWorld
       (heap w ++ [Session.new uuid IN_PROGRESS now
                     (CreateSessionRequest.chief_complaint request)])
       (<[uuid := length (heap w)]> (storage_sessions w))
       (adapter_sessions w)).
Proof.
  unfold create_session, storage_create, bind, alloc, load, ret. cbn.
  rewrite list_lookup_middle by reflexivity. cbn.
  rewrite list_lookup_middle by reflexivity. reflexivity.
Qed.

Lemma get_session_run w sid s :
  session_of w sid = Some s ->
  get_session sid w =
    (inr (SessionResponse.mk (Session.session_id s) (value (Session.status s))
            (Session.created_at s) (Session.questions_asked s)), w).
Proof.
  intros (l & Hl & Hs)%session_of_Some.
  unfold get_session, bind, storage_get, load, ret. cbn. rewrite Hl, Hs. reflexivity.
Qed.

Lemma get_next_question_world w sid : snd (get_next_question sid w) = w.
Proof.
  unfold get_next_question, bind, storage_get, load, ret, raise. cbn.
  destruct (storage_sessions w !! sid) as [l|]; [|reflexivity].
  destruct (heap w !! l) as [s|]; [|reflexivity].
  destruct (Session.status s); reflexivity.
Qed.

Lemma get_session_world w sid : snd (get_session sid w) = w.
Proof.
  unfold get_session, bind, storage_get, load, ret, raise. cbn.
  destruct (storage_sessions w !! sid) as [l|]; [|reflexivity].
  destruct (heap w !! l) as [s|]; reflexivity.
Qed.

Lemma start_chat_run w sid l s :
  storage_sessions w !! sid = Some l ->
  heap w !! l = Some s ->
  Session.session_id s = sid ->
  start_chat sid w =
    if negb (bool_decide (Session.status s = IN_PROGRESS)) then
      (inl (not_in_progress (Session.status s)), w)
    else if negb (truthy (Session.chief_complaint s)) then
      (inl (HTTPException 400 "Chief complaint not set"), w)
    else
      match run_adapter (start_session sid (default "" (Session.chief_complaint s)))
              (adapter_sessions w) with
      | (inl e, ad) => (inl e, updated w l (fun s => s) ad)
      | (inr None, ad) =>
          (inr (StartChatResponse.mk sid None complete_message),
           updated w l (fun s => s) ad)
      | (inr (Some q), ad) =>
          (inr (StartChatResponse.mk sid (Some (QuestionResult.to_Question q))
                  "Please answer the following question."),
           updated w l (Session.set_current_question_id (Some (QuestionResult.question_id q)))
             ad)
      end.
Proof.
  intros Hl Hs Hid.
  rewrite (as_updated w l) at 1. unfold start_chat. exec. rewrite Hl. exec.
  destruct (negb (bool_decide _)). { exec. rewrite <- as_updated. reflexivity. }
  destruct (negb (truthy _)). { exec. rewrite <- as_updated. reflexivity. }
  exec. destruct (run_adapter _ _) as [[e|[q|]] ad]; exec; reflexivity.
Qed.

Lemma submit_answer_run w sid now request l s :
  storage_sessions w !! sid = Some l ->
  heap w !! l = Some s ->
  Session.session_id s = sid ->
  submit_answer sid now request w =
    if negb (bool_decide (Session.status s = IN_PROGRESS)) then
      (inl (not_in_progress (Session.status s)), w)
    else if negb (truthy (Session.current_question_id s)) then
      (inl (HTTPException 400 "No active question. Please use /start to begin."), w)
    else
      let r := response_for s now request in
      match run_adapter
              (answer_question sid (default "" (Session.current_question_id s))
                 (AnswerRequest.answer request))
              (adapter_sessions w) with
      | (inl (ValueError msg), ad) =>
          (inl (HTTPException 400 msg), updated w l (record_response r) ad)
      | (inl e, ad) => (inl e, updated w l (record_response r) ad)
      | (inr (Some q), ad) =>
          (inr (AnswerResponse.mk sid (Some (QuestionResult.to_Question q)) false
                  "Please answer the following question."),
           updated w l
             (fun s => Session.set_current_question_id (Some (QuestionResult.question_id q))
                         (record_response r s))
             ad)
      | (inr None, ad) =>
          match run_adapter (evaluate sid) ad with
          | (inl e, ad') => (inl e, updated w l (record_response r) ad')
          | (inr result, ad') =>
              (inr (AnswerResponse.mk sid None true thank_you),
               updated w l
                 (fun s => hand_over (EvaluationResult.suggested_icd10 result)
                             (EvaluationResult.condition_name result)
                             (record_response r s))
                 (delete sid ad'))
          end
      end.
Proof.
  intros Hl Hs Hid.
  rewrite (as_updated w l) at 1. unfold submit_answer. exec. rewrite Hl. exec.
  destruct (negb (bool_decide _)). { exec. rewrite <- as_updated. reflexivity. }
  destruct (negb (truthy _)). { exec. rewrite <- as_updated. reflexivity. }
  exec. destruct (run_adapter (answer_question _ _ _) _) as [[e|[q|]] ad]; exec.
  - destruct e; reflexivity.
  - reflexivity.
  - destruct (run_adapter (evaluate _) _) as [[e|result] ad']; exec; reflexivity.
Qed.

Lemma complete_assessment_run w sid l s :
  storage_sessions w !! sid = Some l ->
  heap w !! l = Some s ->
  Session.session_id s = sid ->
  complete_assessment sid w =
    if negb (bool_decide (Session.status s = IN_PROGRESS)) then
      (inl (not_in_progress (Session.status s)), w)
    else
      match run_adapter (evaluate sid) (adapter_sessions w) with
      | (inl _, ad) =>
          (inr (AnswerResponse.mk sid None true thank_you),
           updated w l (hand_over "Z03.89" "Observation for suspected condition")
             (delete sid ad))
      | (inr result, ad) =>
          (inr (AnswerResponse.mk sid None true thank_you),
           updated w l
             (hand_over (EvaluationResult.suggested_icd10 result)
                (EvaluationResult.condition_name result))
             (delete sid ad))
      end.
Proof.
  intros Hl Hs Hid.
  rewrite (as_updated w l) at 1. unfold complete_assessment. exec. rewrite Hl. exec.
  destruct (negb (bool_decide _)). { exec. rewrite <- as_updated. reflexivity. }
  exec. destruct (run_adapter _ _) as [[e|result] ad]; exec; reflexivity.
Qed.

Lemma accept_diagnosis_run w sid now d l s :
  storage_sessions w !! sid = Some l ->
  heap w !! l = Some s ->
  Session.session_id s = sid ->
  accept_diagnosis sid now d w =
    if negb (bool_decide (Session.status s = PENDING_REVIEW)) then
      (inl (not_pending_review (Session.status s)), w)
    else match Session.suggested_icd10 s with
         | Some (String c r) =>
             (inr (ReviewResult.mk sid "accepted" (String c r)
                     (AcceptDecision.clinician_id d) now),
              updated w l (apply_accept now d) (adapter_sessions w))
         | _ => (inl no_suggestion, w)
         end.
Proof.
  intros Hl Hs Hid.
  rewrite (as_updated w l) at 1. unfold accept_diagnosis, make_ReviewResult. exec.
  rewrite Hl. exec.
  destruct (negb _). { exec. rewrite <- as_updated. reflexivity. }
  destruct (Session.suggested_icd10 s) as [[|c r]|] eqn:Hsug; cbn [truthy negb]; exec;
    rewrite <- ?as_updated, ?Hsug; reflexivity.
Qed.

Lemma reject_and_replace_run w sid now d l s :
  storage_sessions w !! sid = Some l ->
  heap w !! l = Some s ->
  Session.session_id s = sid ->
  reject_and_replace sid now d w =
    if negb (bool_decide (Session.status s = PENDING_REVIEW)) then
      (inl (not_pending_review (Session.status s)), w)
    else
      (inr (ReviewResult.mk sid "rejected_replaced"
              (RejectReplaceDecision.replacement_icd10 d)
              (RejectReplaceDecision.clinician_id d) now),
       updated w l (apply_reject now d) (adapter_sessions w)).
Proof.
  intros Hl Hs Hid.
  rewrite (as_updated w l) at 1. unfold reject_and_replace, make_ReviewResult. exec.
  rewrite Hl. exec.
  destruct (negb _). { exec. rewrite <- as_updated. reflexivity. }
  exec. reflexivity.
Qed.

(** ** Every request refines the session state machine *)

Lemma touches_same w : touches w w.
Proof. left. reflexivity. Qed.

Lemma touches_updated w w' sid l s f ad :
  storage_sessions w !! sid = Some l ->
  heap w !! l = Some s ->
  (forall x, Session.session_id (f x) = Session.session_id x) ->
  session_step s (f s) ->
  w' = updated w l f ad ->
  touches w w'.
Proof. intros. right. exists sid, l, s, f, ad. auto. Qed.

Ltac touched :=
  match goal with
  | Hl : storage_sessions ?w !! _ = Some ?l, Hs : heap ?w !! ?l = Some _ |- touches ?w _ =>
      refine (touches_updated _ _ _ _ _ _ _ Hl Hs _ _ eq_refl);
      [ intros; reflexivity | eauto using session_step ]
  end.

Ltac status_cases :=
  match goal with
  | |- context [negb (bool_decide (?P))] =>
      destruct (bool_decide_reflect P) as [?Hst|?Hst]; cbn [negb]
  end.

Lemma start_chat_touches w sid : wf w -> touches w (snd (start_chat sid w)).
Proof.
  intros Hwf. destruct (storage_sessions w !! sid) as [l|] eqn:Hl.
  - destruct (Hwf _ _ Hl) as (s & Hs & Hid).
    rewrite (start_chat_run _ _ _ _ Hl Hs Hid).
    status_cases; [|apply touches_same].
    destruct (negb (truthy _)); [apply touches_same|].
    destruct (run_adapter _ _) as [[e|[q|]] ad]; cbn [snd]; touched.
  - unfold start_chat, bind, storage_get. cbn. rewrite Hl. apply touches_same.
Qed.

Lemma submit_answer_touches w sid now request :
  wf w -> touches w (snd (submit_answer sid now request w)).
Proof.
  intros Hwf. destruct (storage_sessions w !! sid) as [l|] eqn:Hl.
  - destruct (Hwf _ _ Hl) as (s & Hs & Hid).
    rewrite (submit_answer_run _ _ _ _ _ _ Hl Hs Hid).
    status_cases; [|apply touches_same].
    destruct (negb (truthy _)); [apply touches_same|]. cbn zeta.
    destruct (run_adapter (answer_question _ _ _) _) as [[e|[q|]] ad].
    + assert (touches w (updated w l (record_response (response_for s now request)) ad)).
      { touched. }
      destruct e; assumption.
    + touched.
    + destruct (run_adapter (evaluate _) _) as [[e|result] ad'];
        touched.
  - unfold submit_answer, bind, storage_get. cbn. rewrite Hl. apply touches_same.
Qed.

Lemma complete_assessment_touches w sid :
  wf w -> touches w (snd (complete_assessment sid w)).
Proof.
  intros Hwf. destruct (storage_sessions w !! sid) as [l|] eqn:Hl.
  - destruct (Hwf _ _ Hl) as (s & Hs & Hid).
    rewrite (complete_assessment_run _ _ _ _ Hl Hs Hid).
    status_cases; [|apply touches_same].
    destruct (run_adapter _ _) as [[e|result] ad];
      touched.
  - unfold complete_assessment, bind, storage_get. cbn. rewrite Hl. apply touches_same.
Qed.

Lemma accept_diagnosis_touches w sid now d :
  wf w -> touches w (snd (accept_diagnosis sid now d w)).
Proof.
  intros Hwf. destruct (storage_sessions w !! sid) as [l|] eqn:Hl.
  - destruct (Hwf _ _ Hl) as (s & Hs & Hid).
    rewrite (accept_diagnosis_run _ _ _ _ _ _ Hl Hs Hid).
    status_cases; [|apply touches_same].
    destruct (Session.suggested_icd10 s) as [[|c r]|] eqn:Hsug; try apply touches_same.
    refine (touches_updated _ _ _ _ _ _ _ Hl Hs _ _ eq_refl); [intros; reflexivity|].
    apply step_accept; [assumption|]. rewrite Hsug. reflexivity.
  - unfold accept_diagnosis, bind, storage_get. cbn. rewrite Hl. apply touches_same.
Qed.

Lemma reject_and_replace_touches w sid now d :
  wf w -> touches w (snd (reject_and_replace sid now d w)).
Proof.
  intros Hwf. destruct (storage_sessions w !! sid) as [l|] eqn:Hl.
  - destruct (Hwf _ _ Hl) as (s & Hs & Hid).
    rewrite (reject_and_replace_run _ _ _ _ _ _ Hl Hs Hid).
    status_cases; [|apply touches_same].
    touched.
  - unfold reject_and_replace, bind, storage_get. cbn. rewrite Hl. apply touches_same.
Qed.

Lemma AcceptSuggestion_touches w sid now body :
  wf w -> touches w (snd (AcceptSuggestion sid now body w)).
Proof.
  intros Hwf. unfold AcceptSuggestion.
  destruct (AcceptDecision.validate body); [apply touches_same|].
  apply accept_diagnosis_touches, Hwf.
Qed.

Lemma RejectAndReplace_touches w sid now body :
  wf w -> touches w (snd (RejectAndReplace sid now body w)).
Proof.
  intros Hwf. unfold RejectAndReplace.
  destruct (RejectReplaceDecision.validate body); [apply touches_same|].
  apply reject_and_replace_touches, Hwf.
Qed.

Lemma touches_wf w w' : wf w -> touches w w' -> wf w'.
Proof.
  intros Hwf [->|(sid & l & s & f & ad & Hl & Hs & Hf & _ & ->)]; [assumption|].
  apply wf_updated; assumption.
Qed.

Lemma touches_session w w' sid s :
  wf w -> touches w w' -> session_of w sid = Some s ->
  exists s', session_of w' sid = Some s' /\ session_step s s'.
Proof.
  intros Hwf [->|(sid0 & l & s0 & f & ad & Hl & Hs & Hf & Hstep & ->)] Hsid.
  - exists s. split; [assumption|constructor].
  - destruct (decide (sid = sid0)) as [->|Hne].
    + assert (s = s0) as ->.
      { apply session_of_Some in Hsid as (l' & Hl' & Hs'). congruence. }
      exists (f s0). split; [|assumption].
      eapply session_of_updated_eq; eassumption.
    + exists s. split; [|constructor].
      rewrite (session_of_updated_ne _ _ _ _ _ _ _ Hwf Hl Hs Hne). assumption.
Qed.

Lemma touches_absent w w' sid :
  wf w -> touches w w' -> session_of w sid = None -> session_of w' sid = None.
Proof.
  intros Hwf [->|(sid0 & l & s0 & f & ad & Hl & Hs & Hf & Hstep & ->)] Hsid;
    [assumption|].
  destruct (decide (sid = sid0)) as [->|Hne].
  - unfold session_of in Hsid. rewrite Hl, Hs in Hsid. discriminate.
  - rewrite (session_of_updated_ne _ _ _ _ _ _ _ Hwf Hl Hs Hne). assumption.
Qed.

(** Creation adds one object and binds the new id to it. *)
Lemma create_session_wf w uuid now request :
  wf w -> wf (snd (create_session uuid now request w)).
Proof.
  intros Hwf. rewrite create_session_run. cbn [snd]. intros sid l Hl. cbn in Hl |- *.
  destruct (decide (uuid = sid)) as [->|Hne].
  - rewrite lookup_insert_eq in Hl. injection Hl as <-.
    eexists. rewrite list_lookup_middle by reflexivity. split; reflexivity.
  - rewrite lookup_insert_ne in Hl by assumption.
    destruct (Hwf _ _ Hl) as (s & Hs & Hid). exists s. split; [|assumption].
    apply lookup_app_l_Some. assumption.
Qed.

Lemma create_session_new w uuid now request :
  session_of (snd (create_session uuid now request w)) uuid =
    Some (Session.new uuid IN_PROGRESS now (CreateSessionRequest.chief_complaint request)).
Proof.
  rewrite create_session_run. unfold session_of. cbn.
  rewrite lookup_insert_eq. apply list_lookup_middle. reflexivity.
Qed.

Lemma create_session_other w uuid now request sid :
  wf w -> sid <> uuid ->
  session_of (snd (create_session uuid now request w)) sid = session_of w sid.
Proof.
  intros Hwf Hne. rewrite create_session_run. unfold session_of. cbn.
  rewrite lookup_insert_ne by congruence.
  destruct (storage_sessions w !! sid) as [l|] eqn:Hl; [|reflexivity].
  destruct (Hwf _ _ Hl) as (s & Hs & _). rewrite Hs.
  apply lookup_app_l_Some. assumption.
Qed.

Lemma serve_wf w r : wf w -> wf (serve r w).
Proof.
  intros Hwf. destruct r; cbn [serve].
  - apply create_session_wf, Hwf.
  - rewrite get_session_world. assumption.
  - eapply touches_wf, start_chat_touches; assumption.
  - rewrite get_next_question_world. assumption.
  - eapply touches_wf, submit_answer_touches; assumption.
  - eapply touches_wf, complete_assessment_touches; assumption.
  - eapply touches_wf, AcceptSuggestion_touches; assumption.
  - eapply touches_wf, RejectAndReplace_touches; assumption.
Qed.

(** A request advances every stored session by one step of the state
    machine. *)
Lemma serve_session_step w r sid s :
  wf w -> fresh_uuid w r -> session_of w sid = Some s ->
  exists s', session_of (serve r w) sid = Some s' /\ session_step s s'.
Proof.
  intros Hwf Hfresh Hsid. destruct r; cbn [serve].
  - exists s. split; [|constructor]. cbn in Hfresh.
    unfold CreateSession, CreateSessionRequest.validate.
    rewrite create_session_other; [assumption..|].
    intros ->. unfold session_of in Hsid. rewrite Hfresh in Hsid. discriminate.
  - rewrite get_session_world. exists s. split; [assumption|constructor].
  - eapply touches_session; eauto using start_chat_touches.
  - rewrite get_next_question_world. exists s. split; [assumption|constructor].
  - eapply touches_session; eauto using submit_answer_touches.
  - eapply touches_session; eauto using complete_assessment_touches.
  - eapply touches_session; eauto using AcceptSuggestion_touches.
  - eapply touches_session; eauto using RejectAndReplace_touches.
Qed.

(** A session that appears was created by this request, in its initial
    state. *)
Lemma serve_session_new w r sid s' :
  wf w -> session_of w sid = None -> session_of (serve r w) sid = Some s' ->
  exists now cc, s' = Session.new sid IN_PROGRESS now cc.
Proof.
  intros Hwf Hnone Hsid. destruct r; cbn [serve] in Hsid.
  - unfold CreateSession, CreateSessionRequest.validate in Hsid.
    destruct (decide (sid = uuid)) as [->|Hne].
    + rewrite create_session_new in Hsid. injection Hsid as <-. eauto.
    + rewrite create_session_other in Hsid by assumption. congruence.
  - rewrite get_session_world in Hsid. congruence.
  - erewrite touches_absent in Hsid; eauto using start_chat_touches. discriminate.
  - rewrite get_next_question_world in Hsid. congruence.
  - erewrite touches_absent in Hsid; eauto using submit_answer_touches. discriminate.
  - erewrite touches_absent in Hsid; eauto using complete_assessment_touches. discriminate.
  - erewrite touches_absent in Hsid; eauto using AcceptSuggestion_touches. discriminate.
  - erewrite touches_absent in Hsid; eauto using RejectAndReplace_touches. discriminate.
Qed.

Lemma reachable_wf w : reachable w -> wf w.
Proof. induction 1; [apply wf_initial|apply serve_wf; assumption]. Qed.

Lemma run_wf w w' : wf w -> run w w' -> wf w'.
Proof. intros Hwf. induction 1; [assumption|apply serve_wf; assumption]. Qed.

(** ** Facts about the state machine *)

Lemma session_step_reviewed s s' :
  session_step s s' -> Session.status s = REVIEWED -> s' = s.
Proof. intros Hstep Hst. destruct Hstep; congruence. Qed.

Lemma session_step_count s s' :
  session_step s s' ->
  Z.of_nat (length (Session.patient_responses s)) = Session.questions_asked s ->
  Z.of_nat (length (Session.patient_responses s')) = Session.questions_asked s'.
Proof.
  intros Hstep Hlen. destruct Hstep; cbn; try assumption;
    rewrite length_app; cbn; lia.
Qed.

Lemma session_step_grows s s' :
  session_step s s' ->
  Session.patient_responses s `prefix_of` Session.patient_responses s' /\
  Session.questions_asked s <= Session.questions_asked s'.
Proof.
  intros Hstep. destruct Hstep; cbn; split;
    first [ reflexivity | lia | apply prefix_app_r; reflexivity ].
Qed.

Lemma session_step_suggestion s s' :
  session_step s s' ->
  (Session.status s = PENDING_REVIEW -> is_Some (Session.suggested_icd10 s)) ->
  Session.status s' = PENDING_REVIEW -> is_Some (Session.suggested_icd10 s').
Proof.
  intros Hstep Hinv Hst. destruct Hstep; cbn in *; eauto; congruence.
Qed.

(** A property of sessions that holds initially and is kept by every step
    of the state machine holds of every session in every reachable state. *)
Lemma reachable_sessions (P : Session.t -> Prop) :
  (forall sid now cc, P (Session.new sid IN_PROGRESS now cc)) ->
  (forall s s', session_step s s' -> P s -> P s') ->
  forall w, reachable w -> forall sid s, session_of w sid = Some s -> P s.
Proof.
  intros Hnew Hstep w Hreach. induction Hreach as [|w r Hreach IH Hfresh]; intros sid s Hs.
  - unfold session_of in Hs. cbn in Hs. rewrite lookup_empty in Hs. discriminate.
  - pose proof (reachable_wf _ Hreach) as Hwf.
    destruct (session_of w sid) as [s0|] eqn:Hs0.
    + destruct (serve_session_step _ _ _ _ Hwf Hfresh Hs0) as (s' & Hs' & Hst).
      assert (s' = s) as <- by congruence. eauto.
    + destruct (serve_session_new _ _ _ _ Hwf Hs0 Hs) as (now & cc & ->). apply Hnew.
Qed.

(** What a computation of the adapter returns does not depend on the
    sessions in the store. *)
Lemma adapter_local_fst {A} (m : M D A) w :
  adapter_local m -> fst (m w) = fst (run_adapter m (adapter_sessions w)).
Proof. intros Hm. rewrite (as_updated w 0) at 1. rewrite Hm. reflexivity. Qed.

Lemma reviewed_is_final w w' sid s :
  wf w -> run w w' -> session_of w sid = Some s -> Session.status s = REVIEWED ->
  session_of w' sid = Some s.
Proof.
  intros Hwf Hrun Hs Hst. induction Hrun as [|w' r Hrun IH Hfresh]; [assumption|].
  pose proof (run_wf _ _ Hwf Hrun) as Hwf'.
  destruct (serve_session_step _ _ _ _ Hwf' Hfresh IH) as (s' & Hs' & Hstep).
  rewrite Hs'. f_equal. eapply session_step_reviewed; eassumption.
Qed.

(** ** The patient-facing view *)

(** C1.  The patient-facing session view returns exactly the session id,
    the status, the creation time and the number of questions asked of the
    stored session, in every status; and it is the same for two sessions that
    agree on these four fields, whatever their suggested code, suggested
    condition name and review fields are. *)
Theorem patient_view_is_independent_of_clinical_fields w sid s :
  session_of w sid = Some s ->
  get_session sid w =
    (inr (SessionResponse.mk (Session.session_id s) (value (Session.status s))
            (Session.created_at s) (Session.questions_asked s)), w)
  /\ forall w' s',
       session_of w' sid = Some s' ->
       Session.session_id s' = Session.session_id s ->
       Session.status s' = Session.status s ->
       Session.created_at s' = Session.created_at s ->
       Session.questions_asked s' = Session.questions_asked s ->
       fst (get_session sid w') = fst (get_session sid w).
Proof.
  intros Hs. split; [apply get_session_run, Hs|].
  intros w' s' Hs' Hid Hst Hat Hq.
  rewrite (get_session_run _ _ _ Hs), (get_session_run _ _ _ Hs'). cbn.
  rewrite Hid, Hst, Hat, Hq. reflexivity.
Qed.

(** ** Review decisions *)

Lemma AcceptSuggestion_not_pending w sid now body s :
  reachable w -> session_of w sid = Some s -> Session.status s <> PENDING_REVIEW ->
  AcceptSuggestion sid now body w =
    (inl match AcceptDecision.validate body with
         | inl e => e
         | inr _ => not_pending_review (Session.status s)
         end, w).
Proof.
  intros Hreach Hs Hst. pose proof (wf_session_id _ _ _ (reachable_wf _ Hreach) Hs) as Hid.
  apply session_of_Some in Hs as (l & Hl & Hs).
  unfold AcceptSuggestion. destruct (AcceptDecision.validate body) as [e|d]; [reflexivity|].
  rewrite (accept_diagnosis_run _ _ _ _ _ _ Hl Hs Hid).
  rewrite bool_decide_eq_false_2 by assumption. reflexivity.
Qed.

Lemma RejectAndReplace_not_pending w sid now body s :
  reachable w -> session_of w sid = Some s -> Session.status s <> PENDING_REVIEW ->
  RejectAndReplace sid now body w =
    (inl match RejectReplaceDecision.validate body with
         | inl e => e
         | inr _ => not_pending_review (Session.status s)
         end, w).
Proof.
  intros Hreach Hs Hst. pose proof (wf_session_id _ _ _ (reachable_wf _ Hreach) Hs) as Hid.
  apply session_of_Some in Hs as (l & Hl & Hs).
  unfold RejectAndReplace.
  destruct (RejectReplaceDecision.validate body) as [e|d]; [reflexivity|].
  rewrite (reject_and_replace_run _ _ _ _ _ _ Hl Hs Hid).
  rewrite bool_decide_eq_false_2 by assumption. reflexivity.
Qed.

(** C2.  In a reachable state, for a session whose status is not
    PENDING_REVIEW (IN_PROGRESS or REVIEWED), [accept_diagnosis] and
    [reject_and_replace] raise the HTTP 400 "Session is not pending review"
    error (InvalidState) for every decision and leave the state as it was.
    So do the endpoints for every body that passes validation; a body that
    does not is refused with its validation failure before the handler
    runs, again without any change.  A session that is REVIEWED stays
    exactly as it is along every run. *)
Theorem review_requires_pending_review w sid s :
  reachable w ->
  session_of w sid = Some s ->
  Session.status s <> PENDING_REVIEW ->
  (forall now d,
     accept_diagnosis sid now d w = (inl (not_pending_review (Session.status s)), w))
  /\ (forall now d,
        reject_and_replace sid now d w = (inl (not_pending_review (Session.status s)), w))
  /\ (forall now body,
        AcceptSuggestion sid now body w =
          (inl match AcceptDecision.validate body with
               | inl e => e
               | inr _ => not_pending_review (Session.status s)
               end, w))
  /\ (forall now body,
        RejectAndReplace sid now body w =
          (inl match RejectReplaceDecision.validate body with
               | inl e => e
               | inr _ => not_pending_review (Session.status s)
               end, w))
  /\ (Session.status s = REVIEWED ->
      forall w', run w w' -> session_of w' sid = Some s).
Proof.
  intros Hreach Hs Hst. pose proof (reachable_wf _ Hreach) as Hwf.
  pose proof (wf_session_id _ _ _ Hwf Hs) as Hid.
  pose proof Hs as (l & Hl & Hs')%session_of_Some.
  split; [|split; [|split; [|split]]].
  - intros now d. rewrite (accept_diagnosis_run _ _ _ _ _ _ Hl Hs' Hid).
    rewrite bool_decide_eq_false_2 by assumption. reflexivity.
  - intros now d. rewrite (reject_and_replace_run _ _ _ _ _ _ Hl Hs' Hid).
    rewrite bool_decide_eq_false_2 by assumption. reflexivity.
  - intros now body. eapply AcceptSuggestion_not_pending; eassumption.
  - intros now body. eapply RejectAndReplace_not_pending; eassumption.
  - intros Hrev w' Hrun. eapply reviewed_is_final; eassumption.
Qed.

(** C10.  A replacement code whose raw text is shorter than three characters
    is refused with a validation error that names the field, before the
    handler runs and whatever the other fields and the session are; the state
    is unchanged. *)
Theorem short_replacement_code_is_rejected w sid now body :
  len (RejectReplaceDecision.replacement_icd10 body) < 3 ->
  exists errs,
    RejectAndReplace sid now body w = (inl (RequestValidationError errs), w) /\
    ("replacement_icd10", "string_too_short") ∈ errs.
Proof.
  intros Hlen. unfold RejectAndReplace, RejectReplaceDecision.validate.
  apply Z.ltb_lt in Hlen. rewrite Hlen. eexists. split; [reflexivity|].
  rewrite !elem_of_app, list_elem_of_singleton. auto.
Qed.

(** C5, the defect.  A replacement code made of blanks only passes the
    length check on the raw text, and the validator then indexes the empty
    string it obtained by stripping: the request ends in an [IndexError],
    which is not a validation error. *)
Theorem blank_replacement_code_raises_IndexError w sid now clinician reason :
  RejectAndReplace sid now (RejectReplaceDecision.mk clinician "   " reason) w =
    (inl (IndexError "string index out of range"), w)
  /\ is_ValidationError (IndexError "string index out of range") = false.
Proof. split; reflexivity. Qed.


Lemma RejectAndReplace_not_a_letter w sid now body c rest :
  3 <= len (RejectReplaceDecision.replacement_icd10 body) ->
  upper (strip (RejectReplaceDecision.replacement_icd10 body)) = String c rest ->
  isalpha c = false ->
  exists errs, RejectAndReplace sid now body w = (inl (RequestValidationError errs), w).
Proof.
  intros Hr Hcode Halpha.
  unfold RejectAndReplace, RejectReplaceDecision.validate,
    RejectReplaceDecision.validate_icd10_format.
  rewrite Hcode, Halpha. cbn [negb].
  rewrite (proj2 (Z.ltb_ge _ _)) by assumption. eexists. reflexivity.
Qed.

Lemma RejectAndReplace_short_reason w sid now body :
  len (RejectReplaceDecision.reason body) < 20 ->
  (exists errs, RejectAndReplace sid now body w = (inl (RequestValidationError errs), w))
  \/ RejectAndReplace sid now body w = (inl (IndexError "string index out of range"), w).
Proof.
  intros Hn. apply Z.ltb_lt in Hn.
  unfold RejectAndReplace, RejectReplaceDecision.validate,
    RejectReplaceDecision.validate_icd10_format. rewrite Hn.
  destruct (len (RejectReplaceDecision.replacement_icd10 body) <? 3); [eauto|].
  destruct (upper _) as [|c rest]; [right; reflexivity|].
  destruct (isalpha c); cbn [negb]; [|eauto].
  left. destruct (len (RejectReplaceDecision.clinician_id body) <? 1); cbn; eauto.
Qed.

(** ** Acceptance *)

Lemma len_pos (x : string) : 1 <= len x <-> x <> "".
Proof. unfold len. destruct x; cbn; split; intros; try congruence; lia. Qed.

Lemma AcceptDecision_validate_inr body d :
  AcceptDecision.validate body = inr d <->
  d = body /\ AcceptDecision.clinician_id body <> "" /\ 10 <= len (AcceptDecision.notes body).
Proof.
  unfold AcceptDecision.validate. rewrite <- len_pos.
  destruct (Z.ltb_spec (len (AcceptDecision.clinician_id body)) 1);
    destruct (Z.ltb_spec (len (AcceptDecision.notes body)) 10); cbn;
    split; try (intros [= <-]); try (intros (-> & ? & ?)); try lia; auto.
Qed.

Lemma AcceptDecision_validate_short_notes body :
  len (AcceptDecision.notes body) < 10 ->
  exists errs, AcceptDecision.validate body = inl (RequestValidationError errs).
Proof.
  intros H. apply Z.ltb_lt in H. unfold AcceptDecision.validate. rewrite H.
  destruct (len (AcceptDecision.clinician_id body) <? 1); cbn; eauto.
Qed.

Lemma wf_session_of_None w sid :
  wf w -> session_of w sid = None -> storage_sessions w !! sid = None.
Proof.
  intros Hwf H. unfold session_of in H.
  destruct (storage_sessions w !! sid) as [l|] eqn:Hl; [|reflexivity].
  destruct (Hwf _ _ Hl) as (s & Hs & _). congruence.
Qed.

Lemma truthy_Some (o : option string) :
  truthy o = true -> exists c r, o = Some (String c r).
Proof. destruct o as [[|c r]|]; cbn; intros; try discriminate. eauto. Qed.

(** C4, as amended.  In a reachable state [AcceptSuggestion] succeeds
    exactly when the session exists, is PENDING_REVIEW, carries a suggested
    code that is neither null nor the empty string, the clinician id is not
    empty and the notes have at least 10 characters.  Notes shorter than
    that give a validation error and no change of state.  On success the
    stored session becomes REVIEWED with the review time, the clinician id,
    the decision "accepted", the suggested code as final code and the notes,
    and the result reports that final code.  With a valid body, a
    PENDING_REVIEW session whose suggested code is null or empty gives the
    HTTP 400 "No suggested ICD-10 code available" error and no change. *)
Theorem accept_succeeds_iff w sid now body :
  reachable w ->
  ((exists result w', AcceptSuggestion sid now body w = (inr result, w')) <->
   (exists s, session_of w sid = Some s /\
              Session.status s = PENDING_REVIEW /\
              truthy (Session.suggested_icd10 s) = true /\
              AcceptDecision.clinician_id body <> "" /\
              10 <= len (AcceptDecision.notes body)))
  /\ (len (AcceptDecision.notes body) < 10 ->
      exists errs, AcceptSuggestion sid now body w = (inl (RequestValidationError errs), w))
  /\ (forall result w',
        AcceptSuggestion sid now body w = (inr result, w') ->
        exists s code,
          session_of w sid = Some s /\
          Session.suggested_icd10 s = Some code /\
          result = ReviewResult.mk sid "accepted" code (AcceptDecision.clinician_id body) now /\
          session_of w' sid =
            Some (Session.mk (Session.session_id s) REVIEWED (Session.created_at s)
                    (Session.chief_complaint s) (Session.patient_responses s)
                    (Some code) (Session.suggested_condition_name s)
                    (Some now) (Some (AcceptDecision.clinician_id body)) (Some accepted)
                    (Some code) (Some (AcceptDecision.notes body))
                    (Session.current_question_id s) (Session.questions_asked s)) /\
          forall sid', sid' <> sid -> session_of w' sid' = session_of w sid')
  /\ (forall s,
        session_of w sid = Some s ->
        Session.status s = PENDING_REVIEW ->
        truthy (Session.suggested_icd10 s) = false ->
        AcceptDecision.clinician_id body <> "" ->
        10 <= len (AcceptDecision.notes body) ->
        AcceptSuggestion sid now body w = (inl no_suggestion, w)).
Proof.
  intros Hreach. pose proof (reachable_wf _ Hreach) as Hwf.
  assert (Hsucc : forall result w',
             AcceptSuggestion sid now body w = (inr result, w') ->
             exists l s c r,
               storage_sessions w !! sid = Some l /\ heap w !! l = Some s /\
               Session.session_id s = sid /\
               Session.status s = PENDING_REVIEW /\
               Session.suggested_icd10 s = Some (String c r) /\
               AcceptDecision.validate body = inr body /\
               result = ReviewResult.mk sid "accepted" (String c r)
                          (AcceptDecision.clinician_id body) now /\
               w' = updated w l (apply_accept now body) (adapter_sessions w)).
  { intros result w' Hrun. unfold AcceptSuggestion in Hrun.
    destruct (AcceptDecision.validate body) as [e|d] eqn:Hval; [discriminate|].
    pose proof Hval as (-> & _)%AcceptDecision_validate_inr.
    destruct (session_of w sid) as [s|] eqn:Hs.
    - pose proof (wf_session_id _ _ _ Hwf Hs) as Hid.
      apply session_of_Some in Hs as (l & Hl & Hs).
      rewrite (accept_diagnosis_run _ _ _ _ _ _ Hl Hs Hid) in Hrun.
      destruct (bool_decide_reflect (Session.status s = PENDING_REVIEW)) as [Hst|Hst];
        cbn [negb] in Hrun; [|discriminate].
      destruct (Session.suggested_icd10 s) as [[|c r]|] eqn:Hsug; try discriminate.
      injection Hrun as <- <-. exists l, s, c, r. auto 10.
    - apply (wf_session_of_None _ _ Hwf) in Hs.
      unfold accept_diagnosis, bind, storage_get in Hrun. cbn in Hrun.
      rewrite Hs in Hrun. discriminate. }
  split; [split|split; [|split]].
  - intros (result & w' & Hrun).
    destruct (Hsucc _ _ Hrun) as (l & s & c & r & Hl & Hs & Hid & Hst & Hsug & Hval & _).
    apply AcceptDecision_validate_inr in Hval as (_ & Hc & Hn).
    exists s. repeat split; try assumption.
    + apply session_of_Some. eauto.
    + rewrite Hsug. reflexivity.
  - intros (s & Hs & Hst & Hsug & Hc & Hn).
    pose proof (wf_session_id _ _ _ Hwf Hs) as Hid.
    apply session_of_Some in Hs as (l & Hl & Hs).
    apply truthy_Some in Hsug as (c & r & Hsug).
    unfold AcceptSuggestion.
    rewrite (proj2 (AcceptDecision_validate_inr body body)) by auto.
    rewrite (accept_diagnosis_run _ _ _ _ _ _ Hl Hs Hid).
    rewrite bool_decide_eq_true_2 by assumption. rewrite Hsug. cbn [negb]. eauto.
  - intros Hn. unfold AcceptSuggestion.
    destruct (AcceptDecision_validate_short_notes _ Hn) as (errs & ->). eauto.
  - intros result w' Hrun.
    destruct (Hsucc _ _ Hrun) as (l & s & c & r & Hl & Hs & Hid & Hst & Hsug & _ & -> & ->).
    exists s, (String c r). repeat split; try assumption.
    + apply session_of_Some. eauto.
    + rewrite (session_of_updated_eq _ _ _ _ _ _ Hl Hs). f_equal.
      clear - Hsug. destruct s. cbn in Hsug. subst. reflexivity.
    + intros sid' Hne. eapply session_of_updated_ne; eassumption.
  - intros s Hs Hst Hsug Hc Hn.
    pose proof (wf_session_id _ _ _ Hwf Hs) as Hid.
    apply session_of_Some in Hs as (l & Hl & Hs).
    unfold AcceptSuggestion.
    rewrite (proj2 (AcceptDecision_validate_inr body body)) by auto.
    rewrite (accept_diagnosis_run _ _ _ _ _ _ Hl Hs Hid).
    rewrite bool_decide_eq_true_2 by assumption. cbn [negb].
    destruct (Session.suggested_icd10 s) as [[|c r]|]; try reflexivity. discriminate.
Qed.

(** ** Session creation *)

(** C8, as amended.  [CreateSession] puts no condition on the chief
    complaint.  For every complaint text, the empty one included, and a
    fresh identifier it succeeds, reports the identifier with status
    "in_progress", stores under it a session that is IN_PROGRESS with the
    complaint as given, no patient response and zero questions asked, and
    leaves every other session as it was.  An empty complaint is only
    refused afterwards, by [start_chat], with the HTTP 400 "Chief complaint
    not set" error. *)
Theorem create_session_accepts_every_complaint w uuid now body :
  reachable w ->
  storage_sessions w !! uuid = None ->
  fst (CreateSession uuid now body w) = inr (CreateSessionResponse.mk uuid "in_progress" now)
  /\ session_of (snd (CreateSession uuid now body w)) uuid =
       Some (Session.mk uuid IN_PROGRESS now
               (Some (CreateSessionRequest.chief_complaint body)) []
               None None None None None None None None 0)
  /\ (forall sid, sid <> uuid ->
        session_of (snd (CreateSession uuid now body w)) sid = session_of w sid)
  /\ (CreateSessionRequest.chief_complaint body = "" ->
      fst (start_chat uuid (snd (CreateSession uuid now body w))) =
        inl (HTTPException 400 "Chief complaint not set")).
Proof.
  intros Hreach Hfresh. pose proof (reachable_wf _ Hreach) as Hwf.
  unfold CreateSession, CreateSessionRequest.validate.
  split; [rewrite create_session_run; reflexivity|].
  split; [apply create_session_new|].
  split; [intros sid Hne; apply create_session_other; assumption|].
  intros Hcc. rewrite create_session_run. cbn [snd].
  rewrite (start_chat_run _ uuid (length (heap w))
             (Session.new uuid IN_PROGRESS now (CreateSessionRequest.chief_complaint body))).
  - rewrite Hcc. reflexivity.
  - apply lookup_insert_eq.
  - apply list_lookup_middle. reflexivity.
  - reflexivity.
Qed.

(** ** Answers *)

(** C6.  For a stored session that is IN_PROGRESS with an active question,
    whenever [submit_answer] ends in an exception, the stored session is the
    one from before with the response (the active question id, the answer
    text as sent, the time) appended and the counter increased by one; its
    status and its active question id are what they were.  When it is
    [answer_question] that refused the answer with a [ValueError], the
    exception is the HTTP 400 error carrying the engine's message. *)
Theorem answer_is_kept_when_the_engine_fails w sid now request s e w' :
  reachable w ->
  session_of w sid = Some s ->
  Session.status s = IN_PROGRESS ->
  truthy (Session.current_question_id s) = true ->
  submit_answer sid now request w = (inl e, w') ->
  exists s',
    session_of w' sid = Some s' /\
    Session.patient_responses s' =
      (Session.patient_responses s ++
       [PatientResponse.mk (default "" (Session.current_question_id s))
          ("Question " ++ pretty (Session.questions_asked s + 1))
          (AnswerRequest.answer request) now])%list /\
    Session.questions_asked s' = Session.questions_asked s + 1 /\
    Session.status s' = Session.status s /\
    Session.current_question_id s' = Session.current_question_id s /\
    (forall msg,
       fst (answer_question sid (default "" (Session.current_question_id s))
              (AnswerRequest.answer request) w) = inl (ValueError msg) ->
       e = HTTPException 400 msg).
Proof.
  intros Hreach Hs Hst Hq Hrun.
  pose proof (wf_session_id _ _ _ (reachable_wf _ Hreach) Hs) as Hid.
  apply session_of_Some in Hs as (l & Hl & Hs).
  rewrite (submit_answer_run _ _ _ _ _ _ Hl Hs Hid) in Hrun.
  rewrite bool_decide_eq_true_2, Hq in Hrun by assumption. cbn [negb] in Hrun.
  cbn zeta in Hrun.
  exists (record_response (response_for s now request) s).
  assert (Hfail : forall ad,
             w' = updated w l (record_response (response_for s now request)) ad ->
             session_of w' sid = Some (record_response (response_for s now request) s)).
  { intros ad ->. eapply session_of_updated_eq; eassumption. }
  rewrite (adapter_local_fst _ _ (answer_question_local _ _ _)).
  destruct (run_adapter (answer_question _ _ _) _) as [[e0|[q|]] ad] eqn:Hans.
  - assert (w' = updated w l (record_response (response_for s now request)) ad) as Hw'
      by (destruct e0; congruence).
    repeat split; eauto. cbn. intros msg [= ->]. congruence.
  - discriminate.
  - destruct (run_adapter (evaluate _) _) as [[e1|result] ad'] eqn:Hev; [|discriminate].
    injection Hrun as <- <-. repeat split; eauto. cbn. discriminate.
Qed.

(** ** Invariants of the stored sessions *)

(** C9.  In every reachable state the number of recorded responses of a
    stored session equals its count of questions asked; and whatever request
    is served next, the session is still stored, its responses extend the
    earlier ones, its count has not decreased, and the two agree again. *)
Theorem responses_match_questions_asked w r sid s :
  reachable w ->
  fresh_uuid w r ->
  session_of w sid = Some s ->
  Z.of_nat (length (Session.patient_responses s)) = Session.questions_asked s
  /\ exists s',
       session_of (serve r w) sid = Some s' /\
       Session.patient_responses s `prefix_of` Session.patient_responses s' /\
       Session.questions_asked s <= Session.questions_asked s' /\
       Z.of_nat (length (Session.patient_responses s')) = Session.questions_asked s'.
Proof.
  intros Hreach Hfresh Hs.
  assert (Hcount : Z.of_nat (length (Session.patient_responses s)) =
                   Session.questions_asked s).
  { refine (reachable_sessions
              (fun s => Z.of_nat (length (Session.patient_responses s)) =
                        Session.questions_asked s) _ _ w Hreach sid s Hs).
    - reflexivity.
    - intros s0 s' Hstep. apply session_step_count, Hstep. }
  split; [assumption|].
  destruct (serve_session_step _ _ _ _ (reachable_wf _ Hreach) Hfresh Hs) as (s' & Hs' & Hstep).
  exists s'. destruct (session_step_grows _ _ Hstep) as [Hpre Hle].
  repeat split; try assumption. eapply session_step_count; eassumption.
Qed.

(** C3.  In every reachable state a stored session that is PENDING_REVIEW
    has a suggested code.  The two ways into PENDING_REVIEW store one:
    [complete_assessment] stores what [evaluate] returns and, when
    [evaluate] raises, the code "Z03.89" with the name "Observation for
    suspected condition"; [submit_answer] hands a session over only with
    what [evaluate] returned after the last answer.  [evaluate] itself
    returns the first code of the top condition, "Z03.89" when that
    condition has no code, and "Z03.89" with the name "Undetermined" when
    the engine has no candidate. *)
Theorem pending_review_has_a_suggested_code w :
  reachable w ->
  (forall sid s,
     session_of w sid = Some s -> Session.status s = PENDING_REVIEW ->
     exists code, Session.suggested_icd10 s = Some code)
  /\ (forall sid s,
        session_of w sid = Some s -> Session.status s = IN_PROGRESS ->
        session_of (snd (complete_assessment sid w)) sid =
          Some (match fst (evaluate sid w) with
                | inr result =>
                    hand_over (EvaluationResult.suggested_icd10 result)
                      (EvaluationResult.condition_name result) s
                | inl _ => hand_over "Z03.89" "Observation for suspected condition" s
                end))
  /\ (forall sid now request s s',
        session_of w sid = Some s -> Session.status s = IN_PROGRESS ->
        session_of (snd (submit_answer sid now request w)) sid = Some s' ->
        Session.status s' = PENDING_REVIEW ->
        exists ad ad' result,
          run_adapter (answer_question sid (default "" (Session.current_question_id s))
                         (AnswerRequest.answer request)) (adapter_sessions w)
            = (inr None, ad) /\
          run_adapter (evaluate sid) ad = (inr result, ad') /\
          s' = hand_over (EvaluationResult.suggested_icd10 result)
                 (EvaluationResult.condition_name result)
                 (record_response (response_for s now request) s))
  /\ (forall sid c c' result,
        INTELLIGENCE_AVAILABLE D = true ->
        adapter_sessions w !! sid = Some c ->
        Engine.evaluate (engine D) c = (inr result, c') ->
        fst (evaluate sid w) =
          inr (EvaluationResult.mk (fst (top_suggestion result)) (snd (top_suggestion result))
                 (Engine.audit_hash result))
        /\ (Engine.differential result = [] ->
            top_suggestion result = ("Z03.89", "Undetermined"))
        /\ (forall name rest,
              Engine.differential result = Engine.mkCondition name [] :: rest ->
              top_suggestion result = ("Z03.89", name))).
Proof.
  intros Hreach. pose proof (reachable_wf _ Hreach) as Hwf.
  split; [|split; [|split]].
  - intros sid s Hs Hst.
    enough (is_Some (Session.suggested_icd10 s)) as [code Hcode] by eauto.
    revert Hst.
    refine (reachable_sessions
              (fun s => Session.status s = PENDING_REVIEW ->
                        is_Some (Session.suggested_icd10 s)) _ _ w Hreach sid s Hs).
    + discriminate.
    + intros s0 s' Hstep. apply session_step_suggestion, Hstep.
  - intros sid s Hs Hst. pose proof (wf_session_id _ _ _ Hwf Hs) as Hid.
    apply session_of_Some in Hs as (l & Hl & Hs).
    rewrite (complete_assessment_run _ _ _ _ Hl Hs Hid).
    rewrite bool_decide_eq_true_2 by assumption. cbn [negb].
    rewrite (adapter_local_fst _ _ (evaluate_local _)).
    destruct (run_adapter _ _) as [[e|result] ad]; cbn [fst snd];
      eapply session_of_updated_eq; eassumption.
  - intros sid now request s s' Hs Hst Hs' Hst'.
    pose proof (wf_session_id _ _ _ Hwf Hs) as Hid.
    apply session_of_Some in Hs as (l & Hl & Hs).
    rewrite (submit_answer_run _ _ _ _ _ _ Hl Hs Hid) in Hs'.
    rewrite bool_decide_eq_true_2 in Hs' by assumption. cbn [negb] in Hs'.
    assert (Hsame : session_of w sid = Some s) by (apply session_of_Some; eauto).
    destruct (negb (truthy _)); [cbn [snd] in Hs'; congruence|]. cbn zeta in Hs'.
    destruct (run_adapter (answer_question _ _ _) _) as [[e|[q|]] ad].
    + assert (session_of (updated w l (record_response (response_for s now request)) ad) sid
              = Some s') as Hs'' by (destruct e; exact Hs').
      rewrite (session_of_updated_eq _ _ _ _ _ _ Hl Hs) in Hs''.
      injection Hs'' as <-. cbn in Hst'. congruence.
    + cbn [snd] in Hs'. rewrite (session_of_updated_eq _ _ _ _ _ _ Hl Hs) in Hs'.
      injection Hs' as <-. cbn in Hst'. congruence.
    + destruct (run_adapter (evaluate _) _) as [[e|result] ad'] eqn:Hev; cbn [snd] in Hs';
        rewrite (session_of_updated_eq _ _ _ _ _ _ Hl Hs) in Hs'; injection Hs' as <-.
      * cbn in Hst'. congruence.
      * exists ad, ad', result. auto.
  - intros sid c c' result Hav Hc Hev. split; [|split].
    + rewrite (adapter_local_fst _ _ (evaluate_local _)).
      unfold run_adapter, evaluate. rewrite Hav. cbn [negb].
      unfold bind, adapter_get, call, ret. cbn. rewrite Hc, Hev. cbn.
      destruct (top_suggestion result). reflexivity.
    + intros Hdiff. unfold top_suggestion. rewrite Hdiff. reflexivity.
    + intros name rest Hdiff. unfold top_suggestion. rewrite Hdiff. reflexivity.
Qed.

(** ** Starting the intake *)

(** What [start_chat] does with the engine's reply for a session that is
    IN_PROGRESS and has a chief complaint: a first question becomes the
    active question and the status stays IN_PROGRESS; with no question the
    session object is not written at all. *)
Lemma start_chat_first_question w sid s cc :
  reachable w ->
  session_of w sid = Some s ->
  Session.status s = IN_PROGRESS ->
  Session.chief_complaint s = Some cc ->
  cc <> "" ->
  match fst (start_session sid cc w) with
  | inr (Some q) =>
      fst (start_chat sid w) =
        inr (StartChatResponse.mk sid (Some (QuestionResult.to_Question q))
               "Please answer the following question.")
      /\ session_of (snd (start_chat sid w)) sid =
           Some (Session.set_current_question_id (Some (QuestionResult.question_id q)) s)
  | inr None =>
      fst (start_chat sid w) = inr (StartChatResponse.mk sid None complete_message)
      /\ session_of (snd (start_chat sid w)) sid = Some s
  | inl e =>
      fst (start_chat sid w) = inl e
      /\ session_of (snd (start_chat sid w)) sid = Some s
  end.
Proof.
  intros Hreach Hs Hst Hcc Hne.
  pose proof (wf_session_id _ _ _ (reachable_wf _ Hreach) Hs) as Hid.
  apply session_of_Some in Hs as (l & Hl & Hs).
  rewrite (start_chat_run _ _ _ _ Hl Hs Hid).
  rewrite bool_decide_eq_true_2, Hcc by assumption. cbn [negb default].
  replace (truthy (Some cc)) with true by (destruct cc; [congruence|reflexivity]).
  cbn [negb]. rewrite (adapter_local_fst _ _ (start_session_local _ _)).
  destruct (run_adapter _ _) as [[e|[q|]] ad]; cbn [fst snd]; split; try reflexivity;
    erewrite session_of_updated_eq by eassumption; reflexivity.
Qed.



(** * Further properties of the code *)

(** ** Strings: [strip] and [upper] *)

Lemma upper_char_idemp c : upper_char (upper_char c) = upper_char c.
Proof. destruct c as [[] [] [] [] [] [] [] []]; reflexivity. Qed.

Lemma isspace_upper_char c : isspace (upper_char c) = isspace c.
Proof. destruct c as [[] [] [] [] [] [] [] []]; reflexivity. Qed.

Lemma isalpha_upper_char c : isalpha (upper_char c) = isalpha c.
Proof. destruct c as [[] [] [] [] [] [] [] []]; reflexivity. Qed.

Lemma isalpha_not_isspace c : isalpha c = true -> isspace c = false.
Proof. destruct c as [[] [] [] [] [] [] [] []]; vm_compute; congruence. Qed.

Lemma upper_idemp x : upper (upper x) = upper x.
Proof. induction x as [|c r IH]; cbn; [reflexivity|]. rewrite upper_char_idemp, IH. reflexivity. Qed.

Lemma lstrip_upper x : lstrip (upper x) = upper (lstrip x).
Proof.
  induction x as [|c r IH]; cbn; [reflexivity|].
  rewrite isspace_upper_char. destruct (isspace c); [assumption|reflexivity].
Qed.

Lemma rstrip_upper x : rstrip (upper x) = upper (rstrip x).
Proof.
  induction x as [|c r IH]; cbn; [reflexivity|].
  rewrite IH, isspace_upper_char.
  destruct (rstrip r); cbn; [destruct (isspace c)|]; reflexivity.
Qed.

Lemma strip_upper x : strip (upper x) = upper (strip x).
Proof. unfold strip. rewrite lstrip_upper, rstrip_upper. reflexivity. Qed.

Lemma lstrip_starts_clean x : starts_clean (lstrip x).
Proof.
  induction x as [|c r IH]; cbn; [exact I|].
  destruct (isspace c) eqn:Hc; [assumption|]. cbn. assumption.
Qed.

Lemma lstrip_clean x : starts_clean x -> lstrip x = x.
Proof. destruct x as [|c r]; cbn; [reflexivity|]. intros ->. reflexivity. Qed.

Lemma rstrip_starts_clean x : starts_clean x -> starts_clean (rstrip x).
Proof.
  destruct x as [|c r]; cbn; [auto|]. intros Hc.
  destruct (rstrip r); cbn; [rewrite Hc; cbn|]; assumption.
Qed.

Lemma rstrip_idemp x : rstrip (rstrip x) = rstrip x.
Proof.
  induction x as [|c r IH]; cbn; [reflexivity|].
  destruct (rstrip r) as [|c' r'] eqn:Hr.
  - destruct (isspace c) eqn:Hc; cbn; [reflexivity|]. rewrite Hc. reflexivity.
  - cbn [rstrip]. cbn [rstrip] in IH. rewrite IH. reflexivity.
Qed.

Lemma strip_idemp x : strip (strip x) = strip x.
Proof.
  unfold strip. rewrite (lstrip_clean (rstrip (lstrip x))).
  - apply rstrip_idemp.
  - apply rstrip_starts_clean, lstrip_starts_clean.
Qed.

Lemma strip_starts_clean x : starts_clean (strip x).
Proof. apply rstrip_starts_clean, lstrip_starts_clean. Qed.



(** ** The replacement code *)


Lemma validate_icd10_format_inr v v' :
  RejectReplaceDecision.validate_icd10_format v = inr v' <->
  v' = upper (strip v) /\ exists c r, v' = String c r /\ isalpha c = true.
Proof.
  unfold RejectReplaceDecision.validate_icd10_format.
  destruct (upper (strip v)) as [|c r] eqn:Hv.
  - split; [discriminate|]. intros (-> & c & r & [=] & _).
  - destruct (isalpha c) eqn:Hc; cbn [negb]; split.
    + intros [= <-]. eauto.
    + intros (-> & _). reflexivity.
    + discriminate.
    + intros (-> & c' & r' & [= <- <-] & Hc'). congruence.
Qed.

Lemma validate_icd10_format_normalised v v' :
  RejectReplaceDecision.validate_icd10_format v = inr v' -> normalised_code v'.
Proof.
  intros (-> & c & r & Hv & Hc)%validate_icd10_format_inr.
  split; [eauto|]. split; [apply upper_idemp|].
  rewrite strip_upper, strip_idemp. reflexivity.
Qed.


Lemma RejectReplaceDecision_validate_inr body d :
  RejectReplaceDecision.validate body = inr d <->
  RejectReplaceDecision.clinician_id body <> "" /\
  3 <= len (RejectReplaceDecision.replacement_icd10 body) /\
  20 <= len (RejectReplaceDecision.reason body) /\
  exists c r,
    upper (strip (RejectReplaceDecision.replacement_icd10 body)) = String c r /\
    isalpha c = true /\
    d = RejectReplaceDecision.mk (RejectReplaceDecision.clinician_id body) (String c r)
          (RejectReplaceDecision.reason body).
Proof.
  unfold RejectReplaceDecision.validate, RejectReplaceDecision.validate_icd10_format.
  rewrite <- len_pos.
  destruct (Z.ltb_spec (len (RejectReplaceDecision.replacement_icd10 body)) 3).
  { split; [discriminate|]. intros (_ & ? & _). lia. }
  destruct (upper (strip _)) as [|c r] eqn:Hv.
  { split; [discriminate|]. intros (_ & _ & _ & c & r & [=] & _). }
  destruct (isalpha c) eqn:Hc; cbn [negb].
  - destruct (Z.ltb_spec (len (RejectReplaceDecision.clinician_id body)) 1);
      destruct (Z.ltb_spec (len (RejectReplaceDecision.reason body)) 20); cbn;
      (split; [first [discriminate | intros [= <-]; eauto 10]
              |intros (? & ? & ? & c' & r' & [= <- <-] & _ & ->);
               first [lia | reflexivity]]).
  - split; [discriminate|]. intros (_ & _ & _ & c' & r' & [= <- <-] & Hc' & _). congruence.
Qed.


(** ** The forms of the two user interfaces *)

(** X3.  A rejection that the clinician's form sends on (no error listed:
    the stripped code is not empty and the reason has 20 characters) is
    either accepted by [RejectReplaceDecision]'s validation or refused with
    a validation error; the validator's [v[0]] is never evaluated on an
    empty string. *)
Theorem reject_form_protects_the_validator replacement_icd10 reason clinician :
  reject_form_errors replacement_icd10 reason = [] ->
  20 <= len reason
  /\ ((exists d,
         RejectReplaceDecision.validate
           (RejectReplaceDecision.mk clinician replacement_icd10 reason) = inr d)
      \/ (exists errs,
            RejectReplaceDecision.validate
              (RejectReplaceDecision.mk clinician replacement_icd10 reason)
              = inl (RequestValidationError errs))).
Proof.
  unfold reject_form_errors. intros Hform.
  destruct (String.eqb_spec (strip replacement_icd10) "") as [Hblank|Hblank];
    [discriminate|].
  destruct (Z.ltb_spec (len reason) 20) as [Hr|Hr]; [discriminate|].
  split; [assumption|].
  unfold RejectReplaceDecision.validate, RejectReplaceDecision.validate_icd10_format.
  cbn [RejectReplaceDecision.clinician_id RejectReplaceDecision.replacement_icd10
       RejectReplaceDecision.reason].
  destruct (len replacement_icd10 <? 3); [eauto|].
  destruct (upper (strip replacement_icd10)) as [|c r] eqn:Hup.
  { exfalso. apply Hblank. destruct (strip replacement_icd10); [reflexivity|discriminate]. }
  destruct (isalpha c); cbn [negb]; [|eauto].
  rewrite (proj2 (Z.ltb_ge (len reason) 20)) by assumption.
  destruct (len clinician <? 1); cbn; eauto.
Qed.

(** X4.  For a complaint that the patient's form sends on (not blank), the
    session created with it is not refused by [start_chat] with "Chief
    complaint not set": [start_chat] answers with what the adapter's
    [start_session] gives for that complaint. *)
Theorem start_form_complaint_is_set w uuid now chief_complaint :
  reachable w ->
  storage_sessions w !! uuid = None ->
  start_form_passes chief_complaint = true ->
  let w1 := snd (CreateSession uuid now (CreateSessionRequest.mk chief_complaint) w) in
  fst (start_chat uuid w1) =
    match fst (start_session uuid chief_complaint w1) with
    | inl e => inl e
    | inr None => inr (StartChatResponse.mk uuid None complete_message)
    | inr (Some q) =>
        inr (StartChatResponse.mk uuid (Some (QuestionResult.to_Question q))
               "Please answer the following question.")
    end.
Proof.
  intros Hreach Hfresh Hform w1. subst w1.
  unfold CreateSession, CreateSessionRequest.validate. rewrite create_session_run. cbn [snd].
  rewrite (start_chat_run _ uuid (length (heap w))
             (Session.new uuid IN_PROGRESS now chief_complaint)).
  - cbn [Session.new Session.status Session.chief_complaint bool_decide negb].
    rewrite bool_decide_eq_true_2 by reflexivity. cbn [negb default].
    assert (truthy (Some chief_complaint) = true) as ->.
    { destruct chief_complaint; [discriminate Hform|reflexivity]. }
    cbn [negb]. rewrite (adapter_local_fst _ _ (start_session_local _ _)). cbn.
    destruct (run_adapter _ _) as [[e|[q|]] ad]; reflexivity.
  - apply lookup_insert_eq.
  - apply list_lookup_middle. reflexivity.
  - reflexivity.
Qed.


(** ** The adapter's table *)

Lemma present_true ad sid : present ad sid = true <-> is_Some (ad !! sid).
Proof. unfold present. apply bool_decide_eq_true. Qed.

Lemma present_insert ad sid c : present (<[sid := c]> ad) sid = true.
Proof. apply present_true. rewrite lookup_insert_eq. eauto. Qed.

Lemma present_delete ad sid : present (delete sid ad) sid = false.
Proof.
  unfold present. apply bool_decide_eq_false. rewrite lookup_delete_eq.
  intros [? [=]].
Qed.

Lemma present_ext ad ad' sid : ad' !! sid = ad !! sid -> present ad' sid = present ad sid.
Proof. unfold present. intros ->. reflexivity. Qed.

(** [start_session] writes at most the entry of its own session id: nothing
    in the mock flow or when the constructor raises, a new engine session
    otherwise. *)
Lemma start_session_cases sid cc ad :
  (forall sid', sid' <> sid ->
     snd (run_adapter (start_session sid cc) ad) !! sid' = ad !! sid')
  /\ ((INTELLIGENCE_AVAILABLE D = false /\
       run_adapter (start_session sid cc) ad = (inr (Some (_mock_start_session sid cc)), ad))
      \/ (INTELLIGENCE_AVAILABLE D = true /\
          exists e, run_adapter (start_session sid cc) ad = (inl e, ad))
      \/ (INTELLIGENCE_AVAILABLE D = true /\
          present (snd (run_adapter (start_session sid cc) ad)) sid = true)).
Proof.
  unfold run_adapter, start_session.
  destruct (INTELLIGENCE_AVAILABLE D); cbn [negb].
  - destruct (Engine.init _ _ _) as [e|c]; [cbn; eauto 10|].
    unfold bind, set_adapter_session, call, ret. cbn.
    destruct (Engine.start_assessment _ _ _) as [[e|[q|]] c']; cbn;
      (split; [intros sid' Hne; rewrite !lookup_insert_ne by congruence; reflexivity
              |right; right; split; [reflexivity|apply present_insert]]).
  - cbn. auto.
Qed.

(** [answer_question] and [evaluate] write at most the entry of their own
    session id, and only when there is one; without one they raise. *)
Lemma answer_question_cases sid qid answer ad :
  (forall sid', sid' <> sid ->
     snd (run_adapter (answer_question sid qid answer) ad) !! sid' = ad !! sid')
  /\ present (snd (run_adapter (answer_question sid qid answer) ad)) sid = present ad sid
  /\ (INTELLIGENCE_AVAILABLE D = true ->
      forall x, fst (run_adapter (answer_question sid qid answer) ad) = inr x ->
                present ad sid = true)
  /\ (INTELLIGENCE_AVAILABLE D = false ->
      run_adapter (answer_question sid qid answer) ad =
        (inr (_mock_answer_question sid qid answer), ad)).
Proof.
  unfold run_adapter, answer_question.
  destruct (INTELLIGENCE_AVAILABLE D); cbn [negb].
  - unfold bind, adapter_get, call, ret, raise. cbn.
    destruct (ad !! sid) as [c|] eqn:Hc.
    + destruct (Engine.answer_question _ _ _ _) as [[e|[q|]] c']; cbn;
        (split; [intros sid' Hne; rewrite lookup_insert_ne by congruence; reflexivity|];
         split; [rewrite present_insert; symmetry; apply present_true; eauto|];
         split; [intros _ x _; apply present_true; eauto|discriminate]).
    + cbn. repeat split; try discriminate.
  - cbn. repeat split; discriminate.
Qed.

Lemma evaluate_cases sid ad :
  (forall sid', sid' <> sid -> snd (run_adapter (evaluate sid) ad) !! sid' = ad !! sid')
  /\ present (snd (run_adapter (evaluate sid) ad)) sid = present ad sid
  /\ (INTELLIGENCE_AVAILABLE D = true -> ad !! sid = None ->
      run_adapter (evaluate sid) ad = (inl (ValueError ("Session " ++ sid ++ " not found")), ad))
  /\ (INTELLIGENCE_AVAILABLE D = false ->
      run_adapter (evaluate sid) ad = (inr (_mock_evaluate sid), ad)).
Proof.
  unfold run_adapter, evaluate.
  destruct (INTELLIGENCE_AVAILABLE D); cbn [negb].
  - unfold bind, adapter_get, call, ret, raise. cbn.
    destruct (ad !! sid) as [c|] eqn:Hc.
    + destruct (Engine.evaluate _ _) as [[e|res] c']; cbn;
        [|destruct (top_suggestion res); cbn];
        (split; [intros sid' Hne; rewrite lookup_insert_ne by congruence; reflexivity|];
         split; [rewrite present_insert; symmetry; apply present_true; eauto|];
         split; discriminate).
    + cbn. repeat split; try discriminate.
  - cbn. repeat split; discriminate.
Qed.

(** ** Every request, transition by transition *)

Lemma advances_same w : advances w w.
Proof. left. reflexivity. Qed.

Lemma advances_updated w w' sid l s f ad :
  storage_sessions w !! sid = Some l ->
  heap w !! l = Some s ->
  (forall x, Session.session_id (f x) = Session.session_id x) ->
  session_trans (D:=D) s (present (adapter_sessions w) sid) (f s) (present ad sid) ->
  (forall sid', sid' <> sid -> ad !! sid' = adapter_sessions w !! sid') ->
  w' = updated w l f ad ->
  advances w w'.
Proof. intros. right. exists sid, l, s, f, ad. auto 10. Qed.

Lemma updated_same w l : updated w l (fun s => s) (adapter_sessions w) = w.
Proof. symmetry. apply as_updated. Qed.

Ltac advanced :=
  match goal with
  | Hl : storage_sessions ?w !! _ = Some ?l, Hs : heap ?w !! ?l = Some _ |- advances ?w _ =>
      refine (advances_updated _ _ _ _ _ _ _ Hl Hs _ _ _ eq_refl);
      [ intros; reflexivity | | ]
  end.

Lemma truthy_negb_false (o : option string) : negb (truthy o) = false -> truthy o = true.
Proof. destruct (truthy o); [reflexivity|discriminate]. Qed.

Lemma start_chat_advances w sid : wf w -> advances w (snd (start_chat sid w)).
Proof.
  intros Hwf. destruct (storage_sessions w !! sid) as [l|] eqn:Hl.
  - destruct (Hwf _ _ Hl) as (s & Hs & Hid).
    rewrite (start_chat_run _ _ _ _ Hl Hs Hid).
    status_cases; [|apply advances_same].
    destruct (negb (truthy _)) eqn:Hcc; [apply advances_same|].
    apply truthy_negb_false in Hcc.
    destruct (start_session_cases sid (default "" (Session.chief_complaint s))
                (adapter_sessions w)) as [Hother Hcases].
    destruct Hcases as [[Hav Hrun]|[[Hav [e Hrun]]|[Hav Hpresent]]].
    + rewrite Hrun. cbn [snd]. advanced; [|auto].
      pose proof (trans_first_question (D:=D) s (present (adapter_sessions w) sid)
                    (QuestionResult.question_id (_mock_start_session sid
                       (default "" (Session.chief_complaint s)))) Hst Hcc) as Ht.
      rewrite Hav in Ht. exact Ht.
    + rewrite Hrun. cbn [snd]. rewrite updated_same. apply advances_same.
    + destruct (run_adapter _ _) as [[e|[q|]] ad]; cbn [snd] in *; advanced; try assumption.
      * rewrite Hpresent. apply trans_engine_started; assumption.
      * pose proof (trans_first_question (D:=D) s (present (adapter_sessions w) sid)
                      (QuestionResult.question_id q) Hst Hcc) as Ht.
        rewrite Hav in Ht. rewrite Hpresent. exact Ht.
      * rewrite Hpresent. apply trans_engine_started; assumption.
  - unfold start_chat, bind, storage_get. cbn. rewrite Hl. apply advances_same.
Qed.

Lemma submit_answer_advances w sid now request :
  wf w -> advances w (snd (submit_answer sid now request w)).
Proof.
  intros Hwf. destruct (storage_sessions w !! sid) as [l|] eqn:Hl.
  - destruct (Hwf _ _ Hl) as (s & Hs & Hid).
    rewrite (submit_answer_run _ _ _ _ _ _ Hl Hs Hid).
    status_cases; [|apply advances_same].
    destruct (negb (truthy _)) eqn:Hq; [apply advances_same|].
    apply truthy_negb_false in Hq. cbn zeta.
    destruct (answer_question_cases sid (default "" (Session.current_question_id s))
                (AnswerRequest.answer request) (adapter_sessions w))
      as (Hother & Hpres & Hok & _).
    destruct (run_adapter (answer_question _ _ _) _) as [[e|[q|]] ad]; cbn [fst snd] in *.
    + assert (advances w (updated w l (record_response (response_for s now request)) ad)).
      { advanced; [|assumption]. rewrite Hpres. apply trans_answer_only; assumption. }
      destruct e; assumption.
    + advanced; [|assumption]. rewrite Hpres. apply trans_answer_next; try assumption.
      intros Hav. eapply Hok; [assumption|reflexivity].
    + destruct (evaluate_cases sid ad) as (Hother' & Hpres' & _).
      destruct (run_adapter (evaluate _) _) as [[e|result] ad']; cbn [fst snd] in *.
      * advanced.
        -- rewrite Hpres', Hpres. apply trans_answer_only; assumption.
        -- intros sid' Hne. rewrite Hother', Hother by assumption. reflexivity.
      * advanced.
        -- rewrite present_delete. apply trans_answer_last; assumption.
        -- intros sid' Hne. rewrite lookup_delete_ne, Hother', Hother by congruence.
           reflexivity.
  - unfold submit_answer, bind, storage_get. cbn. rewrite Hl. apply advances_same.
Qed.

Lemma complete_assessment_advances w sid :
  wf w -> advances w (snd (complete_assessment sid w)).
Proof.
  intros Hwf. destruct (storage_sessions w !! sid) as [l|] eqn:Hl.
  - destruct (Hwf _ _ Hl) as (s & Hs & Hid).
    rewrite (complete_assessment_run _ _ _ _ Hl Hs Hid).
    status_cases; [|apply advances_same].
    destruct (evaluate_cases sid (adapter_sessions w)) as (Hother & _).
    destruct (run_adapter _ _) as [[e|result] ad]; cbn [fst snd] in *; advanced;
      try (rewrite present_delete; apply trans_complete; assumption);
      intros sid' Hne; rewrite lookup_delete_ne, Hother by congruence; reflexivity.
  - unfold complete_assessment, bind, storage_get. cbn. rewrite Hl. apply advances_same.
Qed.

Lemma AcceptSuggestion_advances w sid now body :
  wf w -> advances w (snd (AcceptSuggestion sid now body w)).
Proof.
  intros Hwf. unfold AcceptSuggestion.
  destruct (AcceptDecision.validate body) as [e|d] eqn:Hval; [apply advances_same|].
  apply AcceptDecision_validate_inr in Hval as (-> & Hc & Hn).
  destruct (storage_sessions w !! sid) as [l|] eqn:Hl.
  - destruct (Hwf _ _ Hl) as (s & Hs & Hid).
    rewrite (accept_diagnosis_run _ _ _ _ _ _ Hl Hs Hid).
    status_cases; [|apply advances_same].
    destruct (Session.suggested_icd10 s) as [[|c r]|] eqn:Hsug; try apply advances_same.
    cbn [snd]. advanced; [|auto].
    apply trans_accept; try assumption. rewrite Hsug. reflexivity.
  - unfold accept_diagnosis, bind, storage_get. cbn. rewrite Hl. apply advances_same.
Qed.

Lemma RejectAndReplace_advances w sid now body :
  wf w -> advances w (snd (RejectAndReplace sid now body w)).
Proof.
  intros Hwf. unfold RejectAndReplace.
  destruct (RejectReplaceDecision.validate body) as [e|d] eqn:Hval; [apply advances_same|].
  assert (Hnorm : normalised_code (RejectReplaceDecision.replacement_icd10 d)).
  { apply RejectReplaceDecision_validate_inr in Hval
      as (_ & Hlen & _ & c & r & Hcode & Halpha & ->). cbn.
    apply (validate_icd10_format_normalised (RejectReplaceDecision.replacement_icd10 body)).
    apply validate_icd10_format_inr. rewrite Hcode. eauto. }
  apply RejectReplaceDecision_validate_inr in Hval
    as (Hc & _ & Hreason & c & r & _ & _ & Hd).
  assert (RejectReplaceDecision.clinician_id d <> "") by (subst d; exact Hc).
  assert (20 <= len (RejectReplaceDecision.reason d)) by (subst d; exact Hreason).
  destruct (storage_sessions w !! sid) as [l|] eqn:Hl.
  - destruct (Hwf _ _ Hl) as (s & Hs & Hid).
    rewrite (reject_and_replace_run _ _ _ _ _ _ Hl Hs Hid).
    status_cases; [|apply advances_same].
    cbn [snd]. advanced; [|auto]. apply trans_reject; assumption.
  - unfold reject_and_replace, bind, storage_get. cbn. rewrite Hl. apply advances_same.
Qed.

Lemma advances_wf w w' : wf w -> advances w w' -> wf w'.
Proof.
  intros Hwf [->|(sid & l & s & f & ad & Hl & Hs & Hf & _ & _ & ->)]; [assumption|].
  apply wf_updated; assumption.
Qed.

Lemma serve_advances w r :
  wf w ->
  match r with
  | POST_sessions uuid now body =>
      serve r w = snd (create_session uuid now body w)
  | _ => advances w (serve r w)
  end.
Proof.
  intros Hwf. destruct r; cbn [serve].
  - reflexivity.
  - rewrite get_session_world. apply advances_same.
  - apply start_chat_advances, Hwf.
  - rewrite get_next_question_world. apply advances_same.
  - apply submit_answer_advances, Hwf.
  - apply complete_assessment_advances, Hwf.
  - apply AcceptSuggestion_advances, Hwf.
  - apply RejectAndReplace_advances, Hwf.
Qed.

(** A property of a session and of the presence of its engine session that
    holds of a new session without engine session and is kept by every
    transition holds in every reachable state; and the adapter holds no
    engine session for an id that is not in the store. *)
Lemma reachable_joint (P : Session.t -> bool -> Prop) :
  (forall sid now cc, P (Session.new sid IN_PROGRESS now cc) false) ->
  (forall s e s' e', session_trans (D:=D) s e s' e' -> P s e -> P s' e') ->
  forall w, reachable w -> forall sid,
    match session_of w sid with
    | Some s => P s (present (adapter_sessions w) sid)
    | None => present (adapter_sessions w) sid = false
    end.
Proof.
  intros Hnew Htrans w Hreach.
  induction Hreach as [|w r Hreach IH Hfresh]; intros sid.
  - unfold session_of. cbn. rewrite lookup_empty. unfold present.
    apply bool_decide_eq_false. rewrite lookup_empty. intros [? [=]].
  - pose proof (reachable_wf _ Hreach) as Hwf.
    pose proof (serve_advances w r Hwf) as Hadv.
    destruct r as [uuid now body| | | | | | |];
      try (destruct Hadv as [->|(sid0 & l & s & f & ad & Hl & Hs & Hf & Ht & Hother & ->)];
           [apply IH|];
           (destruct (decide (sid = sid0)) as [->|Hne];
            [ rewrite (session_of_updated_eq _ _ _ _ _ _ Hl Hs); cbn [adapter_sessions updated];
              specialize (IH sid0); unfold session_of in IH; rewrite Hl, Hs in IH; eauto
            | rewrite (session_of_updated_ne _ _ _ _ _ _ _ Hwf Hl Hs Hne);
              cbn [adapter_sessions updated];
              rewrite (present_ext _ _ _ (Hother _ Hne)); apply IH ])).
    rewrite Hadv. cbn in Hfresh.
    assert (Had : adapter_sessions (snd (create_session uuid now body w)) = adapter_sessions w)
      by (rewrite create_session_run; reflexivity).
    rewrite Had. destruct (decide (sid = uuid)) as [->|Hne].
    + rewrite create_session_new. specialize (IH uuid).
      unfold session_of in IH. rewrite Hfresh in IH. rewrite IH. apply Hnew.
    + rewrite create_session_other by assumption. apply IH.
Qed.

(** A relation between the states of a session that holds between a state
    and itself and is extended by every step of the state machine holds
    between the states of a stored session before and after any run; in
    particular the session is still stored. *)
Lemma run_sessions (R : Session.t -> Session.t -> Prop) :
  (forall s, R s s) ->
  (forall s1 s2 s3, R s1 s2 -> session_step s2 s3 -> R s1 s3) ->
  forall w w', wf w -> run w w' ->
  forall sid s, session_of w sid = Some s ->
  exists s', session_of w' sid = Some s' /\ R s s'.
Proof.
  intros Hrefl Hext w w' Hwf Hrun. induction Hrun as [|w' r Hrun IH Hfresh]; intros sid s Hs.
  - eauto.
  - destruct (IH sid s Hs) as (s1 & Hs1 & HR).
    destruct (serve_session_step _ _ _ _ (run_wf _ _ Hwf Hrun) Hfresh Hs1) as (s2 & Hs2 & Hst).
    eauto.
Qed.

(** ** The life of a stored session *)

(** X5.  Whatever requests are served, a stored session stays stored under
    its identifier, keeps its [session_id], [created_at] and
    [chief_complaint], and its status never goes back in the order
    IN_PROGRESS, PENDING_REVIEW, REVIEWED. *)
Theorem sessions_only_move_forward w w' sid s :
  reachable w ->
  run w w' ->
  session_of w sid = Some s ->
  exists s',
    session_of w' sid = Some s' /\
    Session.session_id s' = Session.session_id s /\
    Session.created_at s' = Session.created_at s /\
    Session.chief_complaint s' = Session.chief_complaint s /\
    (rank (Session.status s) <= rank (Session.status s'))%nat.
Proof.
  intros Hreach Hrun Hs.
  refine (run_sessions
            (fun s s' =>
               Session.session_id s' = Session.session_id s /\
               Session.created_at s' = Session.created_at s /\
               Session.chief_complaint s' = Session.chief_complaint s /\
               (rank (Session.status s) <= rank (Session.status s'))%nat)
            _ _ w w' (reachable_wf _ Hreach) Hrun sid s Hs).
  - auto.
  - intros s1 s2 s3 (Hid & Hat & Hcc & Hrank) Hstep.
    destruct Hstep; cbn; repeat split; try assumption;
      match goal with
      | H : Session.status _ = _ |- _ => rewrite H in Hrank; cbn in Hrank; lia
      end.
Qed.

(** X6.  Once a session has left IN_PROGRESS, no request changes its
    responses, its count of questions, its suggested code and condition name
    or its current question, and it never becomes IN_PROGRESS again. *)
Theorem handed_over_record_is_frozen w w' sid s :
  reachable w ->
  run w w' ->
  session_of w sid = Some s ->
  Session.status s <> IN_PROGRESS ->
  exists s',
    session_of w' sid = Some s' /\
    Session.status s' <> IN_PROGRESS /\
    Session.patient_responses s' = Session.patient_responses s /\
    Session.questions_asked s' = Session.questions_asked s /\
    Session.suggested_icd10 s' = Session.suggested_icd10 s /\
    Session.suggested_condition_name s' = Session.suggested_condition_name s /\
    Session.current_question_id s' = Session.current_question_id s.
Proof.
  intros Hreach Hrun Hs Hst.
  set (R := fun s s' : Session.t =>
              Session.status s <> IN_PROGRESS ->
              Session.status s' <> IN_PROGRESS /\
              Session.patient_responses s' = Session.patient_responses s /\
              Session.questions_asked s' = Session.questions_asked s /\
              Session.suggested_icd10 s' = Session.suggested_icd10 s /\
              Session.suggested_condition_name s' = Session.suggested_condition_name s /\
              Session.current_question_id s' = Session.current_question_id s).
  assert (Hrefl : forall s, R s s) by (unfold R; auto 10).
  assert (Hext : forall s1 s2 s3, R s1 s2 -> session_step s2 s3 -> R s1 s3).
  { unfold R. intros s1 s2 s3 HR Hstep Hst1. destruct (HR Hst1) as (Hst2 & HR').
    destruct Hstep; cbn; try congruence; auto 10. }
  destruct (run_sessions R Hrefl Hext w w' (reachable_wf _ Hreach) Hrun sid s Hs)
    as (s' & Hs' & HR).
  exists s'. split; [assumption|]. apply HR, Hst.
Qed.

Lemma reachable_joint_session (P : Session.t -> bool -> Prop) :
  (forall sid now cc, P (Session.new sid IN_PROGRESS now cc) false) ->
  (forall s e s' e', session_trans (D:=D) s e s' e' -> P s e -> P s' e') ->
  forall w sid s, reachable w -> session_of w sid = Some s ->
  P s (present (adapter_sessions w) sid).
Proof.
  intros Hnew Htrans w sid s Hreach Hs.
  pose proof (reachable_joint P Hnew Htrans w Hreach sid) as H.
  rewrite Hs in H. exact H.
Qed.


Lemma suggestion_invariant w sid s :
  reachable w ->
  session_of w sid = Some s ->
  (Session.status s = IN_PROGRESS ->
   Session.suggested_icd10 s = None /\ Session.suggested_condition_name s = None)
  /\ (Session.status s <> IN_PROGRESS ->
      (exists icd10 name,
         Session.suggested_icd10 s = Some icd10 /\
         Session.suggested_condition_name s = Some name) /\
      Session.current_question_id s = None).
Proof.
  intros Hreach Hs.
  refine (reachable_joint_session
            (fun s _ =>
               (Session.status s = IN_PROGRESS ->
                Session.suggested_icd10 s = None /\
                Session.suggested_condition_name s = None)
               /\ (Session.status s <> IN_PROGRESS ->
                   (exists icd10 name,
                      Session.suggested_icd10 s = Some icd10 /\
                      Session.suggested_condition_name s = Some name) /\
                   Session.current_question_id s = None))
            _ _ w sid s Hreach Hs).
  - intros sid0 now cc. cbn. split; [auto|congruence].
  - intros s0 e s' e' Ht [Hin Hout].
    destruct Ht as [s0 e| s0 e| s0 e q Hst| s0 e now request Hst| s0 e now request q Hst
                   | s0 e now request icd10 name| s0 e icd10 name
                   | s0 e now d Hst| s0 e now d Hst]; cbn.
    1-2: tauto.
    1-3: (split; [exact Hin|intros Hne; congruence]).
    1-2: (split; [discriminate|intros _; split; [eauto|reflexivity]]).
    1-2: (split; [discriminate|intros _; apply Hout; congruence]).
Qed.

(** X8.  In a reachable state a session IN_PROGRESS has no suggested code
    and no condition name; a session that has left IN_PROGRESS has both and
    has no current question. *)
Theorem suggestion_is_set_by_the_hand_over w sid s :
  reachable w ->
  session_of w sid = Some s ->
  (Session.status s = IN_PROGRESS ->
   Session.suggested_icd10 s = None /\ Session.suggested_condition_name s = None)
  /\ (Session.status s <> IN_PROGRESS ->
      (exists icd10 name,
         Session.suggested_icd10 s = Some icd10 /\
         Session.suggested_condition_name s = Some name) /\
      Session.current_question_id s = None).
Proof. apply suggestion_invariant. Qed.

(** X9.  In a reachable state the response at position [i] (from 0) of a
    session carries the text "Question i+1" and a question id that is not
    empty, and the responses are as many as [questions_asked]. *)
Theorem responses_are_numbered w sid s i r :
  reachable w ->
  session_of w sid = Some s ->
  Session.patient_responses s !! i = Some r ->
  PatientResponse.question_text r = "Question " ++ pretty (Z.of_nat i + 1)
  /\ PatientResponse.question_id r <> ""
  /\ (i < length (Session.patient_responses s))%nat
  /\ Z.of_nat (length (Session.patient_responses s)) = Session.questions_asked s.
Proof.
  intros Hreach Hs Hr.
  assert (HP : Z.of_nat (length (Session.patient_responses s)) = Session.questions_asked s
               /\ forall i r, Session.patient_responses s !! i = Some r ->
                    PatientResponse.question_text r = "Question " ++ pretty (Z.of_nat i + 1)
                    /\ PatientResponse.question_id r <> "").
  { refine (reachable_joint_session
              (fun s _ =>
                 Z.of_nat (length (Session.patient_responses s)) = Session.questions_asked s
                 /\ forall i r, Session.patient_responses s !! i = Some r ->
                      PatientResponse.question_text r =
                        "Question " ++ pretty (Z.of_nat i + 1)
                      /\ PatientResponse.question_id r <> "")
              _ _ w sid s Hreach Hs).
    - intros sid0 now cc. cbn. split; [reflexivity|]. intros i0 r0 H.
      rewrite lookup_nil in H. discriminate.
    - intros s0 e s' e' Ht [Hlen Hall].
      assert (Hrec : forall now request,
                 truthy (Session.current_question_id s0) = true ->
                 forall i r,
                   (Session.patient_responses s0 ++ [response_for s0 now request])%list !! i
                     = Some r ->
                   PatientResponse.question_text r = "Question " ++ pretty (Z.of_nat i + 1)
                   /\ PatientResponse.question_id r <> "").
      { intros now request Hq i0 r0 Hi. apply lookup_app_Some in Hi as [Hi|[Hge Hi]].
        - apply Hall, Hi.
        - apply list_lookup_singleton_Some in Hi as [Hz <-].
          assert (i0 = length (Session.patient_responses s0)) as -> by lia.
          cbn. rewrite Hlen. split; [reflexivity|].
          apply truthy_Some in Hq as (c & q & ->). discriminate. }
      destruct Ht; cbn; try (split; [assumption|exact Hall]);
        (split; [rewrite length_app; cbn; lia|eauto]). }
  destruct HP as [Hlen Hall]. destruct (Hall i r Hr) as [Htext Hid].
  repeat split; try assumption. eapply lookup_lt_Some; eassumption.
Qed.

(** ** Engine sessions *)

(** X10.  In a reachable state the adapter holds an engine session only when
    the engine package is installed and only for a stored session that is
    IN_PROGRESS: the hand-over removes it. *)
Theorem engine_session_only_while_in_progress w sid :
  reachable w ->
  is_Some (adapter_sessions w !! sid) ->
  INTELLIGENCE_AVAILABLE D = true
  /\ exists s, session_of w sid = Some s /\ Session.status s = IN_PROGRESS.
Proof.
  intros Hreach Hsome. apply present_true in Hsome.
  pose proof (reachable_joint
                (fun s e => e = true ->
                            INTELLIGENCE_AVAILABLE D = true /\ Session.status s = IN_PROGRESS)
                ltac:(discriminate)) as H.
  cbn beta in H. specialize (fun Ht => H Ht w Hreach sid).
  assert (Ht : forall s e s' e',
             session_trans (D:=D) s e s' e' ->
             (e = true -> INTELLIGENCE_AVAILABLE D = true /\ Session.status s = IN_PROGRESS) ->
             e' = true -> INTELLIGENCE_AVAILABLE D = true /\ Session.status s' = IN_PROGRESS).
  { intros s e s' e' Ht IH.
    destruct Ht as [s e| s e Hav Hst| s e q Hst| s e now request Hst| s e now request q Hst
                   | s e now request icd10 name| s e icd10 name
                   | s e now d Hst| s e now d Hst]; cbn; intros He.
    - auto.
    - auto.
    - destruct (INTELLIGENCE_AVAILABLE D); [auto|]. destruct (IH He). discriminate.
    - destruct (IH He). auto.
    - destruct (IH He). auto.
    - discriminate.
    - discriminate.
    - destruct (IH He). congruence.
    - destruct (IH He). congruence. }
  specialize (H Ht). destruct (session_of w sid) as [s|].
  - destruct (H Hsome). eauto.
  - congruence.
Qed.

(** X11.  With the engine installed, a session with an active question has
    an engine session in the adapter, so that the adapter's
    [answer_question] passes the answer to the engine and returns what the
    engine returns. *)
Theorem active_question_has_an_engine_session w sid s :
  reachable w ->
  INTELLIGENCE_AVAILABLE D = true ->
  session_of w sid = Some s ->
  truthy (Session.current_question_id s) = true ->
  exists c,
    adapter_sessions w !! sid = Some c
    /\ forall qid answer,
         fst (answer_question sid qid answer w) =
           match fst (Engine.answer_question (engine D) c qid answer) with
           | inl e => inl e
           | inr None => inr None
           | inr (Some q) => inr (Some (QuestionResult.of_engine q))
           end.
Proof.
  intros Hreach Hav Hs Hq.
  assert (Hpresent : present (adapter_sessions w) sid = true).
  { revert Hq.
    refine (reachable_joint_session
              (fun s e => truthy (Session.current_question_id s) = true -> e = true)
              _ _ w sid s Hreach Hs).
    - discriminate.
    - intros s0 e s' e' Ht IH. destruct Ht; cbn; auto; try discriminate.
      intros _. rewrite Hav. reflexivity. }
  apply present_true in Hpresent as [c Hc]. exists c. split; [assumption|].
  intros qid answer. rewrite (adapter_local_fst _ _ (answer_question_local _ _ _)).
  unfold run_adapter, answer_question. rewrite Hav. cbn [negb].
  unfold bind, adapter_get, call, ret, raise. cbn. rewrite Hc.
  destruct (Engine.answer_question _ _ _ _) as [[e|[q|]] c']; reflexivity.
Qed.

(** ** Guards of the routes *)

(** X12.  For an identifier that is not stored, every route that takes one
    answers 404 "Session not found" and leaves the state as it is. *)
Theorem unknown_session_is_not_found w sid :
  storage_sessions w !! sid = None ->
  get_session sid w = (inl NotFound, w)
  /\ start_chat sid w = (inl NotFound, w)
  /\ get_next_question sid w = (inl NotFound, w)
  /\ (forall now request, submit_answer sid now request w = (inl NotFound, w))
  /\ complete_assessment sid w = (inl NotFound, w)
  /\ get_session_for_review sid w = (inl NotFound, w)
  /\ (forall now d, accept_diagnosis sid now d w = (inl NotFound, w))
  /\ (forall now d, reject_and_replace sid now d w = (inl NotFound, w)).
Proof.
  intros Hnone.
  unfold get_session, start_chat, get_next_question, submit_answer, complete_assessment,
    get_session_for_review, accept_diagnosis, reject_and_replace, bind, storage_get.
  cbn. rewrite Hnone. repeat split.
Qed.

(** X13.  For a session that has left IN_PROGRESS, [start_chat],
    [submit_answer] and [complete_assessment] answer 400 with the status in
    the message and leave the state as it is. *)
Theorem patient_routes_require_in_progress w sid s :
  reachable w ->
  session_of w sid = Some s ->
  Session.status s <> IN_PROGRESS ->
  start_chat sid w = (inl (not_in_progress (Session.status s)), w)
  /\ (forall now request,
        submit_answer sid now request w = (inl (not_in_progress (Session.status s)), w))
  /\ complete_assessment sid w = (inl (not_in_progress (Session.status s)), w).
Proof.
  intros Hreach Hs Hst. pose proof (wf_session_id _ _ _ (reachable_wf _ Hreach) Hs) as Hid.
  apply session_of_Some in Hs as (l & Hl & Hs).
  split; [|split].
  - rewrite (start_chat_run _ _ _ _ Hl Hs Hid).
    rewrite bool_decide_eq_false_2 by assumption. reflexivity.
  - intros now request. rewrite (submit_answer_run _ _ _ _ _ _ Hl Hs Hid).
    rewrite bool_decide_eq_false_2 by assumption. reflexivity.
  - rewrite (complete_assessment_run _ _ _ _ Hl Hs Hid).
    rewrite bool_decide_eq_false_2 by assumption. reflexivity.
Qed.

(** X14.  An answer for a session IN_PROGRESS without a current question
    (not started, or started without a question) is answered 400 "No active
    question" and is not recorded. *)
Theorem answer_without_active_question_is_not_recorded w sid s now request :
  reachable w ->
  session_of w sid = Some s ->
  Session.status s = IN_PROGRESS ->
  truthy (Session.current_question_id s) = false ->
  submit_answer sid now request w =
    (inl (HTTPException 400 "No active question. Please use /start to begin."), w).
Proof.
  intros Hreach Hs Hst Hq. pose proof (wf_session_id _ _ _ (reachable_wf _ Hreach) Hs) as Hid.
  apply session_of_Some in Hs as (l & Hl & Hs).
  rewrite (submit_answer_run _ _ _ _ _ _ Hl Hs Hid).
  rewrite bool_decide_eq_true_2, Hq by assumption. reflexivity.
Qed.

(** X15.  For a stored session [get_next_question] changes nothing and
    returns no question, whether or not one is active; [is_complete] tells
    whether the session has left IN_PROGRESS. *)
Theorem get_next_question_never_returns_a_question w sid s :
  session_of w sid = Some s ->
  exists message,
    get_next_question sid w =
      (inr (AnswerResponse.mk sid None
              (negb (bool_decide (Session.status s = IN_PROGRESS))) message), w).
Proof.
  intros (l & Hl & Hs)%session_of_Some.
  unfold get_next_question, bind, storage_get, load, ret. cbn. rewrite Hl, Hs.
  destruct (Session.status s); cbn; eauto.
Qed.

(** ** Completion by hand *)

(** X16.  For a session IN_PROGRESS [complete_assessment] always succeeds,
    whatever the engine does: the session is handed over with some suggested
    code and condition name, its engine session is removed, and the other
    sessions and engine sessions are unchanged. *)
Theorem complete_assessment_always_hands_over w sid s :
  reachable w ->
  session_of w sid = Some s ->
  Session.status s = IN_PROGRESS ->
  exists icd10 name,
    fst (complete_assessment sid w) = inr (AnswerResponse.mk sid None true thank_you)
    /\ session_of (snd (complete_assessment sid w)) sid = Some (hand_over icd10 name s)
    /\ adapter_sessions (snd (complete_assessment sid w)) !! sid = None
    /\ forall sid', sid' <> sid ->
         session_of (snd (complete_assessment sid w)) sid' = session_of w sid'
         /\ adapter_sessions (snd (complete_assessment sid w)) !! sid'
            = adapter_sessions w !! sid'.
Proof.
  intros Hreach Hs Hst. pose proof (reachable_wf _ Hreach) as Hwf.
  pose proof (wf_session_id _ _ _ Hwf Hs) as Hid.
  apply session_of_Some in Hs as (l & Hl & Hs).
  rewrite (complete_assessment_run _ _ _ _ Hl Hs Hid).
  rewrite bool_decide_eq_true_2 by assumption. cbn [negb].
  destruct (evaluate_cases sid (adapter_sessions w)) as (Hother & _).
  destruct (run_adapter _ _) as [[e|result] ad]; cbn [fst snd] in *.
  - exists "Z03.89", "Observation for suspected condition".
    split; [reflexivity|]. split; [eapply session_of_updated_eq; eassumption|].
    split; [apply lookup_delete_eq|]. intros sid' Hne. split.
    + eapply session_of_updated_ne; eassumption.
    + cbn. rewrite lookup_delete_ne by congruence. apply Hother, Hne.
  - exists (EvaluationResult.suggested_icd10 result), (EvaluationResult.condition_name result).
    split; [reflexivity|]. split; [eapply session_of_updated_eq; eassumption|].
    split; [apply lookup_delete_eq|]. intros sid' Hne. split.
    + eapply session_of_updated_ne; eassumption.
    + cbn. rewrite lookup_delete_ne by congruence. apply Hother, Hne.
Qed.

(** X17.  What [complete_assessment] stores for a session IN_PROGRESS that
    has no engine session: with the engine installed the adapter's
    [evaluate] fails and the default Z03.89 is stored, without it the mock
    suggestion M17.11. *)
Theorem completing_without_engine_session w sid s :
  reachable w ->
  session_of w sid = Some s ->
  Session.status s = IN_PROGRESS ->
  adapter_sessions w !! sid = None ->
  session_of (snd (complete_assessment sid w)) sid =
    Some (if INTELLIGENCE_AVAILABLE D
          then hand_over "Z03.89" "Observation for suspected condition" s
          else hand_over "M17.11" "Primary osteoarthritis, right knee" s).
Proof.
  intros Hreach Hs Hst Hnone. pose proof (reachable_wf _ Hreach) as Hwf.
  pose proof (wf_session_id _ _ _ Hwf Hs) as Hid.
  apply session_of_Some in Hs as (l & Hl & Hs).
  rewrite (complete_assessment_run _ _ _ _ Hl Hs Hid).
  rewrite bool_decide_eq_true_2 by assumption. cbn [negb].
  destruct (evaluate_cases sid (adapter_sessions w)) as (_ & _ & Hreal & Hmock).
  destruct (INTELLIGENCE_AVAILABLE D).
  - rewrite (Hreal eq_refl Hnone). cbn [snd]. eapply session_of_updated_eq; eassumption.
  - rewrite (Hmock eq_refl). cbn [snd]. eapply session_of_updated_eq; eassumption.
Qed.

(** ** The mock flow *)

Lemma submit_answer_mock w sid s qid now request :
  INTELLIGENCE_AVAILABLE D = false ->
  reachable w ->
  session_of w sid = Some s ->
  Session.status s = IN_PROGRESS ->
  Session.current_question_id s = Some qid ->
  qid <> "" ->
  session_of (serve (POST_chat_answer sid now request) w) sid =
    Some (let recorded :=
            record_response
              (PatientResponse.mk qid ("Question " ++ pretty (Session.questions_asked s + 1))
                 (AnswerRequest.answer request) now) s in
          match _mock_answer_question sid qid (AnswerRequest.answer request) with
          | Some q =>
              Session.set_current_question_id (Some (QuestionResult.question_id q)) recorded
          | None => hand_over "M17.11" "Primary osteoarthritis, right knee" recorded
          end).
Proof.
  intros Hav Hreach Hs Hst Hq Hne. pose proof (reachable_wf _ Hreach) as Hwf.
  pose proof (wf_session_id _ _ _ Hwf Hs) as Hid.
  apply session_of_Some in Hs as (l & Hl & Hs).
  cbn [serve]. rewrite (submit_answer_run _ _ _ _ _ _ Hl Hs Hid).
  rewrite bool_decide_eq_true_2 by assumption. rewrite Hq.
  replace (truthy (Some qid)) with true by (destruct qid; [congruence|reflexivity]).
  cbn [negb]. cbn zeta. unfold response_for. rewrite Hq.
  change (default "" (Some qid)) with qid.
  destruct (answer_question_cases sid qid (AnswerRequest.answer request) (adapter_sessions w))
    as (_ & _ & _ & Hmock).
  rewrite (Hmock Hav).
  destruct (_mock_answer_question _ _ _) as [q|].
  - cbn [snd]. rewrite (session_of_updated_eq _ _ _ _ _ _ Hl Hs). reflexivity.
  - destruct (evaluate_cases sid (adapter_sessions w)) as (_ & _ & _ & Hev).
    rewrite (Hev Hav). cbn [snd]. rewrite (session_of_updated_eq _ _ _ _ _ _ Hl Hs).
    reflexivity.
Qed.

(** X18.  Without the engine package, a session at the first mock question
    is still IN_PROGRESS at q5_stiffness after four answers and is handed
    over by the fifth, whatever the answers are: the five answers are
    recorded under the five mock question ids, numbered on from
    [questions_asked], and the suggestion is M17.11. *)
Theorem mock_flow_takes_five_answers w sid s a1 a2 a3 a4 a5 t1 t2 t3 t4 t5 :
  INTELLIGENCE_AVAILABLE D = false ->
  reachable w ->
  session_of w sid = Some s ->
  Session.status s = IN_PROGRESS ->
  Session.current_question_id s = Some "q1_location" ->
  let answer t a := POST_chat_answer sid t (AnswerRequest.mk a) in
  let w4 := serve (answer t4 a4) (serve (answer t3 a3) (serve (answer t2 a2)
              (serve (answer t1 a1) w))) in
  let n := Session.questions_asked s in
  (exists s4,
     session_of w4 sid = Some s4 /\ Session.status s4 = IN_PROGRESS /\
     Session.current_question_id s4 = Some "q5_stiffness")
  /\ session_of (serve (answer t5 a5) w4) sid =
       Some (Session.mk (Session.session_id s) PENDING_REVIEW (Session.created_at s)
               (Session.chief_complaint s)
               (Session.patient_responses s ++
                [PatientResponse.mk "q1_location" ("Question " ++ pretty (n + 1)) a1 t1;
                 PatientResponse.mk "q2_duration" ("Question " ++ pretty (n + 2)) a2 t2;
                 PatientResponse.mk "q3_stairs" ("Question " ++ pretty (n + 3)) a3 t3;
                 PatientResponse.mk "q4_swelling" ("Question " ++ pretty (n + 4)) a4 t4;
                 PatientResponse.mk "q5_stiffness" ("Question " ++ pretty (n + 5)) a5 t5])
               (Some "M17.11") (Some "Primary osteoarthritis, right knee")
               (Session.reviewed_at s) (Session.clinician_id s) (Session.decision s)
               (Session.final_icd10 s) (Session.clinician_notes s) None (n + 5)).
Proof.
  intros Hav Hreach Hs Hst Hq answer w4 n. subst answer w4 n.
  set (r1 := POST_chat_answer sid t1 (AnswerRequest.mk a1)).
  set (r2 := POST_chat_answer sid t2 (AnswerRequest.mk a2)).
  set (r3 := POST_chat_answer sid t3 (AnswerRequest.mk a3)).
  set (r4 := POST_chat_answer sid t4 (AnswerRequest.mk a4)).
  set (r5 := POST_chat_answer sid t5 (AnswerRequest.mk a5)).
  pose (next := fun qid q t a s0 =>
          Session.set_current_question_id (Some q)
            (record_response
               (PatientResponse.mk qid ("Question " ++ pretty (Session.questions_asked s0 + 1))
                  a t) s0)).
  pose (s1 := next "q1_location" "q2_duration" t1 a1 s).
  pose (s2 := next "q2_duration" "q3_stairs" t2 a2 s1).
  pose (s3 := next "q3_stairs" "q4_swelling" t3 a3 s2).
  pose (s4 := next "q4_swelling" "q5_stiffness" t4 a4 s3).
  assert (Hr1 : reachable (serve r1 w)) by (apply reachable_serve; [assumption|exact I]).
  assert (H1 : session_of (serve r1 w) sid = Some s1)
    by exact (submit_answer_mock w sid s "q1_location" t1 (AnswerRequest.mk a1)
                Hav Hreach Hs Hst Hq ltac:(discriminate)).
  assert (Hr2 : reachable (serve r2 (serve r1 w)))
    by (apply reachable_serve; [assumption|exact I]).
  assert (H2 : session_of (serve r2 (serve r1 w)) sid = Some s2)
    by exact (submit_answer_mock _ sid s1 "q2_duration" t2 (AnswerRequest.mk a2)
                Hav Hr1 H1 Hst eq_refl ltac:(discriminate)).
  assert (Hr3 : reachable (serve r3 (serve r2 (serve r1 w))))
    by (apply reachable_serve; [assumption|exact I]).
  assert (H3 : session_of (serve r3 (serve r2 (serve r1 w))) sid = Some s3)
    by exact (submit_answer_mock _ sid s2 "q3_stairs" t3 (AnswerRequest.mk a3)
                Hav Hr2 H2 Hst eq_refl ltac:(discriminate)).
  assert (Hr4 : reachable (serve r4 (serve r3 (serve r2 (serve r1 w)))))
    by (apply reachable_serve; [assumption|exact I]).
  assert (H4 : session_of (serve r4 (serve r3 (serve r2 (serve r1 w)))) sid = Some s4)
    by exact (submit_answer_mock _ sid s3 "q4_swelling" t4 (AnswerRequest.mk a4)
                Hav Hr3 H3 Hst eq_refl ltac:(discriminate)).
  split.
  - exists s4. split; [exact H4|]. split; [exact Hst|reflexivity].
  - etransitivity;
      [exact (submit_answer_mock _ sid s4 "q5_stiffness" t5 (AnswerRequest.mk a5)
                Hav Hr4 H4 Hst eq_refl ltac:(discriminate))|].
    f_equal. subst s4 s3 s2 s1 next.
    unfold hand_over, record_response. cbn.
    rewrite <- !app_assoc. cbn [app]. rewrite <- !Z.add_assoc. reflexivity.
Qed.

(** ** Decisions seen by the clinician *)

Lemma AcceptSuggestion_success w sid now body result w' :
  wf w ->
  AcceptSuggestion sid now body w = (inr result, w') ->
  exists l s c r,
    storage_sessions w !! sid = Some l /\ heap w !! l = Some s /\
    Session.session_id s = sid /\
    Session.status s = PENDING_REVIEW /\
    Session.suggested_icd10 s = Some (String c r) /\
    result = ReviewResult.mk sid "accepted" (String c r)
               (AcceptDecision.clinician_id body) now /\
    w' = updated w l (apply_accept now body) (adapter_sessions w).
Proof.
  intros Hwf Hrun. unfold AcceptSuggestion in Hrun.
  destruct (AcceptDecision.validate body) as [e|d] eqn:Hval; [discriminate|].
  pose proof Hval as (-> & _)%AcceptDecision_validate_inr.
  destruct (storage_sessions w !! sid) as [l|] eqn:Hl.
  - destruct (Hwf _ _ Hl) as (s & Hs & Hid).
    rewrite (accept_diagnosis_run _ _ _ _ _ _ Hl Hs Hid) in Hrun.
    destruct (bool_decide_reflect (Session.status s = PENDING_REVIEW)) as [Hst|Hst];
      cbn [negb] in Hrun; [|discriminate].
    destruct (Session.suggested_icd10 s) as [[|c r]|] eqn:Hsug; try discriminate.
    injection Hrun as <- <-. exists l, s, c, r. auto 10.
  - unfold accept_diagnosis, bind, storage_get in Hrun. cbn in Hrun.
    rewrite Hl in Hrun. discriminate.
Qed.

Lemma RejectAndReplace_success w sid now body result w' :
  wf w ->
  RejectAndReplace sid now body w = (inr result, w') ->
  exists l s d,
    storage_sessions w !! sid = Some l /\ heap w !! l = Some s /\
    Session.session_id s = sid /\
    Session.status s = PENDING_REVIEW /\
    RejectReplaceDecision.validate body = inr d /\
    result = ReviewResult.mk sid "rejected_replaced"
               (RejectReplaceDecision.replacement_icd10 d)
               (RejectReplaceDecision.clinician_id d) now /\
    w' = updated w l (apply_reject now d) (adapter_sessions w).
Proof.
  intros Hwf Hrun. unfold RejectAndReplace in Hrun.
  destruct (RejectReplaceDecision.validate body) as [e|d] eqn:Hval; [discriminate|].
  destruct (storage_sessions w !! sid) as [l|] eqn:Hl.
  - destruct (Hwf _ _ Hl) as (s & Hs & Hid).
    rewrite (reject_and_replace_run _ _ _ _ _ _ Hl Hs Hid) in Hrun.
    destruct (bool_decide_reflect (Session.status s = PENDING_REVIEW)) as [Hst|Hst];
      cbn [negb] in Hrun; [|discriminate].
    injection Hrun as <- <-. exists l, s, d. auto 10.
  - unfold reject_and_replace, bind, storage_get in Hrun. cbn in Hrun.
    rewrite Hl in Hrun. discriminate.
Qed.

Lemma get_session_for_review_run w sid s :
  session_of w sid = Some s ->
  get_session_for_review sid w =
    (inr (SessionDetailResponse.mk (Session.session_id s) (value (Session.status s))
            (Session.created_at s) (Session.chief_complaint s)
            (Session.patient_responses s) (Session.questions_asked s)
            (Session.suggested_icd10 s) (Session.suggested_condition_name s)
            (Session.reviewed_at s) (Session.clinician_id s)
            (decision_value <$> Session.decision s) (Session.final_icd10 s)
            (Session.clinician_notes s)), w).
Proof.
  intros (l & Hl & Hs)%session_of_Some.
  unfold get_session_for_review, bind, storage_get, load, ret. cbn. rewrite Hl, Hs.
  reflexivity.
Qed.

(** X19.  After a successful decision, [get_session_for_review] returns for
    that session the status "reviewed" and the decision, final code,
    clinician and review time that the decision's result reported, the notes
    or the reason as sent, and the responses as they were; after an
    acceptance the suggested code is the final code, after a rejection it is
    the code suggested before. *)
Theorem review_detail_agrees_with_the_decision w sid now :
  reachable w ->
  (forall body result w',
     AcceptSuggestion sid now body w = (inr result, w') ->
     exists s detail,
       session_of w sid = Some s /\
       get_session_for_review sid w' = (inr detail, w') /\
       SessionDetailResponse.status detail = "reviewed" /\
       SessionDetailResponse.decision detail = Some (ReviewResult.decision result) /\
       SessionDetailResponse.final_icd10 detail = Some (ReviewResult.final_icd10 result) /\
       SessionDetailResponse.clinician_id detail = Some (ReviewResult.reviewed_by result) /\
       SessionDetailResponse.reviewed_at detail = Some (ReviewResult.reviewed_at result) /\
       SessionDetailResponse.clinician_notes detail = Some (AcceptDecision.notes body) /\
       SessionDetailResponse.suggested_icd10 detail
         = Some (ReviewResult.final_icd10 result) /\
       SessionDetailResponse.patient_responses detail = Session.patient_responses s)
  /\ (forall body result w',
        RejectAndReplace sid now body w = (inr result, w') ->
        exists s detail,
          session_of w sid = Some s /\
          get_session_for_review sid w' = (inr detail, w') /\
          SessionDetailResponse.status detail = "reviewed" /\
          SessionDetailResponse.decision detail = Some (ReviewResult.decision result) /\
          SessionDetailResponse.final_icd10 detail = Some (ReviewResult.final_icd10 result) /\
          SessionDetailResponse.clinician_id detail = Some (ReviewResult.reviewed_by result) /\
          SessionDetailResponse.reviewed_at detail = Some (ReviewResult.reviewed_at result) /\
          SessionDetailResponse.clinician_notes detail
            = Some (RejectReplaceDecision.reason body) /\
          SessionDetailResponse.suggested_icd10 detail = Session.suggested_icd10 s /\
          SessionDetailResponse.patient_responses detail = Session.patient_responses s).
Proof.
  intros Hreach. pose proof (reachable_wf _ Hreach) as Hwf. split.
  - intros body result w' Hrun.
    destruct (AcceptSuggestion_success _ _ _ _ _ _ Hwf Hrun)
      as (l & s & c & r & Hl & Hs & Hid & Hst & Hsug & -> & ->).
    exists s. eexists. split; [apply session_of_Some; eauto|].
    split; [apply get_session_for_review_run; eapply session_of_updated_eq; eassumption|].
    cbn. rewrite Hsug. repeat split.
  - intros body result w' Hrun.
    destruct (RejectAndReplace_success _ _ _ _ _ _ Hwf Hrun)
      as (l & s & d & Hl & Hs & Hid & Hst & Hval & -> & ->).
    apply RejectReplaceDecision_validate_inr in Hval as (_ & _ & _ & c & r & _ & _ & ->).
    exists s. eexists. split; [apply session_of_Some; eauto|].
    split; [apply get_session_for_review_run; eapply session_of_updated_eq; eassumption|].
    cbn. repeat split.
Qed.

(** ** The store's listings *)

Lemma elem_of_bound_from st i h s :
  s ∈ bound_from st i h <->
  exists k, h !! k = Some s /\ st !! Session.session_id s = Some (i + k)%nat.
Proof.
  revert i. induction h as [|x h IH]; intros i; cbn.
  - split; [intros H; inversion H|intros (k & H & _); rewrite lookup_nil in H; discriminate].
  - case_bool_decide as Hx.
    + rewrite elem_of_cons, IH. split.
      * intros [->|(k & Hk & Hb)].
        -- exists 0%nat. rewrite Nat.add_0_r. auto.
        -- exists (S k). rewrite Nat.add_succ_r. auto.
      * intros ([|k] & Hk & Hb).
        -- left. cbn in Hk. congruence.
        -- right. exists k. rewrite Nat.add_succ_r in Hb. auto.
    + rewrite IH. split.
      * intros (k & Hk & Hb). exists (S k). rewrite Nat.add_succ_r. auto.
      * intros ([|k] & Hk & Hb).
        -- cbn in Hk. injection Hk as <-. rewrite Nat.add_0_r in Hb. contradiction.
        -- exists k. rewrite Nat.add_succ_r in Hb. auto.
Qed.

Lemma NoDup_bound_from st i h : NoDup (Session.session_id <$> bound_from st i h).
Proof.
  revert i. induction h as [|x h IH]; intros i; cbn; [constructor|].
  case_bool_decide as Hx; [|apply IH].
  cbn. constructor; [|apply IH].
  intros (y & Hid & (k & Hk & Hb)%elem_of_bound_from)%list_elem_of_fmap.
  rewrite <- Hid, Hx in Hb. injection Hb. lia.
Qed.

Lemma elem_of_storage_values w s :
  wf w -> s ∈ storage_values w <-> exists sid, session_of w sid = Some s.
Proof.
  intros Hwf. unfold storage_values. rewrite elem_of_bound_from. split.
  - intros (k & Hk & Hb). exists (Session.session_id s).
    apply session_of_Some. eauto.
  - intros (sid & Hs). pose proof (wf_session_id _ _ _ Hwf Hs) as Hid.
    apply session_of_Some in Hs as (l & Hl & Hs). exists l. rewrite Hid. auto.
Qed.

(** Updating the bound object at position [k] changes its entry in the
    listing and no other. *)
Lemma bound_from_alter st i h k s f :
  h !! k = Some s ->
  st !! Session.session_id s = Some (i + k)%nat ->
  (forall x, Session.session_id (f x) = Session.session_id x) ->
  bound_from st i (alter f k h) =
    (fun x => if decide (Session.session_id x = Session.session_id s) then f x else x)
      <$> bound_from st i h.
Proof.
  intros Hk Hb Hf. revert i k Hk Hb. induction h as [|x h IH]; intros i k Hk Hb.
  - rewrite lookup_nil in Hk. discriminate.
  - destruct k as [|k]; cbn in Hk.
    + injection Hk as ->. rewrite Nat.add_0_r in Hb. cbn.
      rewrite Hf, !bool_decide_eq_true_2 by assumption. cbn.
      rewrite decide_True by reflexivity. f_equal.
      rewrite <- (list_fmap_id (bound_from st (S i) h)) at 1.
      apply Forall_fmap_ext, Forall_forall. intros y (k & Hy & Hby)%elem_of_bound_from.
      rewrite decide_False; [reflexivity|]. intros Heq. rewrite Heq, Hb in Hby.
      injection Hby. lia.
    + cbn. rewrite Nat.add_succ_r in Hb.
      rewrite (IH (S i) k Hk Hb). case_bool_decide as Hx; [|reflexivity].
      cbn. rewrite decide_False; [reflexivity|]. intros Heq. rewrite Heq, Hb in Hx.
      injection Hx. lia.
Qed.

Lemma storage_values_updated w l s f ad :
  wf w ->
  heap w !! l = Some s ->
  storage_sessions w !! Session.session_id s = Some l ->
  (forall x, Session.session_id (f x) = Session.session_id x) ->
  storage_values (updated w l f ad) =
    (fun x => if decide (Session.session_id x = Session.session_id s) then f x else x)
      <$> storage_values w.
Proof.
  intros Hwf Hs Hl Hf. unfold storage_values, updated. cbn.
  apply bound_from_alter; assumption.
Qed.

Lemma storage_values_same_id w s x :
  wf w -> x ∈ storage_values w ->
  session_of w (Session.session_id s) = Some s ->
  Session.session_id x = Session.session_id s -> x = s.
Proof.
  intros Hwf (sid & Hx)%elem_of_storage_values Hs Hid; [|assumption].
  pose proof (wf_session_id _ _ _ Hwf Hx) as Hsid. congruence.
Qed.

Lemma filter_fmap_comm {A B} (g : A -> B) (P : B -> Prop) `{!forall y, base.Decision (P y)}
    (l : list A) :
  filter P (g <$> l) = g <$> filter (fun x => P (g x)) l.
Proof.
  induction l as [|x l IH]; [reflexivity|]. rewrite fmap_cons, !filter_cons.
  destruct (decide (P (g x))); rewrite ?fmap_cons, IH; reflexivity.
Qed.

Lemma NoDup_fmap_filter {A B} (g : A -> B) (P : A -> Prop) `{!forall x, base.Decision (P x)}
    (l : list A) :
  NoDup (g <$> l) -> NoDup (g <$> filter P l).
Proof.
  induction l as [|x l IH]; [intros; constructor|]. rewrite fmap_cons, filter_cons.
  intros [Hx Hl]%NoDup_cons. destruct (decide (P x)); [|auto].
  rewrite fmap_cons. apply NoDup_cons. split; [|auto].
  intros (y & Hy & Hin%list_elem_of_filter)%list_elem_of_fmap.
  apply Hx, list_elem_of_fmap. exists y. tauto.
Qed.

Lemma filter_replaced (sid : string) (g : Session.t -> Session.t) (P : Session.t -> Prop)
    `{!forall x, base.Decision (P x)} (l : list Session.t) :
  (forall x, x ∈ l -> if decide (Session.session_id x = sid) then ~ P (g x) else g x = x) ->
  filter P (g <$> l) = filter (fun x => Session.session_id x <> sid) (filter P l).
Proof.
  induction l as [|x l IH]; intros Hall; [reflexivity|]. rewrite fmap_cons.
  pose proof (Hall x ltac:(left)) as Hx.
  assert (IH' := IH (fun y Hy => Hall y ltac:(right; exact Hy))).
  rewrite !filter_cons. destruct (decide (Session.session_id x = sid)) as [Heq|Hne].
  - rewrite decide_False by assumption. rewrite IH'.
    destruct (decide (P x)); [|reflexivity].
    rewrite filter_cons, decide_False by tauto. reflexivity.
  - rewrite Hx. destruct (decide (P x)); [|assumption].
    rewrite filter_cons, decide_True by assumption. rewrite IH'. reflexivity.
Qed.

Lemma get_pending_sessions_run w :
  get_pending_sessions w =
    (inr ((fun s => PendingSessionResponse.mk (Session.session_id s)
                      (value (Session.status s)) (Session.created_at s)
                      (Session.chief_complaint s) (Session.questions_asked s)
                      (Session.suggested_icd10 s) (Session.suggested_condition_name s))
            <$> filter (fun s => Session.status s = PENDING_REVIEW) (storage_values w)), w).
Proof. reflexivity. Qed.

(** X20.  In a reachable state [get_pending_sessions] returns exactly the
    stored sessions that are PENDING_REVIEW, each under its identifier with
    the status "pending_review" and its own fields; every entry has a
    suggested code and a condition name, and no identifier is listed twice. *)
Theorem pending_queue_lists_the_pending_sessions w :
  reachable w ->
  exists entries,
    get_pending_sessions w = (inr entries, w)
    /\ (forall e,
          e ∈ entries <->
          exists sid s,
            session_of w sid = Some s /\ Session.status s = PENDING_REVIEW /\
            e = PendingSessionResponse.mk sid "pending_review" (Session.created_at s)
                  (Session.chief_complaint s) (Session.questions_asked s)
                  (Session.suggested_icd10 s) (Session.suggested_condition_name s))
    /\ (forall e,
          e ∈ entries ->
          exists icd10 name,
            PendingSessionResponse.suggested_icd10 e = Some icd10 /\
            PendingSessionResponse.suggested_condition_name e = Some name)
    /\ NoDup (PendingSessionResponse.session_id <$> entries).
Proof.
  intros Hreach. pose proof (reachable_wf _ Hreach) as Hwf.
  eexists. split; [apply get_pending_sessions_run|].
  assert (Hmem : forall e,
            e ∈ (fun s => PendingSessionResponse.mk (Session.session_id s)
                            (value (Session.status s)) (Session.created_at s)
                            (Session.chief_complaint s) (Session.questions_asked s)
                            (Session.suggested_icd10 s)
                            (Session.suggested_condition_name s))
                  <$> filter (fun s => Session.status s = PENDING_REVIEW) (storage_values w)
            <->
            exists sid s,
              session_of w sid = Some s /\ Session.status s = PENDING_REVIEW /\
              e = PendingSessionResponse.mk sid "pending_review" (Session.created_at s)
                    (Session.chief_complaint s) (Session.questions_asked s)
                    (Session.suggested_icd10 s) (Session.suggested_condition_name s)).
  { intros e. rewrite list_elem_of_fmap. split.
    - intros (s & -> & [Hst (sid & Hs)%elem_of_storage_values]%list_elem_of_filter);
        [|assumption].
      exists sid, s. rewrite (wf_session_id _ _ _ Hwf Hs), Hst. auto.
    - intros (sid & s & Hs & Hst & ->). exists s.
      rewrite (wf_session_id _ _ _ Hwf Hs), Hst. split; [reflexivity|].
      apply list_elem_of_filter. split; [assumption|].
      apply elem_of_storage_values; eauto. }
  split; [exact Hmem|]. split.
  - intros e (sid & s & Hs & Hst & ->)%Hmem. cbn.
    apply (suggestion_invariant w sid s Hreach Hs). congruence.
  - rewrite <- list_fmap_compose.
    apply (NoDup_fmap_filter Session.session_id), NoDup_bound_from.
Qed.

(** X21.  In a reachable state a successful [AcceptSuggestion] or
    [RejectAndReplace] for [sid] turns the pending queue into the queue
    without the entry of [sid]: the other entries stay, unchanged and in
    their order. *)
Theorem decision_leaves_the_queue w sid now :
  reachable w ->
  exists entries,
    fst (get_pending_sessions w) = inr entries
    /\ (forall body result w',
          AcceptSuggestion sid now body w = (inr result, w') ->
          fst (get_pending_sessions w') =
            inr (filter (fun e => PendingSessionResponse.session_id e <> sid) entries))
    /\ (forall body result w',
          RejectAndReplace sid now body w = (inr result, w') ->
          fst (get_pending_sessions w') =
            inr (filter (fun e => PendingSessionResponse.session_id e <> sid) entries)).
Proof.
  intros Hreach. pose proof (reachable_wf _ Hreach) as Hwf.
  eexists. split; [rewrite get_pending_sessions_run; reflexivity|].
  assert (Hgen : forall l s f,
            storage_sessions w !! sid = Some l -> heap w !! l = Some s ->
            Session.session_id s = sid ->
            (forall x, Session.session_id (f x) = Session.session_id x) ->
            Session.status (f s) <> PENDING_REVIEW ->
            fst (get_pending_sessions (updated w l f (adapter_sessions w))) =
              inr (filter (fun e => PendingSessionResponse.session_id e <> sid)
                     ((fun s => PendingSessionResponse.mk (Session.session_id s)
                                  (value (Session.status s)) (Session.created_at s)
                                  (Session.chief_complaint s) (Session.questions_asked s)
                                  (Session.suggested_icd10 s)
                                  (Session.suggested_condition_name s))
                        <$> filter (fun s => Session.status s = PENDING_REVIEW)
                              (storage_values w)))).
  { intros l s f Hl Hs Hid Hf Hst. rewrite get_pending_sessions_run. cbn [fst]. f_equal.
    assert (Hsid : storage_sessions w !! Session.session_id s = Some l) by congruence.
    rewrite (storage_values_updated w l s f _ Hwf Hs Hsid Hf).
    rewrite (filter_fmap_comm _ (fun e => PendingSessionResponse.session_id e <> sid)).
    cbn. f_equal. rewrite Hid. apply filter_replaced.
    intros x Hx. destruct (decide (Session.session_id x = sid)) as [Heq|Hne]; [|reflexivity].
    assert (x = s) as ->.
    { eapply storage_values_same_id; try eassumption; [|congruence].
      rewrite Hid. apply session_of_Some. eauto. }
    assumption. }
  split.
  - intros body result w' Hrun.
    destruct (AcceptSuggestion_success _ _ _ _ _ _ Hwf Hrun)
      as (l & s & c & r & Hl & Hs & Hid & Hst & Hsug & -> & ->).
    apply (Hgen l s); try assumption; [intros; reflexivity|discriminate].
  - intros body result w' Hrun.
    destruct (RejectAndReplace_success _ _ _ _ _ _ Hwf Hrun)
      as (l & s & d & Hl & Hs & Hid & Hst & Hval & -> & ->).
    apply (Hgen l s); try assumption; [intros; reflexivity|discriminate].
Qed.

Lemma value_inj st st' : value st = value st' -> st = st'.
Proof. destruct st, st'; cbn; congruence. Qed.

Lemma count_fold (vals : list Session.t) (counts : gmap string Z) st :
  foldl (fun counts session => alter (fun n => n + 1) (value (Session.status session)) counts)
        counts vals !! value st =
    (fun n => n + Z.of_nat (length (filter (fun s => Session.status s = st) vals)))
      <$> counts !! value st.
Proof.
  revert counts. induction vals as [|s vals IH]; intros counts.
  - cbn. destruct (counts !! value st); cbn; [f_equal; lia|reflexivity].
  - cbn [foldl]. rewrite IH, filter_cons.
    destruct (decide (Session.status s = st)) as [->|Hne].
    + rewrite lookup_alter_eq. destruct (counts !! value st); cbn; [f_equal; lia|reflexivity].
    + rewrite lookup_alter_ne by (intros ?%value_inj; congruence). reflexivity.
Qed.

Lemma count_fold_dom (vals : list Session.t) (counts : gmap string Z) :
  dom (foldl (fun counts session => alter (fun n => n + 1) (value (Session.status session)) counts)
         counts vals) = dom counts.
Proof.
  revert counts. induction vals as [|s vals IH]; intros counts; [reflexivity|].
  cbn [foldl]. rewrite IH. apply dom_alter_L.
Qed.

Lemma length_by_status (vals : list Session.t) :
  (length (filter (fun s => Session.status s = IN_PROGRESS) vals)
   + length (filter (fun s => Session.status s = PENDING_REVIEW) vals)
   + length (filter (fun s => Session.status s = REVIEWED) vals) = length vals)%nat.
Proof.
  induction vals as [|s vals IH]; [reflexivity|]. rewrite !filter_cons.
  destruct (Session.status s) eqn:Hst;
    repeat match goal with
           | |- context [decide ?P] => destruct (decide P); try congruence
           end; cbn [length]; lia.
Qed.

(** X22.  [get_session_counts] returns a count under each of the three
    status values and under nothing else; each is the number of sessions of
    [list_all] with that status, the one under "pending_review" is the
    length of the pending queue, and the three add up to the number of
    sessions listed. *)
Theorem counts_agree_with_the_listing w :
  exists counts all pending,
    get_session_counts w = (inr counts, w)
    /\ list_all w = (inr all, w)
    /\ get_pending_sessions w = (inr pending, w)
    /\ dom counts = list_to_set ["in_progress"; "pending_review"; "reviewed"]
    /\ (forall st,
          counts !! value st =
            Some (Z.of_nat (length (filter (fun s => Session.status s = st) all))))
    /\ counts !! "pending_review" = Some (Z.of_nat (length pending))
    /\ (exists n1 n2 n3,
          counts !! "in_progress" = Some n1 /\ counts !! "pending_review" = Some n2 /\
          counts !! "reviewed" = Some n3 /\ n1 + n2 + n3 = Z.of_nat (length all)).
Proof.
  do 3 eexists. split; [reflexivity|]. split; [reflexivity|].
  split; [apply get_pending_sessions_run|].
  assert (Hst : forall st,
            foldl (fun counts session =>
                     alter (fun n => n + 1) (value (Session.status session)) counts)
                  (list_to_map ((fun st => (value st, 0))
                                  <$> [IN_PROGRESS; PENDING_REVIEW; REVIEWED])
                   : gmap string Z)
                  (storage_values w) !! value st =
              Some (Z.of_nat (length (filter (fun s => Session.status s = st)
                                        (storage_values w))))).
  { intros st. rewrite count_fold. destruct st; reflexivity. }
  split; [|split; [exact Hst|split]].
  - rewrite count_fold_dom. apply leibniz_equiv. rewrite dom_list_to_map. reflexivity.
  - rewrite length_fmap. exact (Hst PENDING_REVIEW).
  - do 3 eexists. split; [exact (Hst IN_PROGRESS)|].
    split; [exact (Hst PENDING_REVIEW)|]. split; [exact (Hst REVIEWED)|].
    pose proof (length_by_status (storage_values w)). lia.
Qed.

(** X23.  In a reachable state [list_all] returns exactly the stored
    sessions, and no identifier twice. *)
Theorem listing_holds_every_session_once w :
  reachable w ->
  exists all,
    list_all w = (inr all, w)
    /\ (forall s, s ∈ all <-> exists sid, session_of w sid = Some s)
    /\ NoDup (Session.session_id <$> all).
Proof.
  intros Hreach. pose proof (reachable_wf _ Hreach) as Hwf.
  eexists. split; [reflexivity|]. split.
  - intros s. apply elem_of_storage_values. assumption.
  - apply NoDup_bound_from.
Qed.

(** ** Errors of the mock flow *)

Lemma run_adapter_mock sid cc qid answer ad :
  INTELLIGENCE_AVAILABLE D = false ->
  run_adapter (start_session sid cc) ad = (inr (Some (_mock_start_session sid cc)), ad)
  /\ run_adapter (answer_question sid qid answer) ad
     = (inr (_mock_answer_question sid qid answer), ad)
  /\ run_adapter (evaluate sid) ad = (inr (_mock_evaluate sid), ad).
Proof.
  intros Hmock. unfold run_adapter, start_session, answer_question, evaluate.
  rewrite Hmock. repeat split.
Qed.

(** X24.  Without the engine package, in a reachable state, an exception
    that a route raises for a validated request is an [HTTPException] with
    status 400 or 404: neither the store's [KeyError] nor any other
    exception escapes. *)
Theorem mock_routes_fail_only_with_400_or_404 w sid e :
  INTELLIGENCE_AVAILABLE D = false ->
  reachable w ->
  fst (get_session sid w) = inl e
  \/ fst (start_chat sid w) = inl e
  \/ fst (get_next_question sid w) = inl e
  \/ (exists now request, fst (submit_answer sid now request w) = inl e)
  \/ fst (complete_assessment sid w) = inl e
  \/ fst (get_session_for_review sid w) = inl e
  \/ (exists now d, fst (accept_diagnosis sid now d w) = inl e)
  \/ (exists now d, fst (reject_and_replace sid now d w) = inl e) ->
  exists code detail, e = HTTPException code detail /\ (code = 400 \/ code = 404).
Proof.
  intros Hmock Hreach. pose proof (reachable_wf _ Hreach) as Hwf.
  destruct (session_of w sid) as [s|] eqn:Hs.
  - pose proof (wf_session_id _ _ _ Hwf Hs) as Hid.
    pose proof (get_session_for_review_run _ _ _ Hs) as Hdetail.
    pose proof (get_session_run _ _ _ Hs) as Hget.
    apply session_of_Some in Hs as (l & Hl & Hs).
    assert (Hnext : exists r, get_next_question sid w = (inr r, w)).
    { unfold get_next_question, bind, storage_get, load, ret. cbn. rewrite Hl, Hs.
      destruct (Session.status s); cbn; eauto. }
    destruct Hnext as (r & Hnext).
    intros [H|[H|[H|[(now & request & H)|[H|[H|[(now & d & H)|(now & d & H)]]]]]]].
    + rewrite Hget in H. discriminate.
    + rewrite (start_chat_run _ _ _ _ Hl Hs Hid) in H.
      rewrite (proj1 (run_adapter_mock sid (default "" (Session.chief_complaint s))
                        "" "" (adapter_sessions w) Hmock)) in H.
      destruct (bool_decide (Session.status s = IN_PROGRESS)); cbn in H;
        [|injection H as <-; unfold not_in_progress; eauto].
      destruct (truthy (Session.chief_complaint s)); cbn in H;
        [discriminate|injection H as <-; eauto].
    + rewrite Hnext in H. discriminate.
    + rewrite (submit_answer_run _ _ _ _ _ _ Hl Hs Hid) in H.
      rewrite (proj1 (proj2 (run_adapter_mock sid "" (default "" (Session.current_question_id s))
                               (AnswerRequest.answer request) (adapter_sessions w) Hmock)))
        in H.
      destruct (bool_decide (Session.status s = IN_PROGRESS)); cbn in H;
        [|injection H as <-; unfold not_in_progress; eauto].
      destruct (truthy (Session.current_question_id s)); cbn in H;
        [|injection H as <-; eauto].
      destruct (_mock_answer_question _ _ _); [discriminate|].
      rewrite (proj2 (proj2 (run_adapter_mock sid "" "" "" (adapter_sessions w) Hmock))) in H.
      discriminate.
    + rewrite (complete_assessment_run _ _ _ _ Hl Hs Hid) in H.
      destruct (bool_decide (Session.status s = IN_PROGRESS)); cbn in H;
        [|injection H as <-; unfold not_in_progress; eauto].
      destruct (run_adapter _ _) as [[?|?] ?]; discriminate.
    + rewrite Hdetail in H. discriminate.
    + rewrite (accept_diagnosis_run _ _ _ _ _ _ Hl Hs Hid) in H.
      destruct (bool_decide (Session.status s = PENDING_REVIEW)); cbn in H;
        [|injection H as <-; unfold not_pending_review; eauto].
      destruct (Session.suggested_icd10 s) as [[|c r']|]; cbn in H;
        first [discriminate|injection H as <-; unfold no_suggestion; eauto].
    + rewrite (reject_and_replace_run _ _ _ _ _ _ Hl Hs Hid) in H.
      destruct (bool_decide (Session.status s = PENDING_REVIEW)); cbn in H;
        [discriminate|injection H as <-; unfold not_pending_review; eauto].
  - apply (wf_session_of_None _ _ Hwf) in Hs.
    unfold get_session, start_chat, get_next_question, submit_answer, complete_assessment,
      get_session_for_review, accept_diagnosis, reject_and_replace, bind, storage_get.
    cbn. rewrite Hs. cbn.
    intros [H|[H|[H|[(now & request & H)|[H|[H|[(now & d & H)|(now & d & H)]]]]]]];
      injection H as <-; unfold NotFound; eauto.
Qed.

End Properties.

(** * The properties on example runs *)

Ltac by_run :=
  repeat first
    [ apply reachable_init
    | apply reachable_serve; [|first [exact I | vm_compute; reflexivity]] ].

Lemma mock_started_reachable : reachable mock_started.
Proof. unfold mock_started, mock_created. by_run. Qed.

Lemma mock_pending_reachable : reachable mock_pending.
Proof. unfold mock_pending, mock_started, mock_created. by_run. Qed.

Lemma mock_reviewed_reachable : reachable mock_reviewed.
Proof. unfold mock_reviewed. apply reachable_serve; [apply mock_pending_reachable|exact I]. Qed.

Lemma strict_started_reachable : reachable strict_started.
Proof. unfold strict_started. by_run. Qed.

Lemma strict_pending_reachable : reachable strict_pending.
Proof. unfold strict_pending, strict_started. by_run. Qed.

Lemma silent_pending_reachable : reachable silent_pending.
Proof. unfold silent_pending, silent_created. by_run. Qed.

Lemma failing_started_reachable : reachable failing_started.
Proof. unfold failing_started. by_run. Qed.


(** C1 on the example: the reviewed session carries a suggestion and a
    review, and the patient view shows the four fields only. *)
Lemma patient_view_witness :
  session_of mock_reviewed "s1" = Some s1_reviewed
  /\ get_session "s1" mock_reviewed =
       (inr (SessionResponse.mk "s1" "reviewed" 10 5), mock_reviewed).
Proof.
  split; [vm_compute; reflexivity|].
  apply (patient_view_is_independent_of_clinical_fields mock_reviewed "s1" s1_reviewed).
  vm_compute. reflexivity.
Defined.

(** C2 on the example: a second review of the reviewed session, by the
    handlers and through the endpoints. *)
Lemma review_requires_pending_review_witness :
  accept_diagnosis "s1" 30 (AcceptDecision.mk "dr2" "I agree with it.") mock_reviewed
    = (inl (HTTPException 400 "Session is not pending review (status: reviewed)"),
       mock_reviewed)
  /\ reject_and_replace "s1" 30 dr1_rejects mock_reviewed
       = (inl (HTTPException 400 "Session is not pending review (status: reviewed)"),
          mock_reviewed)
  /\ AcceptSuggestion "s1" 30 (AcceptDecision.mk "dr2" "I agree with it.") mock_reviewed
       = (inl (HTTPException 400 "Session is not pending review (status: reviewed)"),
          mock_reviewed)
  /\ session_of
       (serve (POST_review_accept "s1" 30 (AcceptDecision.mk "dr2" "I agree with it."))
          mock_reviewed) "s1" = Some s1_reviewed.
Proof.
  assert (H := review_requires_pending_review mock_reviewed "s1" s1_reviewed
                 mock_reviewed_reachable
                 ltac:(vm_compute; reflexivity) ltac:(discriminate)).
  destruct H as (Ha & Hr & Hea & _ & Hfinal).
  split; [apply Ha|]. split; [apply Hr|]. split; [apply Hea|].
  apply Hfinal; [reflexivity|]. apply run_serve; [apply run_refl|exact I].
Defined.

(** C3 on examples: the strict engine finds no candidate after the last
    answer, so the session is handed over with the adapter's fallback; the
    failing engine makes [complete_assessment] store the default. *)
Lemma pending_review_has_a_suggested_code_witness :
  (exists code,
     Session.suggested_icd10
       (hand_over "Z03.89" "Undetermined"
          (record_response (PatientResponse.mk "q1_location" "Question 1" "Knee" 11)
             (Session.set_current_question_id (Some "q1_location")
                (Session.new "s1" IN_PROGRESS 10 "knee pain")))) = Some code)
  /\ session_of (snd (complete_assessment "s1" failing_started)) "s1" =
       Some (hand_over "Z03.89" "Observation for suspected condition"
               (Session.set_current_question_id (Some "q1_location")
                  (Session.new "s1" IN_PROGRESS 10 "knee pain"))).
Proof.
  split.
  - apply (proj1 (pending_review_has_a_suggested_code strict_pending
                    strict_pending_reachable) "s1");
      vm_compute; reflexivity.
  - apply (proj1 (proj2 (pending_review_has_a_suggested_code failing_started
                           failing_started_reachable)) "s1");
      vm_compute; reflexivity.
Defined.

(** C4, the counterexample: the session is PENDING_REVIEW, its suggested
    code is not null (it is the empty string the engine supplied), the
    clinician id is not empty and the notes have 10 characters, and yet
    acceptance fails. *)
Lemma accept_fails_on_empty_suggested_code :
  (exists s, session_of silent_pending "s1" = Some s /\
             Session.status s = PENDING_REVIEW /\
             Session.suggested_icd10 s = Some "" /\
             Session.suggested_icd10 s <> None)
  /\ AcceptDecision.clinician_id (AcceptDecision.mk "dr1" "0123456789") <> ""
  /\ len (AcceptDecision.notes (AcceptDecision.mk "dr1" "0123456789")) = 10
  /\ AcceptSuggestion "s1" 20 (AcceptDecision.mk "dr1" "0123456789") silent_pending =
       (inl (HTTPException 400 "No suggested ICD-10 code available"), silent_pending).
Proof.
  split; [|split; [discriminate|split; reflexivity]].
  eexists. split; [vm_compute; reflexivity|]. cbn. repeat split. discriminate.
Qed.

(** C4 as amended, on the example: ten characters of notes are accepted,
    nine are not. *)
Lemma accept_succeeds_iff_witness :
  (exists result w',
     AcceptSuggestion "s1" 20 (AcceptDecision.mk "dr1" "0123456789") mock_pending
       = (inr result, w'))
  /\ (exists errs,
        AcceptSuggestion "s1" 20 (AcceptDecision.mk "dr1" "012345678") mock_pending
          = (inl (RequestValidationError errs), mock_pending)).
Proof.
  split.
  - apply (proj1 (accept_succeeds_iff mock_pending "s1" 20
                    (AcceptDecision.mk "dr1" "0123456789") mock_pending_reachable)).
    eexists. split; [vm_compute; reflexivity|].
    cbn. repeat split; [discriminate|vm_compute; discriminate].
  - apply (proj1 (proj2 (accept_succeeds_iff mock_pending "s1" 20
                           (AcceptDecision.mk "dr1" "012345678") mock_pending_reachable))).
    vm_compute. reflexivity.
Defined.

(** C6 on the example: the strict engine refuses "Elbow". *)
Lemma answer_is_kept_when_the_engine_fails_witness :
  fst (submit_answer "s1" 11 (AnswerRequest.mk "Elbow") strict_started)
    = inl (HTTPException 400 "Invalid answer for categorical question")
  /\ exists s',
       session_of (snd (submit_answer "s1" 11 (AnswerRequest.mk "Elbow") strict_started)) "s1"
         = Some s' /\
       Session.patient_responses s' =
         [PatientResponse.mk "q1_location" "Question 1" "Elbow" 11] /\
       Session.questions_asked s' = 1 /\
       Session.status s' = IN_PROGRESS /\
       Session.current_question_id s' = Some "q1_location".
Proof.
  split; [vm_compute; reflexivity|].
  destruct (answer_is_kept_when_the_engine_fails strict_started "s1" 11
              (AnswerRequest.mk "Elbow")
              (Session.set_current_question_id (Some "q1_location")
                 (Session.new "s1" IN_PROGRESS 10 "knee pain"))
              (HTTPException 400 "Invalid answer for categorical question")
              (snd (submit_answer "s1" 11 (AnswerRequest.mk "Elbow") strict_started))
              strict_started_reachable
              ltac:(vm_compute; reflexivity) ltac:(reflexivity) ltac:(reflexivity)
              ltac:(vm_compute; reflexivity))
    as (s' & Hs' & Hresp & Hq & Hst & Hcur & _).
  exists s'. auto.
Defined.

(** C7, the defect, on the example: the silent engine has no question for
    "knee pain"; the patient is told the assessment is complete, and the
    session is still IN_PROGRESS, with no active question. *)
Theorem start_chat_without_question_stays_in_progress :
  fst (start_chat "s1" silent_created) =
    inr (StartChatResponse.mk "s1" None
           "Assessment complete. A clinician will review your responses.")
  /\ session_of (snd (start_chat "s1" silent_created)) "s1" =
       Some (Session.new "s1" IN_PROGRESS 10 "knee pain")
  /\ fst (get_next_question "s1" (snd (start_chat "s1" silent_created))) =
       inr (AnswerResponse.mk "s1" None false "Please use /start to begin the assessment.").
Proof. repeat split; vm_compute; reflexivity. Qed.

(** C8, the counterexample: an empty chief complaint is accepted. *)
Lemma create_session_accepts_empty_complaint :
  CreateSessionRequest.chief_complaint (CreateSessionRequest.mk "") = ""
  /\ fst (CreateSession "s1" 10 (CreateSessionRequest.mk "") (@initial_world mock_deployment))
       = inr (CreateSessionResponse.mk "s1" "in_progress" 10)
  /\ forall errs,
       fst (CreateSession "s1" 10 (CreateSessionRequest.mk "")
              (@initial_world mock_deployment))
         <> inl (RequestValidationError errs).
Proof. repeat split. discriminate. Qed.

(** C8 as amended, on the example. *)
Lemma create_session_accepts_every_complaint_witness :
  fst (CreateSession "s2" 40 (CreateSessionRequest.mk "") mock_pending)
    = inr (CreateSessionResponse.mk "s2" "in_progress" 40)
  /\ fst (start_chat "s2" (snd (CreateSession "s2" 40 (CreateSessionRequest.mk "")
                                  mock_pending)))
       = inl (HTTPException 400 "Chief complaint not set").
Proof.
  assert (H := create_session_accepts_every_complaint mock_pending "s2" 40
                 (CreateSessionRequest.mk "") mock_pending_reachable
                 ltac:(vm_compute; reflexivity)).
  split; [apply (proj1 H)|apply (proj2 (proj2 (proj2 H))); reflexivity].
Defined.

(** C9 on the example: the first answer of the mock flow. *)
Lemma responses_match_questions_asked_witness :
  Z.of_nat (length (Session.patient_responses
                      (Session.set_current_question_id (Some "q1_location")
                         (Session.new "s1" IN_PROGRESS 10 "knee pain")))) = 0
  /\ exists s',
       session_of (serve (POST_chat_answer "s1" 11 (AnswerRequest.mk "Knee")) mock_started)
         "s1" = Some s' /\
       Z.of_nat (length (Session.patient_responses s')) = Session.questions_asked s'.
Proof.
  destruct (responses_match_questions_asked mock_started
              (POST_chat_answer "s1" 11 (AnswerRequest.mk "Knee")) "s1"
              (Session.set_current_question_id (Some "q1_location")
                 (Session.new "s1" IN_PROGRESS 10 "knee pain"))
              mock_started_reachable I ltac:(vm_compute; reflexivity))
    as (H0 & s' & Hs' & _ & _ & Hlen).
  split; [exact H0|]. exists s'. auto.
Defined.

(** C10 on the example: "A1" starts with a letter and is refused. *)
Lemma short_replacement_code_is_rejected_witness :
  exists errs,
    RejectAndReplace "s1" 20
      (RejectReplaceDecision.mk "dr1" "A1" "Pain is patellofemoral, no arthritis.")
      mock_pending
      = (inl (RequestValidationError errs), mock_pending)
    /\ ("replacement_icd10", "string_too_short") ∈ errs.
Proof.
  apply (short_replacement_code_is_rejected mock_pending "s1" 20
           (RejectReplaceDecision.mk "dr1" "A1" "Pain is patellofemoral, no arthritis.")).
  vm_compute. reflexivity.
Defined.

Example strip_upper_m25 :
  RejectReplaceDecision.validate_icd10_format " m25.561 " = inr "M25.561".
Proof. reflexivity. Qed.

(** The scenario of the specification, on the mock flow: "m25.561" is
    accepted as "M25.561"; "123.45" is refused. *)
Example reject_normalises_the_code :
  fst (RejectAndReplace "s1" 20 dr1_rejects mock_pending) =
    inr (ReviewResult.mk "s1" "rejected_replaced" "M25.561" "dr1" 20).
Proof. vm_compute. reflexivity. Qed.

Example reject_refuses_a_digit :
  fst (RejectAndReplace "s1" 20
         (RejectReplaceDecision.mk "dr1" "123.45" "Pain is patellofemoral, no arthritis.")
         mock_pending) =
    inl (RequestValidationError [("replacement_icd10", "value_error")]).
Proof. vm_compute. reflexivity. Qed.

(** ** The further properties on example runs *)

Lemma mock_created_reachable : reachable mock_created.
Proof. unfold mock_created. by_run. Qed.

Lemma mock_clinic_reachable : reachable mock_clinic.
Proof.
  unfold mock_clinic.
  do 4 (apply reachable_serve; [|first [exact I | vm_compute; reflexivity]]).
  apply mock_pending_reachable.
Qed.

Lemma strict_created_reachable : reachable strict_created.
Proof. unfold strict_created. by_run. Qed.

Lemma mock_started_to_reviewed : run mock_started mock_reviewed.
Proof.
  unfold mock_reviewed, mock_pending.
  do 6 (apply run_serve; [|exact I]). apply run_refl.
Qed.

Lemma mock_pending_to_reviewed : run mock_pending mock_reviewed.
Proof. unfold mock_reviewed. apply run_serve; [apply run_refl|exact I]. Qed.

Example mock_started_session : session_of mock_started "s1" = Some s1_started.
Proof. vm_compute. reflexivity. Qed.

Example mock_pending_session : session_of mock_pending "s1" = Some s1_pending.
Proof. vm_compute. reflexivity. Qed.

(** The queue and the counts of the clinic with three sessions. *)
Example mock_clinic_queue :
  fst (get_pending_sessions mock_clinic) = inr [s1_entry; s2_entry].
Proof. vm_compute. reflexivity. Qed.

Example mock_clinic_counts :
  exists counts,
    fst (get_session_counts mock_clinic) = inr counts
    /\ counts !! "in_progress" = Some 1
    /\ counts !! "pending_review" = Some 2
    /\ counts !! "reviewed" = Some 0.
Proof. eexists. split; [reflexivity|]. repeat split; vm_compute; reflexivity. Qed.



(** A form that lets "25.561" through: the validator refuses it with a
    validation error. *)
Lemma reject_form_protects_the_validator_witness :
  reject_form_errors "25.561" "Pain is patellofemoral, no arthritis." = []
  /\ 20 <= len "Pain is patellofemoral, no arthritis."
  /\ ((exists d,
         RejectReplaceDecision.validate
           (RejectReplaceDecision.mk "dr1" "25.561" "Pain is patellofemoral, no arthritis.")
           = inr d)
      \/ (exists errs,
            RejectReplaceDecision.validate
              (RejectReplaceDecision.mk "dr1" "25.561" "Pain is patellofemoral, no arthritis.")
              = inl (RequestValidationError errs))).
Proof.
  split; [vm_compute; reflexivity|].
  apply (reject_form_protects_the_validator "25.561"
           "Pain is patellofemoral, no arthritis." "dr1").
  vm_compute. reflexivity.
Defined.

(** The complaint "knee pain" passes the form, and [start_chat] asks the
    strict engine's question. *)
Lemma start_form_complaint_is_set_witness :
  start_form_passes "knee pain" = true
  /\ fst (start_chat "s1" strict_created) =
       match fst (start_session "s1" "knee pain" strict_created) with
       | inl e => inl e
       | inr None => inr (StartChatResponse.mk "s1" None complete_message)
       | inr (Some q) =>
           inr (StartChatResponse.mk "s1" (Some (QuestionResult.to_Question q))
                  "Please answer the following question.")
       end.
Proof.
  split; [vm_compute; reflexivity|].
  exact (start_form_complaint_is_set (D:=strict_deployment) initial_world "s1" 10 "knee pain"
           (reachable_init _) ltac:(vm_compute; reflexivity) ltac:(vm_compute; reflexivity)).
Defined.

(** From [start_chat] to the review, the session of the example run keeps
    its identity. *)
Lemma sessions_only_move_forward_witness :
  exists s',
    session_of mock_reviewed "s1" = Some s' /\
    Session.session_id s' = "s1" /\
    Session.created_at s' = 10 /\
    Session.chief_complaint s' = Some "knee pain" /\
    (rank IN_PROGRESS <= rank (Session.status s'))%nat.
Proof.
  exact (sessions_only_move_forward mock_started mock_reviewed "s1" s1_started
           mock_started_reachable mock_started_to_reviewed mock_started_session).
Defined.

(** The review of the example run leaves what the patient's side wrote. *)
Lemma handed_over_record_is_frozen_witness :
  exists s',
    session_of mock_reviewed "s1" = Some s' /\
    Session.status s' <> IN_PROGRESS /\
    Session.patient_responses s' = Session.patient_responses s1_pending /\
    Session.questions_asked s' = 5 /\
    Session.suggested_icd10 s' = Some "M17.11" /\
    Session.suggested_condition_name s' = Some "Primary osteoarthritis, right knee" /\
    Session.current_question_id s' = None.
Proof.
  exact (handed_over_record_is_frozen mock_pending mock_reviewed "s1" s1_pending
           mock_pending_reachable mock_pending_to_reviewed mock_pending_session
           ltac:(discriminate)).
Defined.


(** The suggestion of the example run: none while in progress, set at the
    hand-over. *)
Lemma suggestion_is_set_by_the_hand_over_witness :
  (Session.suggested_icd10 s1_started = None /\
   Session.suggested_condition_name s1_started = None)
  /\ (exists icd10 name,
        Session.suggested_icd10 s1_pending = Some icd10 /\
        Session.suggested_condition_name s1_pending = Some name)
  /\ Session.current_question_id s1_pending = None.
Proof.
  split.
  - exact (proj1 (suggestion_is_set_by_the_hand_over mock_started "s1" s1_started
                    mock_started_reachable mock_started_session) eq_refl).
  - exact (proj2 (suggestion_is_set_by_the_hand_over mock_pending "s1" s1_pending
                    mock_pending_reachable mock_pending_session) ltac:(discriminate)).
Defined.

(** The third response of the example run. *)
Lemma responses_are_numbered_witness :
  PatientResponse.question_text (PatientResponse.mk "q3_stairs" "Question 3" "Yes" 13)
    = "Question " ++ pretty (Z.of_nat 2 + 1)
  /\ PatientResponse.question_id (PatientResponse.mk "q3_stairs" "Question 3" "Yes" 13) <> ""
  /\ (2 < length (Session.patient_responses s1_pending))%nat
  /\ Z.of_nat (length (Session.patient_responses s1_pending))
     = Session.questions_asked s1_pending.
Proof.
  exact (responses_are_numbered mock_pending "s1" s1_pending 2
           (PatientResponse.mk "q3_stairs" "Question 3" "Yes" 13)
           mock_pending_reachable mock_pending_session eq_refl).
Defined.

(** The strict engine's session exists while its session is in progress. *)
Lemma engine_session_only_while_in_progress_witness :
  INTELLIGENCE_AVAILABLE strict_deployment = true
  /\ exists s, session_of strict_started "s1" = Some s /\ Session.status s = IN_PROGRESS.
Proof.
  apply (engine_session_only_while_in_progress strict_started "s1" strict_started_reachable).
  vm_compute. eauto.
Defined.

(** The strict engine is asked about every answer to its question. *)
Lemma active_question_has_an_engine_session_witness :
  exists c,
    adapter_sessions strict_started !! "s1" = Some c
    /\ forall qid answer,
         fst (answer_question "s1" qid answer strict_started) =
           match fst (Engine.answer_question (engine strict_deployment) c qid answer) with
           | inl e => inl e
           | inr None => inr None
           | inr (Some q) => inr (Some (QuestionResult.of_engine q))
           end.
Proof.
  exact (active_question_has_an_engine_session strict_started "s1"
           (Session.set_current_question_id (Some "q1_location")
              (Session.new "s1" IN_PROGRESS 10 "knee pain"))
           strict_started_reachable eq_refl ltac:(vm_compute; reflexivity) eq_refl).
Defined.

(** No session "s2" was created in the example run. *)
Lemma unknown_session_is_not_found_witness :
  get_session "s2" mock_pending = (inl NotFound, mock_pending)
  /\ get_session_for_review "s2" mock_pending = (inl NotFound, mock_pending)
  /\ submit_answer "s2" 16 (AnswerRequest.mk "Knee") mock_pending
     = (inl NotFound, mock_pending)
  /\ reject_and_replace "s2" 20 dr1_rejects mock_pending = (inl NotFound, mock_pending).
Proof.
  destruct (unknown_session_is_not_found mock_pending "s2" ltac:(vm_compute; reflexivity))
    as (Hget & _ & _ & Hanswer & _ & Hdetail & _ & Hreject).
  split; [exact Hget|]. split; [exact Hdetail|].
  split; [apply Hanswer|apply Hreject].
Defined.

(** After the hand-over of the example run the patient's routes answer 400. *)
Lemma patient_routes_require_in_progress_witness :
  start_chat "s1" mock_pending = (inl (not_in_progress PENDING_REVIEW), mock_pending)
  /\ (forall now request,
        submit_answer "s1" now request mock_pending
          = (inl (not_in_progress PENDING_REVIEW), mock_pending))
  /\ complete_assessment "s1" mock_pending
     = (inl (not_in_progress PENDING_REVIEW), mock_pending).
Proof.
  exact (patient_routes_require_in_progress mock_pending "s1" s1_pending
           mock_pending_reachable mock_pending_session ltac:(discriminate)).
Defined.

(** An answer sent before [start_chat]. *)
Lemma answer_without_active_question_is_not_recorded_witness :
  submit_answer "s1" 11 (AnswerRequest.mk "Knee") mock_created =
    (inl (HTTPException 400 "No active question. Please use /start to begin."),
     mock_created).
Proof.
  apply (answer_without_active_question_is_not_recorded mock_created "s1"
           (Session.new "s1" IN_PROGRESS 10 "knee pain") 11 (AnswerRequest.mk "Knee")
           mock_created_reachable);
    [vm_compute; reflexivity|reflexivity|reflexivity].
Defined.

(** The started session of the example run has an active question, and
    [get_next_question] does not return it. *)
Lemma get_next_question_never_returns_a_question_witness :
  Session.current_question_id s1_started = Some "q1_location"
  /\ exists message,
       get_next_question "s1" mock_started =
         (inr (AnswerResponse.mk "s1" None false message), mock_started).
Proof.
  split; [reflexivity|].
  exact (get_next_question_never_returns_a_question mock_started "s1" s1_started
           mock_started_session).
Defined.

(** Completing the started session of the strict engine. *)
Lemma complete_assessment_always_hands_over_witness :
  exists icd10 name,
    fst (complete_assessment "s1" strict_started)
      = inr (AnswerResponse.mk "s1" None true thank_you)
    /\ session_of (snd (complete_assessment "s1" strict_started)) "s1"
       = Some (hand_over icd10 name
                 (Session.set_current_question_id (Some "q1_location")
                    (Session.new "s1" IN_PROGRESS 10 "knee pain")))
    /\ adapter_sessions (snd (complete_assessment "s1" strict_started)) !! "s1" = None
    /\ forall sid', sid' <> "s1" ->
         session_of (snd (complete_assessment "s1" strict_started)) sid'
           = session_of strict_started sid'
         /\ adapter_sessions (snd (complete_assessment "s1" strict_started)) !! sid'
            = adapter_sessions strict_started !! sid'.
Proof.
  exact (complete_assessment_always_hands_over strict_started "s1"
           (Session.set_current_question_id (Some "q1_location")
              (Session.new "s1" IN_PROGRESS 10 "knee pain"))
           strict_started_reachable ltac:(vm_compute; reflexivity) eq_refl).
Defined.

(** Completing a session that was never started: with the engine installed
    the default suggestion is stored, without it the mock one. *)
Lemma completing_without_engine_session_witness :
  session_of (snd (complete_assessment "s1" strict_created)) "s1" =
    Some (hand_over "Z03.89" "Observation for suspected condition"
            (Session.new "s1" IN_PROGRESS 10 "knee pain"))
  /\ session_of (snd (complete_assessment "s1" mock_created)) "s1" =
       Some (hand_over "M17.11" "Primary osteoarthritis, right knee"
               (Session.new "s1" IN_PROGRESS 10 "knee pain")).
Proof.
  split.
  - exact (completing_without_engine_session strict_created "s1"
             (Session.new "s1" IN_PROGRESS 10 "knee pain") strict_created_reachable
             ltac:(vm_compute; reflexivity) eq_refl ltac:(vm_compute; reflexivity)).
  - exact (completing_without_engine_session mock_created "s1"
             (Session.new "s1" IN_PROGRESS 10 "knee pain") mock_created_reachable
             ltac:(vm_compute; reflexivity) eq_refl ltac:(vm_compute; reflexivity)).
Defined.

(** The five answers of the example run. *)
Lemma mock_flow_takes_five_answers_witness :
  session_of mock_pending "s1" = Some s1_pending.
Proof.
  exact (proj2 (mock_flow_takes_five_answers (D:=mock_deployment) mock_started "s1" s1_started
                  "Knee" "1-4 weeks" "Yes" "Occasional" "Less than 30 minutes"
                  11 12 13 14 15
                  eq_refl mock_started_reachable mock_started_session eq_refl eq_refl)).
Defined.

(** The detail read after the rejection of the example run. *)
Lemma review_detail_agrees_with_the_decision_witness :
  exists s detail,
    session_of mock_pending "s1" = Some s /\
    get_session_for_review "s1" mock_reviewed = (inr detail, mock_reviewed) /\
    SessionDetailResponse.status detail = "reviewed" /\
    SessionDetailResponse.decision detail = Some "rejected_replaced" /\
    SessionDetailResponse.final_icd10 detail = Some "M25.561" /\
    SessionDetailResponse.clinician_id detail = Some "dr1" /\
    SessionDetailResponse.reviewed_at detail = Some 20 /\
    SessionDetailResponse.clinician_notes detail
      = Some "Pain is patellofemoral, no arthritis." /\
    SessionDetailResponse.suggested_icd10 detail = Session.suggested_icd10 s /\
    SessionDetailResponse.patient_responses detail = Session.patient_responses s.
Proof.
  exact (proj2 (review_detail_agrees_with_the_decision mock_pending "s1" 20
                  mock_pending_reachable)
           dr1_rejects (ReviewResult.mk "s1" "rejected_replaced" "M25.561" "dr1" 20)
           mock_reviewed ltac:(vm_compute; reflexivity)).
Defined.

(** The queue of the clinic with three sessions. *)
Lemma pending_queue_lists_the_pending_sessions_witness :
  exists entries,
    get_pending_sessions mock_clinic = (inr entries, mock_clinic)
    /\ (forall e,
          e ∈ entries <->
          exists sid s,
            session_of mock_clinic sid = Some s /\ Session.status s = PENDING_REVIEW /\
            e = PendingSessionResponse.mk sid "pending_review" (Session.created_at s)
                  (Session.chief_complaint s) (Session.questions_asked s)
                  (Session.suggested_icd10 s) (Session.suggested_condition_name s))
    /\ (forall e,
          e ∈ entries ->
          exists icd10 name,
            PendingSessionResponse.suggested_icd10 e = Some icd10 /\
            PendingSessionResponse.suggested_condition_name e = Some name)
    /\ NoDup (PendingSessionResponse.session_id <$> entries).
Proof.
  exact (pending_queue_lists_the_pending_sessions mock_clinic mock_clinic_reachable).
Defined.

(** Accepting s1 in the clinic with three sessions leaves s2 in the queue. *)
Lemma decision_leaves_the_queue_witness :
  fst (get_pending_sessions
         (snd (AcceptSuggestion "s1" 50 (AcceptDecision.mk "dr1" "I agree with it.")
                 mock_clinic)))
    = inr [s2_entry].
Proof.
  destruct (decision_leaves_the_queue mock_clinic "s1" 50 mock_clinic_reachable)
    as (entries & Hentries & Haccept & _).
  destruct (AcceptSuggestion "s1" 50 (AcceptDecision.mk "dr1" "I agree with it.") mock_clinic)
    as [[e|result] w'] eqn:Hrun; [vm_compute in Hrun; discriminate|].
  cbn [snd]. rewrite (Haccept _ _ _ Hrun).
  vm_compute in Hentries. injection Hentries as <-. vm_compute. reflexivity.
Defined.

(** The listing of the clinic with three sessions. *)
Lemma listing_holds_every_session_once_witness :
  exists all,
    list_all mock_clinic = (inr all, mock_clinic)
    /\ (forall s, s ∈ all <-> exists sid, session_of mock_clinic sid = Some s)
    /\ NoDup (Session.session_id <$> all).
Proof.
  exact (listing_holds_every_session_once mock_clinic mock_clinic_reachable).
Defined.

(** The refusal of [start_chat] after the hand-over of the example run. *)
Lemma mock_routes_fail_only_with_400_or_404_witness :
  exists code detail,
    fst (start_chat "s1" mock_pending) = inl (HTTPException code detail)
    /\ (code = 400 \/ code = 404).
Proof.
  destruct (mock_routes_fail_only_with_400_or_404 (D:=mock_deployment) mock_pending "s1"
              (not_in_progress PENDING_REVIEW) eq_refl mock_pending_reachable
              ltac:(right; left; vm_compute; reflexivity)) as (code & detail & He & Hc).
  exists code, detail. split; [rewrite <- He; vm_compute; reflexivity|exact Hc].
Defined.
